(** * Scanagram: the request governor and the retry wrapper

    A shallow embedding of [IntelligentRateLimiter] and [retry_with_backoff]
    of [Scanagram.py].

    Time.  A [datetime] is a point on the rational line, in seconds; a
    [timedelta] and the argument of [time.sleep] are rationals too, so
    [(a - b).total_seconds()] is plain subtraction.  Rounding of floats is not
    modelled; an int that is too large for a float raises [OverflowError]
    where it is taken into float arithmetic, as the delay of the retry
    wrapper is.  The clock is a simulated one: [datetime.now()] reads it and
    [time.sleep d] moves it forward by exactly [d].

    Effects.  The code mutates [self.state] and [self.request_history], sleeps
    and can raise; this is a state monad whose state survives an exception,
    as a Python object does.  Calls of the logger and of [print] change
    nothing that is modelled here and are left out of the governor; the retry
    wrapper keeps its log lines, since they are its only trace of giving up.

    Randomness.  Each [random.uniform(a, b)] is an argument of the function
    that draws it: the value the generator returned.

    Beyond the governor and the wrapper the development covers their
    callers, the body of [get_profile] and [analyze_posts] under its
    decorator, where the remote service is an outcome and the time it took
    and a sleep of the wrapper is time that passes for the governor, and
    the statistics computed from the
    posts: [calculate_engagement_stats], [temporal_analysis] and the
    extraction of hashtags.  A [str] is the list of its code points, and
    [sorted], [round], [sum], [max] and [re.findall] are defined as Python
    defines them. *)

From Stdlib Require Import QArith Qround Qminmax Qpower Qabs.
From Stdlib Require Import ZArith List Bool Lia Lqa.
From Stdlib Require Import Permutation Sorted.
Import ListNotations.

Open Scope Q_scope.

(** ** Rational comparisons as the code's boolean tests *)

Definition Qltb (a b : Q) : bool := negb (Qle_bool b a).
Definition Qgtb (a b : Q) : bool := Qltb b a.

(** Python's [int(x)] on a number: truncation toward zero. *)
Definition py_int (x : Q) : Z := Z.quot (Qnum x) (Zpos (Qden x)).

(** ** Exceptions *)

(** The classes the code tests with [isinstance], the built-in errors its
    own calls can raise, every other class that derives from [Exception],
    and the classes that do not: [KeyboardInterrupt], [SystemExit] and
    whatever else derives from [BaseException] alone. *)
Inductive exc_class :=
| ValueError
| TypeError
| OverflowError
| RequestException
| LoginRequiredException
| PrivateProfileNotFollowedException
| ProfileNotExistsException
| ConnectionException
| OtherException
| KeyboardInterrupt
| SystemExit
| OtherBaseException.

(** An exception object: its class and its arguments (a number stands for
    them, enough to tell two objects of one class apart). *)
Record exn := mk_exn { exn_class : exc_class; exn_args : nat }.

Definition exc_class_eqb (a b : exc_class) : bool :=
  match a, b with
  | ValueError, ValueError
  | TypeError, TypeError
  | OverflowError, OverflowError
  | RequestException, RequestException
  | LoginRequiredException, LoginRequiredException
  | PrivateProfileNotFollowedException, PrivateProfileNotFollowedException
  | ProfileNotExistsException, ProfileNotExistsException
  | ConnectionException, ConnectionException
  | OtherException, OtherException
  | KeyboardInterrupt, KeyboardInterrupt
  | SystemExit, SystemExit
  | OtherBaseException, OtherBaseException => true
  | _, _ => false
  end.

Definition isinstance (e : exn) (cs : list exc_class) : bool :=
  existsb (exc_class_eqb (exn_class e)) cs.

(** [isinstance(e, Exception)]: what [except Exception] catches. *)
Definition is_Exception (e : exn) : bool :=
  match exn_class e with
  | KeyboardInterrupt | SystemExit | OtherBaseException => false
  | _ => true
  end.

Inductive result (A : Type) :=
| Ok (a : A)
| Raise (e : exn).
Arguments Ok {A} a.
Arguments Raise {A} e.

(** The exception object a call hands to its caller, when it raises. *)
Definition raised {A} (r : result A) : option exn :=
  match r with
  | Ok _ => None
  | Raise e => Some e
  end.

(** ** CONFIG["rate_limit"] and RateLimitState *)

Record rate_limit_config := {
  requests_per_hour : Z;
  min_delay : Q;
  max_delay : Q;
  burst_limit : Z;
  cooldown_after_burst : Q
}.

Definition default_rate_limit : rate_limit_config := {|
  requests_per_hour := 180;
  min_delay := 2;
  max_delay := 5;
  burst_limit := 10;
  cooldown_after_burst := 60
|}.

Record RateLimitState := {
  requests_made : Z;
  window_start : Q;
  last_request : option Q;
  burst_count : Z;
  burst_start : option Q;
  is_cooling_down : bool;
  cooldown_until : option Q
}.

(** [deque(maxlen=200)]. *)
Definition history_maxlen : nat := 200.

(** The governor with what it reads from outside: the clock, the sleeps made
    so far (oldest first) and [CONFIG["stealth"]["randomize_timing"]]. *)
Record world := {
  clock : Q;
  slept : list Q;
  config : rate_limit_config;
  randomize_timing : bool;
  state : RateLimitState;
  request_history : list Q
}.

Definition with_state (s : RateLimitState) (w : world) : world := {|
  clock := clock w; slept := slept w; config := config w;
  randomize_timing := randomize_timing w;
  state := s; request_history := request_history w |}.

Definition with_history (h : list Q) (w : world) : world := {|
  clock := clock w; slept := slept w; config := config w;
  randomize_timing := randomize_timing w;
  state := state w; request_history := h |}.

(** The clock after a sleep of [d]. *)
Definition after_sleep (d : Q) (w : world) : world := {|
  clock := clock w + d; slept := slept w ++ [d]; config := config w;
  randomize_timing := randomize_timing w;
  state := state w; request_history := request_history w |}.

(** Time that passes outside the governor (the caller's remote call). *)
Definition time_passes (d : Q) (w : world) : world := {|
  clock := clock w + d; slept := slept w; config := config w;
  randomize_timing := randomize_timing w;
  state := state w; request_history := request_history w |}.

(** [RateLimitState()] at time [t0] and [IntelligentRateLimiter(config)]. *)
Definition RateLimitState_init (t0 : Q) : RateLimitState := {|
  requests_made := 0;
  window_start := t0;
  last_request := None;
  burst_count := 0;
  burst_start := None;
  is_cooling_down := false;
  cooldown_until := None
|}.

Definition IntelligentRateLimiter_init (cfg : rate_limit_config)
    (stealth : bool) (t0 : Q) : world := {|
  clock := t0;
  slept := [];
  config := cfg;
  randomize_timing := stealth;
  state := RateLimitState_init t0;
  request_history := []
|}.

(** ** The monad of the governor's methods *)

Definition M (A : Type) : Type := world -> result A * world.

Definition ret {A} (a : A) : M A := fun w => (Ok a, w).

Definition bind {A B} (m : M A) (k : A -> M B) : M B :=
  fun w => match m w with
           | (Ok a, w') => k a w'
           | (Raise e, w') => (Raise e, w')
           end.

Definition raise {A} (c : exc_class) : M A := fun w => (Raise (mk_exn c 0), w).

Declare Scope gov_scope.
Delimit Scope gov_scope with gov.
Notation "x <- m ;; k" := (bind m (fun x => k))
  (at level 100, m at next level, right associativity) : gov_scope.
Notation "m ;; k" := (bind m (fun _ => k))
  (at level 100, right associativity) : gov_scope.

Definition get_state : M RateLimitState := fun w => (Ok (state w), w).

Definition get_config : M rate_limit_config := fun w => (Ok (config w), w).

Definition get_history : M (list Q) := fun w => (Ok (request_history w), w).

Definition put_state (s : RateLimitState) : M unit := fun w =>
  (Ok tt, with_state s w).

Definition modify_state (f : RateLimitState -> RateLimitState) : M unit :=
  fun w => put_state (f (state w)) w.

(** [datetime.now()] *)
Definition datetime_now : M Q := fun w => (Ok (clock w), w).

(** [time.sleep(d)]: a negative length is a [ValueError]. *)
Definition time_sleep (d : Q) : M unit := fun w =>
  if Qltb d 0 then (Raise (mk_exn ValueError 0), w)
  else (Ok tt, after_sleep d w).

(** The field updates of [self.state]. *)
Definition set_is_cooling_down (b : bool) (s : RateLimitState) := {|
  requests_made := requests_made s; window_start := window_start s;
  last_request := last_request s; burst_count := burst_count s;
  burst_start := burst_start s; is_cooling_down := b;
  cooldown_until := cooldown_until s |}.

Definition set_burst_count (n : Z) (s : RateLimitState) := {|
  requests_made := requests_made s; window_start := window_start s;
  last_request := last_request s; burst_count := n;
  burst_start := burst_start s; is_cooling_down := is_cooling_down s;
  cooldown_until := cooldown_until s |}.

Definition set_burst_start (t : Q) (s : RateLimitState) := {|
  requests_made := requests_made s; window_start := window_start s;
  last_request := last_request s; burst_count := burst_count s;
  burst_start := Some t; is_cooling_down := is_cooling_down s;
  cooldown_until := cooldown_until s |}.

Definition set_cooldown_until (t : Q) (s : RateLimitState) := {|
  requests_made := requests_made s; window_start := window_start s;
  last_request := last_request s; burst_count := burst_count s;
  burst_start := burst_start s; is_cooling_down := is_cooling_down s;
  cooldown_until := Some t |}.

Definition set_last_request (t : Q) (s : RateLimitState) := {|
  requests_made := requests_made s; window_start := window_start s;
  last_request := Some t; burst_count := burst_count s;
  burst_start := burst_start s; is_cooling_down := is_cooling_down s;
  cooldown_until := cooldown_until s |}.

Definition set_requests_made (n : Z) (s : RateLimitState) := {|
  requests_made := n; window_start := window_start s;
  last_request := last_request s; burst_count := burst_count s;
  burst_start := burst_start s; is_cooling_down := is_cooling_down s;
  cooldown_until := cooldown_until s |}.

(** ** IntelligentRateLimiter._sleep_with_progress *)

(** [for i in range(steps): ...; time.sleep(1)] *)
Fixpoint sleep_steps (steps : nat) : M unit :=
  match steps with
  | O => ret tt
  | S n => (time_sleep 1 ;; sleep_steps n)%gov
  end.

Definition _sleep_with_progress (seconds : Q) : M unit :=
  if Qltb seconds 5 then time_sleep seconds
  else sleep_steps (Z.to_nat (py_int seconds)).

(** ** IntelligentRateLimiter.wait_if_needed *)

Definition one_hour : Q := 3600.

(** Python's [min] of a list: the first least element, [ValueError] on the
    empty list (here [None]). *)
Definition py_min (l : list Q) : option Q :=
  match l with
  | [] => None
  | x :: r => Some (fold_left (fun m y => if Qltb y m then y else m) r x)
  end.

(** Python's [max(a, b)] and [min(a, b)] of two numbers. *)
Definition py_max2 (a b : Q) : Q := if Qltb a b then b else a.
Definition py_min2 (a b : Q) : Q := if Qltb b a then b else a.

(** [[t for t in self.request_history if t > one_hour_ago]] *)
Definition recent_requests (now : Q) (h : list Q) : list Q :=
  let one_hour_ago := now - one_hour in
  filter (fun t => Qgtb t one_hour_ago) h.

(** 1. Check if in cooldown *)
Definition cooldown_check (now : Q) : M unit :=
  (s <- get_state ;;
   if is_cooling_down s then
     match cooldown_until s with
     | None => raise TypeError
     | Some until =>
         if Qltb now until then
           let wait_time := until - now in
           _sleep_with_progress wait_time
         else
           (modify_state (set_is_cooling_down false) ;;
            modify_state (set_burst_count 0))
     end
   else ret tt)%gov.

(** 2. Rolling window check (requests per hour) *)
Definition rolling_window_check (now : Q) : M unit :=
  (h <- get_history ;;
   cfg <- get_config ;;
   let recent := recent_requests now h in
   if (requests_per_hour cfg <=? Z.of_nat (length recent))%Z then
     match py_min recent with
     | None => raise ValueError
     | Some oldest =>
         let wait_until := oldest + one_hour in
         let wait_time := wait_until - now in
         _sleep_with_progress wait_time
     end
   else ret tt)%gov.

(** The wait of step 3 for [time_since_last < min_delay]; [jitter_draw] is
    the value of [random.uniform(-0.3, 0.3)]. *)
Definition spacing_wait (min_delay time_since_last jitter_draw : Q) : Q :=
  let wait_time := min_delay - time_since_last in
  let jitter := jitter_draw * wait_time in
  let wait_time := wait_time + jitter in
  py_max2 0 wait_time.

(** 3. Minimum delay since last request *)
Definition min_delay_check (now jitter_draw : Q) : M unit :=
  (s <- get_state ;;
   cfg <- get_config ;;
   match last_request s with
   | Some last =>
       let time_since_last := now - last in
       if Qltb time_since_last (min_delay cfg) then
         time_sleep (spacing_wait (min_delay cfg) time_since_last jitter_draw)
       else ret tt
   | None => ret tt
   end)%gov.

(** 4. Burst detection *)
Definition burst_detection (now : Q) : M unit :=
  (s <- get_state ;;
   cfg <- get_config ;;
   match burst_start s with
   | Some start =>
       let burst_duration := now - start in
       if Qltb burst_duration 10 then
         (modify_state (fun s => set_burst_count (burst_count s + 1)%Z s) ;;
          s' <- get_state ;;
          if (burst_limit cfg <=? burst_count s')%Z then
            (modify_state (set_is_cooling_down true) ;;
             modify_state (set_cooldown_until (now + cooldown_after_burst cfg)) ;;
             _sleep_with_progress (cooldown_after_burst cfg) ;;
             modify_state (set_burst_count 0))
          else ret tt)
       else
         (modify_state (set_burst_start now) ;;
          modify_state (set_burst_count 1))
   | None =>
       (modify_state (set_burst_start now) ;;
        modify_state (set_burst_count 1))
   end)%gov.

(** 5. Human-like randomization; [random_delay] is the value of
    [random.uniform(0.5, 2.0)]. *)
Definition human_randomization (random_delay : Q) : M unit :=
  fun w => if randomize_timing w then time_sleep random_delay w
           else ret tt w.

(** Steps 2 to 4, which follow the cooldown check. *)
Definition steps_after_cooldown (now jitter_draw : Q) : M unit :=
  (rolling_window_check now ;;
   min_delay_check now jitter_draw ;;
   burst_detection now)%gov.

Definition wait_if_needed (jitter_draw random_delay : Q) : M unit :=
  (now <- datetime_now ;;
   cooldown_check now ;;
   steps_after_cooldown now jitter_draw ;;
   human_randomization random_delay)%gov.

(** ** IntelligentRateLimiter.record_request *)

(** [deque.append] under [maxlen]: append on the right, then drop the
    leftmost element if the bound is exceeded. *)
Definition deque_append (maxlen : nat) (x : Q) (d : list Q) : list Q :=
  let d' := d ++ [x] in
  if (maxlen <? length d')%nat then tl d' else d'.

Definition history_append (t : Q) : M unit := fun w =>
  (Ok tt, with_history (deque_append history_maxlen t (request_history w)) w).

Definition record_request : M unit :=
  (now <- datetime_now ;;
   history_append now ;;
   modify_state (set_last_request now) ;;
   modify_state (fun s => set_requests_made (requests_made s + 1)%Z s))%gov.

(** ** IntelligentRateLimiter.get_stats (without the formatted utilization) *)

Record stats := {
  total_requests : Z;
  last_hour : nat;
  limit : Z;
  stats_is_cooling_down : bool
}.

Definition get_stats : M stats :=
  (now <- datetime_now ;;
   h <- get_history ;;
   s <- get_state ;;
   cfg <- get_config ;;
   let recent := recent_requests now h in
   ret {| total_requests := requests_made s;
          last_hour := length recent;
          limit := requests_per_hour cfg;
          stats_is_cooling_down := is_cooling_down s |})%gov.

(** ** Runs of the governor *)

(** One thing that can happen to a governor: time passes, or one of its
    methods is called (whether it returns or raises). *)
Inductive gov_step : world -> world -> Prop :=
| step_time w d : 0 <= d -> gov_step w (time_passes d w)
| step_wait w jitter_draw random_delay :
    gov_step w (snd (wait_if_needed jitter_draw random_delay w))
| step_record w : gov_step w (snd (record_request w))
| step_stats w : gov_step w (snd (get_stats w)).

Inductive gov_steps : world -> world -> Prop :=
| steps_refl w : gov_steps w w
| steps_next w1 w2 w3 : gov_steps w1 w2 -> gov_step w2 w3 -> gov_steps w1 w3.

(** Timestamps in non-decreasing order. *)
Fixpoint time_ordered (l : list Q) : Prop :=
  match l with
  | [] => True
  | x :: r => match r with
              | [] => True
              | y :: _ => x <= y
              end /\ time_ordered r
  end.

(** What every reachable governor satisfies. *)
Record history_inv (w : world) : Prop := {
  inv_length : (length (request_history w) <= history_maxlen)%nat;
  inv_ordered : time_ordered (request_history w);
  inv_past : Forall (fun t => t <= clock w) (request_history w)
}.

(** ** The admission as the specification words it *)

(** Section 4.1 of the specification, last sentence: the steps of
    [wait_if_needed], each taking "now" from the clock as it stands when the
    step begins.  It is here only to be compared with [wait_if_needed]. *)
Definition admit_with_fresh_now (jitter_draw random_delay : Q) : M unit :=
  (now1 <- datetime_now ;;
   cooldown_check now1 ;;
   now2 <- datetime_now ;;
   rolling_window_check now2 ;;
   now3 <- datetime_now ;;
   min_delay_check now3 jitter_draw ;;
   now4 <- datetime_now ;;
   burst_detection now4 ;;
   human_randomization random_delay)%gov.

(** ** CONFIG["retry"] and retry_with_backoff *)

(** [base_delay] and [exponential_base] are Python ints in [CONFIG], so
    [base_delay * exponential_base ** attempt] is an int, exact whatever its
    size; [max_delay] is only compared with; [jitter] is a float. *)
Record retry_config := {
  retry_max_attempts : Z;
  base_delay : Z;
  retry_max_delay : Q;
  exponential_base : Z;
  jitter : Q
}.

Definition default_retry : retry_config := {|
  retry_max_attempts := 3;
  base_delay := 5;
  retry_max_delay := 300;
  exponential_base := 2;
  jitter := 3 # 10
|}.

(** What the wrapper does besides returning: calls of the wrapped function,
    log lines and sleeps. *)
Inductive event :=
| Called (attempt : Z)
| LogError (max_attempts : Z)
| LogWarning (attempt : Z)
| LogInfo (wait_time : Q)
| Slept (wait_time : Q).

Definition is_call (ev : event) : bool :=
  match ev with Called _ => true | _ => false end.

Definition is_sleep (ev : event) : bool :=
  match ev with Slept _ => true | _ => false end.

Definition is_log_error (ev : event) : bool :=
  match ev with LogError _ => true | _ => false end.

(** The classes the wrapper re-raises at once. *)
Definition non_retryable : list exc_class :=
  [LoginRequiredException; PrivateProfileNotFollowedException;
   ProfileNotExistsException].

(** The least int that does not convert to a float: the midpoint of the
    largest float, [2^1024 - 2^971], and [2^1024]. *)
Definition float_limit : Z := 2 ^ 1024 - 2 ^ 970.

(** An int taken into float arithmetic, as in [x * n] for a float [x]:
    [OverflowError] ("int too large to convert to float") from
    [float_limit] on. *)
Definition float_of_int (n : Z) : result Q :=
  if (float_limit <=? Z.abs n)%Z then Raise (mk_exn OverflowError 0)
  else Ok (inject_Z n).

Section Retry.

(** The wrapped function with its arguments, acting on whatever it acts
    on; what a [time.sleep(d)] of the wrapper, [d] not negative, does to
    that; the flag set by [import requests]; CONFIG["retry"]; and the value
    of [random.uniform(-jitter, jitter)] drawn at each attempt. *)
Variables St V : Type.
Variable func : St -> result V * St.
Variable sleep_on : Q -> St -> St.
Variable REQUESTS_AVAILABLE : bool.
Variable rc : retry_config.
Variable uniform_draw : Z -> Q.

(** [delay], an int. *)
Definition backoff_delay (attempt : Z) : Z :=
  (base_delay rc * exponential_base rc ^ attempt)%Z.

(** [wait_time] of the wrapper, for a drawn value [draw], a float: the
    product [draw * delay] takes [delay] into float arithmetic. *)
Definition backoff_wait_time (attempt : Z) (draw : Q) : result Q :=
  let delay := backoff_delay attempt in
  match float_of_int delay with
  | Raise e => Raise e
  | Ok delay =>
      let jitter := draw * delay in
      Ok (py_min2 (delay + jitter) (retry_max_delay rc))
  end.

(** [for attempt in range(max_attempts)], with [remaining] iterations to
    go; falling out of the loop returns [None].  [except (ConnectionException,
    Exception)] catches what derives from [Exception]; anything else leaves
    the wrapper as it is raised. *)
Fixpoint retry_loop (max_attempts : Z) (remaining : nat) (attempt : Z)
    (s : St) (tr : list event) : result (option V) * (St * list event) :=
  match remaining with
  | O => (Ok None, (s, tr))
  | S n =>
      match func s with
      | (Ok v, s') => (Ok (Some v), (s', tr ++ [Called attempt]))
      | (Raise e, s') =>
          let tr := tr ++ [Called attempt] in
          if negb (is_Exception e) then (Raise e, (s', tr))
          else if (if REQUESTS_AVAILABLE then
                if isinstance e [RequestException] then
                  (attempt =? max_attempts - 1)%Z
                else false
              else false)
          then (Raise e, (s', tr ++ [LogError max_attempts]))
          else if isinstance e non_retryable then (Raise e, (s', tr))
          else if (attempt =? max_attempts - 1)%Z
          then (Raise e, (s', tr ++ [LogError max_attempts]))
          else
            match backoff_wait_time attempt (uniform_draw attempt) with
            | Raise overflow => (Raise overflow, (s', tr))
            | Ok wait_time =>
                let tr := tr ++ [LogWarning attempt; LogInfo wait_time] in
                if Qltb wait_time 0 then (Raise (mk_exn ValueError 0), (s', tr))
                else retry_loop max_attempts n (attempt + 1)%Z
                       (sleep_on wait_time s') (tr ++ [Slept wait_time])
            end
      end
  end.

Definition retry_with_backoff (max_attempts : Z) (s : St) :
    result (option V) * (St * list event) :=
  retry_loop max_attempts (Z.to_nat max_attempts) 0%Z s [].

End Retry.

(** A wrapped function that takes no notice of the time: a sleep of the
    wrapper changes nothing for it. *)
Definition sleep_unseen {St : Type} (d : Q) (s : St) : St := s.

(** ** Relations between the world before and after a method *)

(** The world after [n] sleeps of one second. *)
Fixpoint iter_sleep (n : nat) (w : world) : world :=
  match n with
  | O => w
  | S k => iter_sleep k (after_sleep 1 w)
  end.

(** What no step of [wait_if_needed] touches, and the clock going forward. *)
Record gov_frame (w w' : world) : Prop := {
  fr_config : config w' = config w;
  fr_rand : randomize_timing w' = randomize_timing w;
  fr_history : request_history w' = request_history w;
  fr_made : requests_made (state w') = requests_made (state w);
  fr_last : last_request (state w') = last_request (state w);
  fr_clock : clock w <= clock w'
}.

(** [gov_frame], and the burst window as it was. *)
Record pre_burst_frame (w w' : world) : Prop := {
  pb_frame : gov_frame w w';
  pb_start : burst_start (state w') = burst_start (state w)
}.

(** The cooldown flag, once set, stays set. *)
Definition flag_kept (w w' : world) : Prop :=
  is_cooling_down (state w) = true -> is_cooling_down (state w') = true.

(** The governors on which [wait_if_needed] does not raise: the flag is set
    only together with [cooldown_until], as the code sets it; the limit per
    hour is positive, so the list whose [min] is taken is not empty; the
    cooldown length is a length. *)
Record well_formed (w : world) : Prop := {
  wf_until : is_cooling_down (state w) = true ->
             cooldown_until (state w) <> None;
  wf_limit : (0 < requests_per_hour (config w))%Z;
  wf_cooldown : 0 <= cooldown_after_burst (config w)
}.

(** The first clause of [well_formed] is not lost. *)
Definition until_kept (w w' : world) : Prop :=
  (is_cooling_down (state w) = true -> cooldown_until (state w) <> None) ->
  (is_cooling_down (state w') = true -> cooldown_until (state w') <> None).

(** The sleeps made so far are still there, with the new ones after them. *)
Definition slept_extends (w w' : world) : Prop :=
  exists l, slept w' = slept w ++ l.

(** [w'] is [w] with the clock [d] later. *)
Record shifted (d : Q) (w w' : world) : Prop := {
  sh_clock : clock w' == clock w + d;
  sh_slept : slept w' = slept w;
  sh_config : config w' = config w;
  sh_rand : randomize_timing w' = randomize_timing w;
  sh_state : state w' = state w;
  sh_history : request_history w' = request_history w
}.

(** A method keeps [R] between the world it starts in and the one it leaves,
    however it ends. *)
Definition steady (R : world -> world -> Prop) {A} (m : M A) : Prop :=
  forall w, R w (snd (m w)).

(** An assignment to a field of [self.state] keeps [R], whatever is
    assigned. *)
Definition keeps (R : world -> world -> Prop) {P : Type}
    (set : P -> RateLimitState -> RateLimitState) : Prop :=
  forall p w, R w (with_state (set p (state w)) w).

(** A method does the same whatever the clock shows. *)
Definition clock_blind {A} (m : M A) : Prop :=
  forall d w w', shifted d w w' ->
    fst (m w') = fst (m w) /\ shifted d (snd (m w)) (snd (m w')).

(** The spacing that step 3 aims at, as a fraction of [min_delay]. *)
Definition spacing_jitter : Q := 3 # 10.

(** ** Concrete governors and functions used below *)

(** In cooldown for three more seconds, last request one second ago. *)
Definition cooling_world : world := {|
  clock := 100;
  slept := [];
  config := default_rate_limit;
  randomize_timing := false;
  state := {| requests_made := 5; window_start := 0;
              last_request := Some 99; burst_count := 3;
              burst_start := Some 95; is_cooling_down := true;
              cooldown_until := Some 103 |};
  request_history := [91; 93; 95; 97; 99]
|}.

(** A burst window opened twenty seconds ago, last request one second ago. *)
Definition stale_burst_world : world := {|
  clock := 100;
  slept := [];
  config := default_rate_limit;
  randomize_timing := false;
  state := {| requests_made := 7; window_start := 0;
              last_request := Some 99; burst_count := 7;
              burst_start := Some 80; is_cooling_down := false;
              cooldown_until := None |};
  request_history := [50; 60; 80; 99]
|}.

(** 180 requests in the last hour, the oldest of them 5.9 seconds short of
    being an hour old. *)
Definition full_hour_history : list Q :=
  (59 # 10) :: map (fun i => inject_Z (100 + 10 * Z.of_nat i)) (seq 1 179).

Definition full_hour_world : world := {|
  clock := 3600;
  slept := [];
  config := default_rate_limit;
  randomize_timing := true;
  state := {| requests_made := 180; window_start := 0;
              last_request := Some 1890; burst_count := 1;
              burst_start := Some 1888; is_cooling_down := false;
              cooldown_until := None |};
  request_history := full_hour_history
|}.

(** One cycle of the caller: after [d] seconds, [wait_if_needed], then
    [record_request]. *)
Definition admit_and_record (d jitter_draw random_delay : Q) (w : world) : world :=
  snd (record_request
         (snd (wait_if_needed jitter_draw random_delay (time_passes d w)))).

Fixpoint cycles (n : nat) (d jitter_draw random_delay : Q) (w : world) : world :=
  match n with
  | O => w
  | S k => cycles k d jitter_draw random_delay
             (admit_and_record d jitter_draw random_delay w)
  end.

(** A new governor with the default configuration, then a request recorded
    at 5.9 seconds, 179 more at ten-second intervals, and the clock at one
    hour. *)
Definition busy_hour_world : world :=
  time_passes (18041 # 10)
    (cycles 179 9 0 1
       (admit_and_record (49 # 10) 0 1
          (IntelligentRateLimiter_init default_rate_limit true 0))).

(** A function that fails with a connection error at every call; its state
    counts the calls and numbers the errors. *)
Definition always_connection_error (n : nat) : result unit * nat :=
  (Raise (mk_exn ConnectionException n), S n).

(** A function that finds no profile. *)
Definition profile_missing (n : nat) : result unit * nat :=
  (Raise (mk_exn ProfileNotExistsException n), S n).

(** ** Further relations on governors *)

(** The world a successful [_sleep_with_progress d] leaves. *)
Definition after_progress (d : Q) (w : world) : world :=
  if Qltb d 5 then after_sleep d w
  else iter_sleep (Z.to_nat (Qfloor d)) w.

(** The time [_sleep_with_progress d] really sleeps. *)
Definition progress_length (d : Q) : Q :=
  if Qltb d 5 then d else inject_Z (Qfloor d).

(** Nothing of the governor changed, the clock not gone back. *)
Record state_kept (w w' : world) : Prop := {
  sk_state : state w' = state w;
  sk_config : config w' = config w;
  sk_rand : randomize_timing w' = randomize_timing w;
  sk_history : request_history w' = request_history w;
  sk_slept : slept_extends w w';
  sk_clock : clock w <= clock w'
}.

(** The newest entry of the history. *)
Definition newest (h : list Q) : option Q :=
  match rev h with
  | [] => None
  | t :: _ => Some t
  end.

(** How the counter, the history and [last_request] hang together. *)
Record counts_inv (w : world) : Prop := {
  ci_made : (0 <= requests_made (state w))%Z;
  ci_length : length (request_history w) =
              Z.to_nat (Z.min (requests_made (state w)) (Z.of_nat history_maxlen));
  ci_newest : last_request (state w) = newest (request_history w)
}.

(** A configuration whose hourly limit is 0. *)
Definition zero_limit : rate_limit_config := {|
  requests_per_hour := 0;
  min_delay := 2;
  max_delay := 5;
  burst_limit := 10;
  cooldown_after_burst := 60
|}.

(** Nine admissions in the last five seconds, none recorded yet as the
    tenth begins. *)
Definition rapid_world : world := {|
  clock := 105;
  slept := [];
  config := default_rate_limit;
  randomize_timing := false;
  state := {| requests_made := 9; window_start := 0;
              last_request := Some 102; burst_count := 9;
              burst_start := Some 100; is_cooling_down := false;
              cooldown_until := None |};
  request_history := [100; 100; 101; 101; 101; 102; 102; 102; 102]
|}.

(** Two recorded requests, the governor at rest since. *)
Definition resting_world : world := {|
  clock := 500;
  slept := [];
  config := default_rate_limit;
  randomize_timing := true;
  state := {| requests_made := 2; window_start := 0;
              last_request := Some 130; burst_count := 2;
              burst_start := Some 125; is_cooling_down := false;
              cooldown_until := None |};
  request_history := [120; 130]
|}.

(** The limit of two requests per hour reached, the older of the two an
    hour old in three seconds. *)
Definition two_per_hour_world : world := {|
  clock := 3600;
  slept := [];
  config := {| requests_per_hour := 2; min_delay := 2; max_delay := 5;
               burst_limit := 10; cooldown_after_burst := 60 |};
  randomize_timing := false;
  state := {| requests_made := 2; window_start := 0;
              last_request := Some 1000; burst_count := 1;
              burst_start := Some 998; is_cooling_down := false;
              cooldown_until := None |};
  request_history := [3; 1000]
|}.

(** ** Runs of the wrapped function *)

(** An error the wrapper catches and does not re-raise at once: of a
    class that derives from [Exception] and is not one of the three. *)
Definition transient (e : exn) : bool :=
  is_Exception e && negb (isinstance e non_retryable).

(** The wait after attempt [attempt] when [delay] converts to a float. *)
Definition backoff_wait (rc : retry_config) (attempt : Z) (draw : Q) : Q :=
  let delay := inject_Z (backoff_delay rc attempt) in
  py_min2 (delay + draw * delay) (retry_max_delay rc).

(** The delays of the attempts below [k] convert to floats. *)
Definition delays_convert (rc : retry_config) (k : Z) : Prop :=
  forall a, (0 <= a < k)%Z -> (Z.abs (backoff_delay rc a) < float_limit)%Z.

(** [k] attempts in a row, numbered from [attempt] and begun in state [s],
    that each fail with a transient error and are each followed by the
    sleep of the wrapper: the state in which the next attempt begins;
    [None] when one of the calls returns or fails otherwise. *)
Fixpoint transient_failures {St V : Type} (func : St -> result V * St)
    (sleep_on : Q -> St -> St) (rc : retry_config) (uniform_draw : Z -> Q)
    (k : nat) (attempt : Z) (s : St) : option St :=
  match k with
  | O => Some s
  | S k' =>
      match func s with
      | (Raise e, s') =>
          if transient e then
            transient_failures func sleep_on rc uniform_draw k' (attempt + 1)%Z
              (sleep_on (backoff_wait rc attempt (uniform_draw attempt)) s')
          else None
      | (Ok _, _) => None
      end
  end.

(** A sleep of the wrapper that is neither negative nor above
    [max_delay]. *)
Definition sleep_within (rc : retry_config) (ev : event) : Prop :=
  match ev with
  | Slept d => 0 <= d /\ d <= retry_max_delay rc
  | _ => True
  end.

(** A function that fails with a connection error at its first two calls
    and returns the number of the call from then on. *)
Definition fails_twice (n : nat) : result nat * nat :=
  if (n <? 2)%nat then (Raise (mk_exn ConnectionException n), S n)
  else (Ok n, S n).

(** ** InstagramOSINTGatherer: the calls that pass the governor *)

(** A call of the remote service, or any work of the caller outside the
    governor: it takes [d] seconds and returns or raises.  It does not touch
    the governor. *)
Definition remote_call {A : Type} (d : Q) (r : result A) : M A :=
  fun w => (r, time_passes d w).

(** The body of [get_profile], under its decorator: [from_username] is what
    [Profile.from_username] does this time. *)
Definition get_profile {P : Type} (jitter_draw random_delay d : Q)
    (from_username : result P) : M P :=
  (wait_if_needed jitter_draw random_delay ;;
   profile <- remote_call d from_username ;;
   record_request ;;
   ret profile)%gov.

(** One turn of the loop of [analyze_posts]: the time the iterator takes to
    yield the post, the draws of [wait_if_needed], and what the [try] block
    does: the time it takes and the [PostMetadata] it builds or the
    exception it raises. *)
Record post_visit (A : Type) := {
  pv_fetch : Q;
  pv_jitter : Q;
  pv_delay : Q;
  pv_time : Q;
  pv_outcome : result A
}.
Arguments pv_fetch {A} _.
Arguments pv_jitter {A} _.
Arguments pv_delay {A} _.
Arguments pv_time {A} _.
Arguments pv_outcome {A} _.

(** [for idx, post in enumerate(profile.get_posts(), 1)]: the posts the
    iterator yields, and the exception it raises instead of stopping, if
    any. *)
Fixpoint analyze_posts_loop {A : Type} (visits : list (post_visit A))
    (iter_error : option exn) (idx max_posts : Z) (posts_data : list A)
    : M (list A) :=
  match visits with
  | [] =>
      match iter_error with
      | Some e => fun w => (Raise e, w)
      | None => ret posts_data
      end
  | v :: rest =>
      fun w0 =>
        let w := time_passes (pv_fetch v) w0 in
        if (max_posts <? idx)%Z then (Ok posts_data, w)
        else
          match wait_if_needed (pv_jitter v) (pv_delay v) w with
          | (Raise e, w1) => (Raise e, w1)
          | (Ok _, w1) =>
              match remote_call (pv_time v) (pv_outcome v) w1 with
              | (Ok post_meta, w2) =>
                  analyze_posts_loop rest iter_error (idx + 1) max_posts
                    (posts_data ++ [post_meta]) (snd (record_request w2))
              | (Raise e, w2) =>
                  if is_Exception e then
                    analyze_posts_loop rest iter_error (idx + 1) max_posts
                      posts_data w2
                  else (Raise e, w2)
              end
          end
  end.

(** The body of [analyze_posts], under its decorator. *)
Definition analyze_posts_body {A : Type} (visits : list (post_visit A))
    (iter_error : option exn) (max_posts : Z) : M (list A) :=
  analyze_posts_loop visits iter_error 1 max_posts [].

(** What the wrapper of [analyze_posts] acts on: the governor and the
    number of times the body has run.  Each run calls [profile.get_posts()]
    anew; [get_posts n] is what that iterator does in run [n]. *)
Definition analyze_posts_attempt {A : Type}
    (get_posts : nat -> list (post_visit A) * option exn) (max_posts : Z)
    (s : world * nat) : result (list A) * (world * nat) :=
  let (visits, iter_error) := get_posts (snd s) in
  let (r, w') := analyze_posts_body visits iter_error max_posts (fst s) in
  (r, (w', S (snd s))).

(** A sleep of the wrapper, for the governor: time that passes. *)
Definition wrapper_sleep (d : Q) (s : world * nat) : world * nat :=
  (time_passes d (fst s), snd s).

(** [analyze_posts] as the program calls it, decorated with
    [@retry_with_backoff(max_attempts=3)]. *)
Definition analyze_posts {A : Type}
    (get_posts : nat -> list (post_visit A) * option exn)
    (REQUESTS_AVAILABLE : bool) (uniform_draw : Z -> Q) (max_posts : Z)
    (w : world) : result (option (list A)) * ((world * nat) * list event) :=
  retry_with_backoff (world * nat) (list A)
    (analyze_posts_attempt get_posts max_posts) wrapper_sleep
    REQUESTS_AVAILABLE default_retry uniform_draw 3 (w, 0%nat).

(** The posts whose [try] block came through. *)
Definition built {A : Type} (visits : list (post_visit A)) : list A :=
  flat_map (fun v => match pv_outcome v with
                     | Ok post_meta => [post_meta]
                     | Raise _ => []
                     end) visits.

(** Three posts, the second of which cannot be read. *)
Definition three_visits : list (post_visit nat) :=
  [ {| pv_fetch := 1; pv_jitter := 0; pv_delay := 1; pv_time := 1 # 2;
       pv_outcome := Ok 11%nat |};
    {| pv_fetch := 1; pv_jitter := 0; pv_delay := 1; pv_time := 1 # 2;
       pv_outcome := Raise (mk_exn OtherException 0) |};
    {| pv_fetch := 1; pv_jitter := 0; pv_delay := 1; pv_time := 1 # 2;
       pv_outcome := Ok 13%nat |} ].

(** What the post iterator does in each run of the body: in the first it
    yields the three posts and then fails with a connection error; from
    the second on it yields the first post and stops. *)
Definition broken_feed (run : nat) : list (post_visit nat) * option exn :=
  match run with
  | O => (three_visits, Some (mk_exn ConnectionException 0))
  | S _ => (firstn 1 three_visits, None)
  end.

(** ** Strings, posts and profiles *)

(** A Python [str]: its code points. *)
Definition py_str : Type := list N.

Record location_data := {
  loc_name : option py_str;
  loc_lat : option Q;
  loc_lng : option Q
}.

Record PostMetadata := {
  shortcode : py_str;
  url : py_str;
  caption : option py_str;
  likes : Z;
  comments : Z;
  timestamp : Q;
  is_video : bool;
  typename : py_str;
  location : option location_data;
  tagged_users : list py_str;
  hashtags : list py_str
}.

Record ProfileMetadata := {
  username : py_str;
  full_name : py_str;
  biography : py_str;
  external_url : option py_str;
  followers : Z;
  following : Z;
  posts_count : Z;
  is_private : bool;
  is_verified : bool;
  is_business : bool;
  business_category : option py_str;
  profile_pic_url : py_str;
  userid : Z
}.

(** ** Built-ins of Python used by the analysis *)

(** [round(x)] to the nearest integer, ties to the even one, and
    [round(x, ndigits)]; on rationals, as all numbers here. *)
Definition round_half_even (x : Q) : Z :=
  let f := Qfloor x in
  let r := x - inject_Z f in
  if Qltb r (1 # 2) then f
  else if Qltb (1 # 2) r then (f + 1)%Z
  else if Z.even f then f else (f + 1)%Z.

Definition py_round (x : Q) (ndigits : Z) : Q :=
  inject_Z (round_half_even (x * 10 ^ ndigits)) / 10 ^ ndigits.

(** [sum] of integers and of numbers: from 0, left to right. *)
Definition py_sum_Z (l : list Z) : Z := fold_left Z.add l 0%Z.
Definition py_sum_Q (l : list Q) : Q := fold_left Qplus l 0.

(** [sorted]: a stable sort.  [before y x] says that [y] sorts strictly
    before [x]; an element goes in front of the first one that does not. *)
Fixpoint py_insert {A : Type} (before : A -> A -> bool) (x : A) (l : list A)
    : list A :=
  match l with
  | [] => [x]
  | y :: r => if before y x then y :: py_insert before x r else x :: y :: r
  end.

Definition py_sorted {A : Type} (before : A -> A -> bool) (l : list A) : list A :=
  fold_right (py_insert before) [] l.

(** [max(d, key=d.get)] over a dict given by its items in insertion order:
    the key of the first item whose value no other exceeds. *)
Definition py_max_by_value {K : Type} (items : list (K * nat)) : option K :=
  match items with
  | [] => None
  | x :: r =>
      Some (fst (fold_left (fun m y => if (snd m <? snd y)%nat then y else m) r x))
  end.

(** [l.count(x)] for integers. *)
Definition py_count (x : Z) (l : list Z) : nat :=
  length (filter (Z.eqb x) l).

(** ** InstagramOSINTGatherer.calculate_engagement_stats *)

Record top_post := {
  tp_url : py_str;
  tp_likes : Z;
  tp_comments : Z;
  tp_engagement : Z
}.

Record engagement_stats := {
  total_analyzed : nat;
  total_likes : Z;
  total_comments : Z;
  avg_likes : Q;
  avg_comments : Q;
  engagement_rate : Q;
  top_posts : list top_post
}.

(** [lambda p: p.likes + p.comments] *)
Definition engagement (p : PostMetadata) : Z := (likes p + comments p)%Z.

Definition top_post_of (p : PostMetadata) : top_post := {|
  tp_url := url p;
  tp_likes := likes p;
  tp_comments := comments p;
  tp_engagement := (likes p + comments p)%Z
|}.

(** [sorted(posts, key=lambda p: p.likes + p.comments, reverse=True)] *)
Definition by_engagement (posts : list PostMetadata) : list PostMetadata :=
  py_sorted (fun y x => (engagement x <? engagement y)%Z) posts.

(** The dict returned, or [None] for the empty dict. *)
Definition calculate_engagement_stats (posts : list PostMetadata)
    (profile : ProfileMetadata) : option engagement_stats :=
  match posts with
  | [] => None
  | _ :: _ =>
      let total_likes := py_sum_Z (map likes posts) in
      let total_comments := py_sum_Z (map comments posts) in
      let len := inject_Z (Z.of_nat (length posts)) in
      let avg_likes := inject_Z total_likes / len in
      let avg_comments := inject_Z total_comments / len in
      let engagement_rate :=
        if (0 <? followers profile)%Z
        then inject_Z (total_likes + total_comments) / len
             / inject_Z (followers profile) * 100
        else 0 in
      let top_posts := firstn 5 (by_engagement posts) in
      Some {| total_analyzed := length posts;
              total_likes := total_likes;
              total_comments := total_comments;
              avg_likes := py_round avg_likes 2;
              avg_comments := py_round avg_comments 2;
              engagement_rate := py_round engagement_rate 3;
              top_posts := map top_post_of top_posts |}
  end.

(** ** InstagramOSINTGatherer.temporal_analysis *)

(** A naive [datetime] is the number of seconds since 1970-01-01 00:00, a
    Thursday; [.hour] and the day named by [strftime('%A')]. *)
Definition hour_of (t : Q) : Z := ((Qfloor t / 3600) mod 24)%Z.

Inductive weekday :=
| Monday | Tuesday | Wednesday | Thursday | Friday | Saturday | Sunday.

Definition all_weekdays : list weekday :=
  [Monday; Tuesday; Wednesday; Thursday; Friday; Saturday; Sunday].

Definition weekday_index (d : weekday) : Z :=
  match d with
  | Monday => 0 | Tuesday => 1 | Wednesday => 2 | Thursday => 3
  | Friday => 4 | Saturday => 5 | Sunday => 6
  end%Z.

Definition weekday_number (t : Q) : Z := ((Qfloor t / 86400 + 3) mod 7)%Z.

(** [[(s[i] - s[i-1]).total_seconds() / 3600 for i in range(1, len(s))]] *)
Fixpoint time_diffs (l : list Q) : list Q :=
  match l with
  | a :: (b :: _) as r => (b - a) / 3600 :: time_diffs r
  | _ => []
  end.

(** [sorted(posts, key=lambda p: p.timestamp)] *)
Definition by_timestamp (posts : list PostMetadata) : list PostMetadata :=
  py_sorted (fun y x => Qltb (timestamp y) (timestamp x)) posts.

Record temporal := {
  peak_posting_hour : option Z;
  hour_distribution : list (Z * nat);
  day_distribution : list (weekday * nat);
  avg_post_interval_hours : option Q
}.

(** The mean of the intervals, before [round]; [None] for one post. *)
Definition post_interval_mean (posts : list PostMetadata) : option Q :=
  if (1 <? length posts)%nat then
    let diffs := time_diffs (map timestamp (by_timestamp posts)) in
    Some (py_sum_Q diffs / inject_Z (Z.of_nat (length diffs)))
  else None.

(** The dict returned, or [None] for the empty dict.  The keys of
    [day_distribution] are the days that occur; a dict built from a [set]
    has them in no particular order, here they are in the order of the
    week. *)
Definition temporal_analysis (posts : list PostMetadata) : option temporal :=
  match posts with
  | [] => None
  | _ :: _ =>
      let hours := map (fun p => hour_of (timestamp p)) posts in
      let hour_distribution :=
        map (fun h => (h, py_count h hours)) (map Z.of_nat (seq 0 24)) in
      let peak_hour := py_max_by_value hour_distribution in
      let days := map (fun p => weekday_number (timestamp p)) posts in
      let day_distribution :=
        flat_map (fun d => if existsb (Z.eqb (weekday_index d)) days
                           then [(d, py_count (weekday_index d) days)]
                           else []) all_weekdays in
      let avg_post_interval_hours := post_interval_mean posts in
      Some {| peak_posting_hour := peak_hour;
              hour_distribution := hour_distribution;
              day_distribution := day_distribution;
              avg_post_interval_hours :=
                match avg_post_interval_hours with
                | Some avg => if Qeq_bool avg 0 then None
                              else Some (py_round avg 2)
                | None => None
                end |}
  end.

(** ** The hashtags of a caption: [re.findall(r'#(\w+)', caption)] *)

Definition is_hash (c : N) : bool := (c =? 35)%N.

Section Findall.

(** What [\w] matches. *)
Variable is_word : N -> bool.

(** One pass over the caption.  [pending] is [None] outside a match and
    otherwise holds, last first, the word characters read since a [#]. *)
Definition emit (pending : py_str) : list py_str :=
  match pending with
  | [] => []
  | _ :: _ => [rev pending]
  end.

Fixpoint scan_hashtags (s : py_str) (pending : option py_str) : list py_str :=
  match s with
  | [] =>
      match pending with
      | Some acc => emit acc
      | None => []
      end
  | c :: r =>
      match pending with
      | Some acc =>
          if is_word c then scan_hashtags r (Some (c :: acc))
          else emit acc ++ scan_hashtags r (if is_hash c then Some [] else None)
      | None => scan_hashtags r (if is_hash c then Some [] else None)
      end
  end.

Definition findall_hashtags (caption : py_str) : list py_str :=
  scan_hashtags caption None.

(** The longest run of word characters at the head of [s], and the rest. *)
Fixpoint take_word (s : py_str) : py_str * py_str :=
  match s with
  | [] => ([], [])
  | c :: r =>
      if is_word c then let (w, rest) := take_word r in (c :: w, rest)
      else ([], s)
  end.

End Findall.

(** ** Posts and captions used below *)

Definition post_with (u : N) (l c : Z) (t : Q) : PostMetadata := {|
  shortcode := [u]; url := [u]; caption := None; likes := l; comments := c;
  timestamp := t; is_video := false; typename := []; location := None;
  tagged_users := []; hashtags := []
|}.

Definition six_posts : list PostMetadata :=
  [ post_with 1 10 2 (3600 * 30);
    post_with 2 50 5 (3600 * 54 + 10);
    post_with 3 10 2 (3600 * 6);
    post_with 4 7 0 (3600 * 78);
    post_with 5 99 1 (3600 * 102 + 59);
    post_with 6 0 0 (3600 * 31) ].

Definition some_profile (n : Z) : ProfileMetadata := {|
  username := []; full_name := []; biography := []; external_url := None;
  followers := n; following := 0; posts_count := 6;
  is_private := false; is_verified := false; is_business := false;
  business_category := None; profile_pic_url := []; userid := 1
|}.

(** Letters, digits and the underscore of ASCII. *)
Definition ascii_word (c : N) : bool :=
  ((48 <=? c) && (c <=? 57) || (65 <=? c) && (c <=? 90)
   || (97 <=? c) && (c <=? 122) || (c =? 95))%N.

(** "a #b1 ## #c" as code points. *)
Definition some_caption : py_str :=
  [97; 32; 35; 98; 49; 32; 35; 35; 32; 35; 99]%N.

(** ** The burst count at rest *)

(** The burst count lies between 0 and the last value below [burst_limit],
    or is the 1 of a newly opened window; the cooldown length is a length. *)
Record burst_inv (w : world) : Prop := {
  bi_cooldown : 0 <= cooldown_after_burst (config w);
  bi_low : (0 <= burst_count (state w))%Z;
  bi_high : (burst_count (state w) <= Z.max 1 (burst_limit (config w) - 1))%Z
}.

Definition burst_inv_kept (w w' : world) : Prop :=
  burst_inv w -> burst_inv w'.

(** ** The cooldown between calls *)









(** A new governor with the default configuration, a request admitted and
    recorded at once, another nine seconds later, and half a second gone
    since. *)
Definition late_in_window_world : world :=
  time_passes (1 # 2)
    (admit_and_record 9 0 1
       (admit_and_record 0 0 1
          (IntelligentRateLimiter_init default_rate_limit false 0))).

(** * Properties *)

(** ** Comparisons and rounding *)

Lemma Qltb_lt a b : Qltb a b = true <-> a < b.
Proof.
  unfold Qltb. rewrite negb_true_iff. split; intro H.
  - apply Qnot_le_lt. intro L. apply Qle_bool_iff in L. congruence.
  - destruct (Qle_bool b a) eqn:E; [|reflexivity].
    apply Qle_bool_iff in E. lra.
Qed.

Lemma Qltb_ge a b : Qltb a b = false <-> b <= a.
Proof.
  unfold Qltb. rewrite negb_false_iff. apply Qle_bool_iff.
Qed.

Lemma Qltb_spec a b : reflect (a < b) (Qltb a b).
Proof.
  destruct (Qltb a b) eqn:E; constructor.
  - now apply Qltb_lt.
  - apply Qltb_ge in E. lra.
Qed.

Lemma py_int_floor x : 0 <= x -> py_int x = Qfloor x.
Proof.
  destruct x as [n d]. unfold Qle, py_int, Qfloor. simpl. intro H.
  apply Z.quot_div_nonneg; lia.
Qed.

Lemma floor_within_one x : x - 1 < inject_Z (Qfloor x) /\ inject_Z (Qfloor x) <= x.
Proof.
  split; [|apply Qfloor_le].
  pose proof (Qlt_floor x) as H.
  rewrite inject_Z_plus in H. change (inject_Z 1) with 1 in H. lra.
Qed.

Lemma py_max2_Qmax a b : py_max2 a b == Qmax a b.
Proof.
  unfold py_max2. destruct (Qltb_spec a b) as [H|H].
  - symmetry. apply Q.max_r. lra.
  - symmetry. apply Q.max_l. lra.
Qed.

Lemma py_min2_Qmin a b : py_min2 a b == Qmin a b.
Proof.
  unfold py_min2. destruct (Qltb_spec b a) as [H|H].
  - symmetry. apply Q.min_r. lra.
  - symmetry. apply Q.min_l. lra.
Qed.

(** ** Sleeping *)

Lemma time_sleep_ok d w : 0 <= d -> time_sleep d w = (Ok tt, after_sleep d w).
Proof.
  intro H. unfold time_sleep. destruct (Qltb_spec d 0); [lra|reflexivity].
Qed.

Lemma time_sleep_neg d w :
  d < 0 -> time_sleep d w = (Raise (mk_exn ValueError 0), w).
Proof.
  intro H. unfold time_sleep. destruct (Qltb_spec d 0); [reflexivity|lra].
Qed.

Lemma sleep_steps_ok n w : sleep_steps n w = (Ok tt, iter_sleep n w).
Proof.
  revert w. induction n as [|n IH]; intro w; simpl.
  - reflexivity.
  - unfold bind. rewrite time_sleep_ok by lra. apply IH.
Qed.

Lemma iter_sleep_fields n w :
  clock (iter_sleep n w) == clock w + inject_Z (Z.of_nat n) /\
  slept (iter_sleep n w) = slept w ++ repeat 1 n /\
  config (iter_sleep n w) = config w /\
  randomize_timing (iter_sleep n w) = randomize_timing w /\
  state (iter_sleep n w) = state w /\
  request_history (iter_sleep n w) = request_history w.
Proof.
  revert w. induction n as [|n IH]; intro w.
  - cbn [iter_sleep repeat]. rewrite app_nil_r.
    change (inject_Z (Z.of_nat 0)) with 0.
    repeat split; try reflexivity. lra.
  - cbn [iter_sleep]. destruct (IH (after_sleep 1 w)) as (Hc & Hs & Hk & Hr & Ht & Hh).
    repeat split; try assumption.
    + rewrite Hc. cbn [clock after_sleep]. rewrite Nat2Z.inj_succ. unfold Z.succ.
      rewrite inject_Z_plus. change (inject_Z 1) with 1. lra.
    + rewrite Hs. cbn [slept after_sleep repeat]. rewrite <- app_assoc. reflexivity.
Qed.

(** The world a successful [_sleep_with_progress] leaves. *)
Lemma sleep_with_progress_ok d w :
  0 <= d ->
  _sleep_with_progress d w =
    (Ok tt, if Qltb d 5 then after_sleep d w
            else iter_sleep (Z.to_nat (Qfloor d)) w).
Proof.
  intro H. unfold _sleep_with_progress. destruct (Qltb d 5).
  - now apply time_sleep_ok.
  - rewrite sleep_steps_ok, py_int_floor by assumption. reflexivity.
Qed.

Lemma Qfloor_nonneg d : 0 <= d -> (0 <= Qfloor d)%Z.
Proof.
  intro H. change 0%Z with (Qfloor 0). now apply Qfloor_resp_le.
Qed.

(** C10. For a requested duration [d] of at least 5 seconds the sleep helper
    makes [floor d] sleeps of one second each, so the clock has moved by
    [floor d], which is more than [d - 1] and at most [d]; for a duration
    below 5 seconds it makes one sleep of exactly [d]. *)
Theorem sleep_with_progress_realized (d : Q) (w : world) (Hd : 0 <= d) :
  let r := _sleep_with_progress d w in
  fst r = Ok tt /\
  state (snd r) = state w /\
  request_history (snd r) = request_history w /\
  (d < 5 ->
     slept (snd r) = slept w ++ [d] /\ clock (snd r) == clock w + d) /\
  (5 <= d ->
     slept (snd r) = slept w ++ repeat 1 (Z.to_nat (Qfloor d)) /\
     clock (snd r) == clock w + inject_Z (Qfloor d) /\
     d - 1 < inject_Z (Qfloor d) /\ inject_Z (Qfloor d) <= d).
Proof.
  intro r. subst r. rewrite sleep_with_progress_ok by assumption.
  destruct (iter_sleep_fields (Z.to_nat (Qfloor d)) w) as (Hc & Hs & _ & _ & Ht & Hh).
  destruct (Qltb_spec d 5) as [L|L]; simpl fst; simpl snd.
  - split; [reflexivity|]. split; [reflexivity|]. split; [reflexivity|].
    split; intro H; [|exfalso; lra].
    split; reflexivity.
  - split; [reflexivity|]. split; [assumption|]. split; [assumption|].
    split; intro H; [exfalso; lra|].
    split; [assumption|]. split.
    + rewrite Hc, Z2Nat.id by now apply Qfloor_nonneg. reflexivity.
    + apply floor_within_one.
Qed.

Lemma sleep_with_progress_realized_witness :
  0 <= 59 # 10 /\
  let r := _sleep_with_progress (59 # 10) full_hour_world in
  fst r = Ok tt /\
  state (snd r) = state full_hour_world /\
  request_history (snd r) = request_history full_hour_world /\
  (59 # 10 < 5 ->
     slept (snd r) = slept full_hour_world ++ [59 # 10] /\
     clock (snd r) == clock full_hour_world + (59 # 10)) /\
  (5 <= 59 # 10 ->
     slept (snd r) =
       slept full_hour_world ++ repeat 1 (Z.to_nat (Qfloor (59 # 10))) /\
     clock (snd r) == clock full_hour_world + inject_Z (Qfloor (59 # 10)) /\
     (59 # 10) - 1 < inject_Z (Qfloor (59 # 10)) /\
     inject_Z (Qfloor (59 # 10)) <= 59 # 10).
Proof.
  split.
  - apply Qle_bool_iff. reflexivity.
  - apply (sleep_with_progress_realized (59 # 10) full_hour_world).
    apply Qle_bool_iff. reflexivity.
Defined.

(** ** Running the monad *)

Lemma bind_ok {A B} (m : M A) (k : A -> M B) w b w' :
  bind m k w = (Ok b, w') ->
  exists a w1, m w = (Ok a, w1) /\ k a w1 = (Ok b, w').
Proof.
  unfold bind. destruct (m w) as [[a|e] w1]; intro H.
  - now exists a, w1.
  - discriminate.
Qed.

Lemma bind_run {A B} (m : M A) (k : A -> M B) w a w1 :
  m w = (Ok a, w1) -> bind m k w = k a w1.
Proof. intro H. unfold bind. now rewrite H. Qed.

Section Steady.

Variable R : world -> world -> Prop.
Hypothesis R_refl : forall w, R w w.
Hypothesis R_trans : forall a b c, R a b -> R b c -> R a c.
Hypothesis R_sleep : forall d w, 0 <= d -> R w (after_sleep d w).

Lemma steady_ret {A} (a : A) : steady R (ret a).
Proof. intro w. apply R_refl. Qed.

Lemma steady_raise {A} c : steady R (@raise A c).
Proof. intro w. apply R_refl. Qed.

Lemma steady_bind {A B} (m : M A) (k : A -> M B) :
  steady R m -> (forall a, steady R (k a)) -> steady R (bind m k).
Proof.
  intros Hm Hk w. unfold bind. specialize (Hm w).
  destruct (m w) as [[a|e] w1]; simpl in *.
  - eapply R_trans; [exact Hm|apply Hk].
  - exact Hm.
Qed.

Lemma steady_get_state : steady R get_state.
Proof. intro w. apply R_refl. Qed.

Lemma steady_get_config : steady R get_config.
Proof. intro w. apply R_refl. Qed.

Lemma steady_get_history : steady R get_history.
Proof. intro w. apply R_refl. Qed.

Lemma steady_datetime_now : steady R datetime_now.
Proof. intro w. apply R_refl. Qed.

Lemma steady_time_sleep d : steady R (time_sleep d).
Proof.
  intro w. unfold time_sleep. destruct (Qltb_spec d 0); simpl.
  - apply R_refl.
  - apply R_sleep. lra.
Qed.

Lemma steady_sleep_steps n : steady R (sleep_steps n).
Proof.
  induction n as [|n IH]; simpl.
  - apply steady_ret.
  - apply steady_bind; [apply steady_time_sleep|intros _; exact IH].
Qed.

Lemma steady_sleep_with_progress d : steady R (_sleep_with_progress d).
Proof.
  unfold _sleep_with_progress. destruct (Qltb d 5).
  - apply steady_time_sleep.
  - apply steady_sleep_steps.
Qed.

Lemma steady_rolling_window_check now : steady R (rolling_window_check now).
Proof.
  unfold rolling_window_check.
  apply steady_bind; [apply steady_get_history|intro h].
  apply steady_bind; [apply steady_get_config|intro cfg].
  destruct (_ <=? _)%Z; [|apply steady_ret].
  destruct (py_min _); [apply steady_sleep_with_progress|apply steady_raise].
Qed.

Lemma steady_min_delay_check now j : steady R (min_delay_check now j).
Proof.
  unfold min_delay_check.
  apply steady_bind; [apply steady_get_state|intro s].
  apply steady_bind; [apply steady_get_config|intro cfg].
  destruct (last_request s); [|apply steady_ret].
  destruct (Qltb _ _); [apply steady_time_sleep|apply steady_ret].
Qed.

Lemma steady_human_randomization h : steady R (human_randomization h).
Proof.
  intro w. unfold human_randomization. destruct (randomize_timing w).
  - apply steady_time_sleep.
  - apply R_refl.
Qed.

Lemma steady_modify_state {P} (set : P -> RateLimitState -> RateLimitState)
    (f : RateLimitState -> P) :
  keeps R set -> steady R (modify_state (fun s => set (f s) s)).
Proof. intros H w. apply H. Qed.

Lemma steady_assign {P} (set : P -> RateLimitState -> RateLimitState) p :
  keeps R set -> steady R (modify_state (set p)).
Proof. intros H w. apply H. Qed.

Lemma steady_cooldown_check now :
  keeps R (fun _ : unit => set_is_cooling_down false) ->
  keeps R set_burst_count ->
  steady R (cooldown_check now).
Proof.
  intros Hf Hc. unfold cooldown_check.
  apply steady_bind; [apply steady_get_state|intro s].
  destruct (is_cooling_down s); [|apply steady_ret].
  destruct (cooldown_until s); [|apply steady_raise].
  destruct (Qltb _ _); [apply steady_sleep_with_progress|].
  apply steady_bind; [intro w; apply (Hf tt)|intros _].
  now apply steady_assign.
Qed.

Lemma steady_burst_detection now :
  keeps R (fun _ : unit => set_is_cooling_down true) ->
  keeps R set_burst_count -> keeps R set_burst_start ->
  keeps R set_cooldown_until ->
  steady R (burst_detection now).
Proof.
  intros Hf Hc Hs Hu. unfold burst_detection.
  assert (Hreset : steady R
            (bind (modify_state (set_burst_start now))
                  (fun _ => modify_state (set_burst_count 1)))).
  { apply steady_bind; [now apply steady_assign|intros _].
    now apply steady_assign. }
  apply steady_bind; [apply steady_get_state|intro s].
  apply steady_bind; [apply steady_get_config|intro cfg].
  destruct (burst_start s); [|exact Hreset].
  destruct (Qltb _ _); [|exact Hreset].
  apply steady_bind; [now apply steady_modify_state|intros _].
  apply steady_bind; [apply steady_get_state|intro s'].
  destruct (_ <=? _)%Z; [|apply steady_ret].
  apply steady_bind; [intro w; apply (Hf tt)|intros _].
  apply steady_bind; [now apply steady_assign|intros _].
  apply steady_bind; [apply steady_sleep_with_progress|intros _].
  now apply steady_assign.
Qed.

Lemma steady_steps_after_cooldown now j :
  keeps R (fun _ : unit => set_is_cooling_down true) ->
  keeps R set_burst_count -> keeps R set_burst_start ->
  keeps R set_cooldown_until ->
  steady R (steps_after_cooldown now j).
Proof.
  intros. unfold steps_after_cooldown.
  apply steady_bind; [apply steady_rolling_window_check|intros _].
  apply steady_bind; [apply steady_min_delay_check|intros _].
  now apply steady_burst_detection.
Qed.

End Steady.

(** ** What the steps of an admission leave alone *)

Lemma gov_frame_refl w : gov_frame w w.
Proof. constructor; try reflexivity. lra. Qed.

Lemma gov_frame_trans a b c : gov_frame a b -> gov_frame b c -> gov_frame a c.
Proof.
  intros [] []. constructor; try congruence. lra.
Qed.

Lemma gov_frame_sleep d w : 0 <= d -> gov_frame w (after_sleep d w).
Proof. intro H. constructor; try reflexivity. simpl. lra. Qed.

Lemma gov_frame_time_passes d w : 0 <= d -> gov_frame w (time_passes d w).
Proof. intro H. constructor; try reflexivity. simpl. lra. Qed.

Lemma pre_burst_frame_refl w : pre_burst_frame w w.
Proof. constructor; [apply gov_frame_refl|reflexivity]. Qed.

Lemma pre_burst_frame_trans a b c :
  pre_burst_frame a b -> pre_burst_frame b c -> pre_burst_frame a c.
Proof.
  intros [] []. constructor; [eapply gov_frame_trans; eassumption|congruence].
Qed.

Lemma pre_burst_frame_sleep d w : 0 <= d -> pre_burst_frame w (after_sleep d w).
Proof. intro H. constructor; [now apply gov_frame_sleep|reflexivity]. Qed.

Lemma flag_kept_refl w : flag_kept w w.
Proof. intro H. exact H. Qed.

Lemma flag_kept_trans a b c : flag_kept a b -> flag_kept b c -> flag_kept a c.
Proof. unfold flag_kept. auto. Qed.

Lemma flag_kept_sleep d w : 0 <= d -> flag_kept w (after_sleep d w).
Proof. intros _ H. exact H. Qed.

Lemma slept_extends_refl w : slept_extends w w.
Proof. exists []. now rewrite app_nil_r. Qed.

Lemma slept_extends_trans a b c :
  slept_extends a b -> slept_extends b c -> slept_extends a c.
Proof.
  intros [l1 H1] [l2 H2]. exists (l1 ++ l2). now rewrite H2, H1, app_assoc.
Qed.

Lemma slept_extends_sleep d w : 0 <= d -> slept_extends w (after_sleep d w).
Proof. intros _. now exists [d]. Qed.

Ltac frame_facts :=
  first [ exact gov_frame_refl | exact gov_frame_trans | exact gov_frame_sleep
        | exact pre_burst_frame_refl | exact pre_burst_frame_trans
        | exact pre_burst_frame_sleep
        | exact flag_kept_refl | exact flag_kept_trans | exact flag_kept_sleep
        | exact slept_extends_refl | exact slept_extends_trans
        | exact slept_extends_sleep ].

Ltac keeps_frame :=
  unfold keeps; intros; repeat constructor; try reflexivity; simpl;
  try lra; auto.

Ltac frame_solve := first [ frame_facts | keeps_frame ].

Lemma gov_frame_steps_after_cooldown now j :
  steady gov_frame (steps_after_cooldown now j).
Proof. apply steady_steps_after_cooldown; frame_solve. Qed.

Lemma gov_frame_cooldown_check now : steady gov_frame (cooldown_check now).
Proof. apply steady_cooldown_check; frame_solve. Qed.

Lemma gov_frame_wait_if_needed j h : steady gov_frame (wait_if_needed j h).
Proof.
  unfold wait_if_needed.
  apply steady_bind; [frame_facts|apply steady_datetime_now; frame_facts|].
  intro now.
  apply steady_bind; [frame_facts|apply gov_frame_cooldown_check|].
  intros _.
  apply steady_bind; [frame_facts|apply gov_frame_steps_after_cooldown|].
  intros _.
  apply steady_human_randomization; frame_facts.
Qed.

Lemma pre_burst_cooldown_check now : steady pre_burst_frame (cooldown_check now).
Proof. apply steady_cooldown_check; frame_solve. Qed.

Lemma pre_burst_rolling_window_check now :
  steady pre_burst_frame (rolling_window_check now).
Proof. apply steady_rolling_window_check; frame_solve. Qed.

Lemma pre_burst_min_delay_check now j :
  steady pre_burst_frame (min_delay_check now j).
Proof. apply steady_min_delay_check; frame_solve. Qed.

Ltac keeps_slept :=
  unfold keeps; intros; exists []; simpl; now rewrite app_nil_r.

Lemma slept_extends_cooldown_check now : steady slept_extends (cooldown_check now).
Proof. apply steady_cooldown_check; first [frame_facts|keeps_slept]. Qed.

Lemma slept_extends_rolling_window_check now :
  steady slept_extends (rolling_window_check now).
Proof. apply steady_rolling_window_check; frame_facts. Qed.

Lemma slept_extends_burst_detection now :
  steady slept_extends (burst_detection now).
Proof. apply steady_burst_detection; first [frame_facts|keeps_slept]. Qed.

Lemma slept_extends_human_randomization h :
  steady slept_extends (human_randomization h).
Proof. apply steady_human_randomization; frame_facts. Qed.



(** ** The cooldown check *)



Lemma sleep_with_progress_state d w :
  state (snd (_sleep_with_progress d w)) = state w.
Proof.
  unfold _sleep_with_progress. destruct (Qltb d 5).
  - unfold time_sleep. destruct (Qltb d 0); reflexivity.
  - rewrite sleep_steps_ok. apply iter_sleep_fields.
Qed.

(** ** The steps after the clock has been read *)

Lemma shifted_refl_sleep d d0 w w' :
  shifted d0 w w' -> shifted d0 (after_sleep d w) (after_sleep d w').
Proof.
  intros []. constructor; simpl; try congruence. lra.
Qed.

Lemma shifted_with_state d0 w w' f :
  shifted d0 w w' ->
  shifted d0 (with_state (f (state w)) w) (with_state (f (state w')) w').
Proof.
  intros []. constructor; simpl; try congruence.
Qed.

Lemma clock_blind_ret {A} (a : A) : clock_blind (ret a).
Proof. intros d w w' H. split; [reflexivity|exact H]. Qed.

Lemma clock_blind_raise {A} c : clock_blind (@raise A c).
Proof. intros d w w' H. split; [reflexivity|exact H]. Qed.

Lemma clock_blind_bind {A B} (m : M A) (k : A -> M B) :
  clock_blind m -> (forall a, clock_blind (k a)) -> clock_blind (bind m k).
Proof.
  intros Hm Hk d w w' H. unfold bind.
  destruct (Hm d w w' H) as [E S1].
  destruct (m w) as [r1 w1], (m w') as [r2 w2]. simpl in E, S1. subst r2.
  destruct r1 as [a|e].
  - now apply Hk.
  - split; [reflexivity|exact S1].
Qed.

Lemma clock_blind_get_state : clock_blind get_state.
Proof.
  intros d w w' H. split; [|exact H]. simpl. f_equal. apply H.
Qed.

Lemma clock_blind_get_config : clock_blind get_config.
Proof.
  intros d w w' H. split; [|exact H]. simpl. f_equal. apply H.
Qed.

Lemma clock_blind_get_history : clock_blind get_history.
Proof.
  intros d w w' H. split; [|exact H]. simpl. f_equal. apply H.
Qed.

Lemma clock_blind_modify_state f : clock_blind (modify_state f).
Proof.
  intros d w w' H. split; [reflexivity|].
  now apply shifted_with_state.
Qed.

Lemma clock_blind_time_sleep d : clock_blind (time_sleep d).
Proof.
  intros d0 w w' H. unfold time_sleep. destruct (Qltb d 0); simpl.
  - split; [reflexivity|exact H].
  - split; [reflexivity|now apply shifted_refl_sleep].
Qed.

Lemma clock_blind_sleep_steps n : clock_blind (sleep_steps n).
Proof.
  induction n as [|n IH]; simpl.
  - apply clock_blind_ret.
  - apply clock_blind_bind; [apply clock_blind_time_sleep|intros _; exact IH].
Qed.

Lemma clock_blind_sleep_with_progress d : clock_blind (_sleep_with_progress d).
Proof.
  unfold _sleep_with_progress. destruct (Qltb d 5).
  - apply clock_blind_time_sleep.
  - apply clock_blind_sleep_steps.
Qed.

Lemma clock_blind_rolling_window_check now :
  clock_blind (rolling_window_check now).
Proof.
  unfold rolling_window_check.
  apply clock_blind_bind; [apply clock_blind_get_history|intro h].
  apply clock_blind_bind; [apply clock_blind_get_config|intro cfg].
  destruct (_ <=? _)%Z; [|apply clock_blind_ret].
  destruct (py_min _);
    [apply clock_blind_sleep_with_progress|apply clock_blind_raise].
Qed.

Lemma clock_blind_min_delay_check now j : clock_blind (min_delay_check now j).
Proof.
  unfold min_delay_check.
  apply clock_blind_bind; [apply clock_blind_get_state|intro s].
  apply clock_blind_bind; [apply clock_blind_get_config|intro cfg].
  destruct (last_request s); [|apply clock_blind_ret].
  destruct (Qltb _ _); [apply clock_blind_time_sleep|apply clock_blind_ret].
Qed.

Lemma clock_blind_burst_detection now : clock_blind (burst_detection now).
Proof.
  unfold burst_detection.
  assert (Hreset : clock_blind
            (bind (modify_state (set_burst_start now))
                  (fun _ => modify_state (set_burst_count 1)))).
  { apply clock_blind_bind; [|intros _]; apply clock_blind_modify_state. }
  apply clock_blind_bind; [apply clock_blind_get_state|intro s].
  apply clock_blind_bind; [apply clock_blind_get_config|intro cfg].
  destruct (burst_start s); [|exact Hreset].
  destruct (Qltb _ _); [|exact Hreset].
  apply clock_blind_bind; [apply clock_blind_modify_state|intros _].
  apply clock_blind_bind; [apply clock_blind_get_state|intro s'].
  destruct (_ <=? _)%Z; [|apply clock_blind_ret].
  apply clock_blind_bind; [apply clock_blind_modify_state|intros _].
  apply clock_blind_bind; [apply clock_blind_modify_state|intros _].
  apply clock_blind_bind; [apply clock_blind_sleep_with_progress|intros _].
  apply clock_blind_modify_state.
Qed.

Lemma clock_blind_steps_after_cooldown now j :
  clock_blind (steps_after_cooldown now j).
Proof.
  unfold steps_after_cooldown.
  apply clock_blind_bind; [apply clock_blind_rolling_window_check|intros _].
  apply clock_blind_bind; [apply clock_blind_min_delay_check|intros _].
  apply clock_blind_burst_detection.
Qed.

Lemma shifted_time_passes d w : shifted d w (time_passes d w).
Proof. constructor; reflexivity. Qed.

(** C2, as the code has it.  A call reads the clock once, when it begins,
    and every step takes that reading as its now.  What steps 2 to 4 do is
    therefore the same however long an earlier step has slept: started with
    the clock [d] later, they end the same way, leave the same state, make
    the same sleeps, and leave the clock [d] later. *)
Theorem steps_judge_by_the_time_the_call_began (j h d : Q) (w : world) :
  wait_if_needed j h w =
    bind (cooldown_check (clock w))
         (fun _ => bind (steps_after_cooldown (clock w) j)
                        (fun _ => human_randomization h)) w /\
  forall now,
    let r := steps_after_cooldown now j w in
    let r' := steps_after_cooldown now j (time_passes d w) in
    fst r' = fst r /\
    state (snd r') = state (snd r) /\
    slept (snd r') = slept (snd r) /\
    request_history (snd r') = request_history (snd r) /\
    clock (snd r') == clock (snd r) + d.
Proof.
  split; [reflexivity|].
  intros now r r'.
  destruct (clock_blind_steps_after_cooldown now j d w (time_passes d w)
              (shifted_time_passes d w)) as [E S1].
  destruct S1. repeat split; assumption.
Qed.

(** ** Burst detection *)

Lemma burst_detection_resets now w start :
  burst_start (state w) = Some start ->
  10 <= now - start ->
  burst_detection now w =
    (Ok tt, with_state (set_burst_count 1 (set_burst_start now (state w))) w).
Proof.
  intros Hs Hl. unfold burst_detection, bind, get_state, get_config. simpl.
  rewrite Hs. destruct (Qltb_spec (now - start) 10); [lra|reflexivity].
Qed.

Lemma wait_if_needed_stages j h w w' :
  wait_if_needed j h w = (Ok tt, w') ->
  exists w1 w2 w3 w4,
    cooldown_check (clock w) w = (Ok tt, w1) /\
    rolling_window_check (clock w) w1 = (Ok tt, w2) /\
    min_delay_check (clock w) j w2 = (Ok tt, w3) /\
    burst_detection (clock w) w3 = (Ok tt, w4) /\
    human_randomization h w4 = (Ok tt, w').
Proof.
  unfold wait_if_needed, steps_after_cooldown. intro H.
  apply bind_ok in H. destruct H as (now & w0 & E0 & H).
  inversion E0; subst now w0; clear E0.
  apply bind_ok in H. destruct H as ([] & w1 & E1 & H).
  apply bind_ok in H. destruct H as ([] & w4 & E234 & E5).
  apply bind_ok in E234. destruct E234 as ([] & w2 & E2 & E34).
  apply bind_ok in E34. destruct E34 as ([] & w3 & E3 & E4).
  exists w1, w2, w3, w4. repeat split; assumption.
Qed.

Lemma gov_frame_burst_detection now : steady gov_frame (burst_detection now).
Proof. apply steady_burst_detection; frame_solve. Qed.

Lemma gov_frame_human_randomization h :
  steady gov_frame (human_randomization h).
Proof. apply steady_human_randomization; frame_facts. Qed.

Lemma human_randomization_state h w :
  state (snd (human_randomization h w)) = state w.
Proof.
  unfold human_randomization, time_sleep, ret.
  destruct (randomize_timing w); [destruct (Qltb h 0)|]; reflexivity.
Qed.

(** The world in which step 4 of a call that returns starts: the burst
    window, the last request and the configuration are those of the start
    of the call, and the clock has not gone back. *)
Lemma before_burst_detection j h w w' :
  wait_if_needed j h w = (Ok tt, w') ->
  exists w3 w4,
    pre_burst_frame w w3 /\
    burst_detection (clock w) w3 = (Ok tt, w4) /\
    state w' = state w4 /\
    clock w4 <= clock w'.
Proof.
  intro H. destruct (wait_if_needed_stages _ _ _ _ H)
    as (w1 & w2 & w3 & w4 & E1 & E2 & E3 & E4 & E5).
  exists w3, w4.
  pose proof (pre_burst_cooldown_check (clock w) w) as F1.
  pose proof (pre_burst_rolling_window_check (clock w) w1) as F2.
  pose proof (pre_burst_min_delay_check (clock w) j w2) as F3.
  rewrite E1 in F1. rewrite E2 in F2. rewrite E3 in F3. simpl in F1, F2, F3.
  split; [eauto using pre_burst_frame_trans|].
  split; [assumption|].
  pose proof (human_randomization_state h w4) as S5.
  pose proof (gov_frame_human_randomization h w4) as F5.
  rewrite E5 in S5, F5. simpl in S5, F5.
  split; [assumption|apply F5].
Qed.

(** C4, as the code has it.  When the burst-detection step finds that 10
    seconds or more lie between the opening of the burst window and now, it
    puts the burst count to 1, counting the request being admitted, and
    opens the window at now; now is the time the call read when it began,
    and a call that returns leaves the state so. *)
Theorem burst_window_reopened_with_count_one (now start : Q) (w : world)
    (Hstart : burst_start (state w) = Some start)
    (Hlate : 10 <= now - start) :
  burst_detection now w =
    (Ok tt, with_state (set_burst_count 1 (set_burst_start now (state w))) w) /\
  forall j h w',
    now = clock w ->
    wait_if_needed j h w = (Ok tt, w') ->
    burst_count (state w') = 1%Z /\ burst_start (state w') = Some now.
Proof.
  split; [now apply burst_detection_resets with (start := start)|].
  intros j h w' -> H.
  destruct (before_burst_detection _ _ _ _ H) as (w3 & w4 & F & E4 & S5 & _).
  rewrite (burst_detection_resets (clock w) w3 start) in E4.
  - inversion E4; subst w4. rewrite S5. split; reflexivity.
  - destruct F as [_ Hb]. congruence.
  - assumption.
Qed.

Lemma burst_window_reopened_with_count_one_witness :
  burst_start (state stale_burst_world) = Some 80 /\
  10 <= 100 - 80 /\
  burst_detection 100 stale_burst_world =
    (Ok tt, with_state (set_burst_count 1
              (set_burst_start 100 (state stale_burst_world)))
            stale_burst_world) /\
  forall j h w',
    100 = clock stale_burst_world ->
    wait_if_needed j h stale_burst_world = (Ok tt, w') ->
    burst_count (state w') = 1%Z /\ burst_start (state w') = Some 100.
Proof.
  split; [reflexivity|].
  split; [apply Qle_bool_iff; reflexivity|].
  apply (burst_window_reopened_with_count_one 100 80 stale_burst_world).
  - reflexivity.
  - apply Qle_bool_iff. reflexivity.
Defined.

(** C4 as stated fails.  Twenty seconds after the window opened, a call
    that sleeps one second in step 3 and then reaches burst detection at
    time 101 leaves the burst count at 1, not 0, and the window opened at
    100, the time read when the call began. *)
Lemma burst_count_reset_is_not_zero :
  let r := wait_if_needed 0 1 stale_burst_world in
  burst_start (state stale_burst_world) = Some 80 /\
  10 < clock stale_burst_world - 80 /\
  fst r = Ok tt /\
  slept (snd r) = [1] /\
  burst_count (state (snd r)) = 1%Z /\
  burst_start (state (snd r)) = Some 100 /\
  ~ burst_count (state (snd r)) = 0%Z.
Proof.
  vm_compute. repeat split; try discriminate.
Qed.

(** ** Minimum spacing *)

Lemma spacing_wait_value md elapsed j :
  spacing_wait md elapsed j == Qmax 0 ((md - elapsed) * (1 + j)).
Proof.
  unfold spacing_wait. rewrite py_max2_Qmax.
  apply Q.max_compat; [reflexivity|ring].
Qed.

Lemma spacing_wait_nonneg md elapsed j : 0 <= spacing_wait md elapsed j.
Proof.
  unfold spacing_wait, py_max2.
  destruct (Qltb_spec 0 (md - elapsed + j * (md - elapsed))); lra.
Qed.

Lemma spacing_wait_lower md elapsed j :
  elapsed < md -> - spacing_jitter <= j ->
  (md - elapsed) * (1 - spacing_jitter) <= spacing_wait md elapsed j.
Proof.
  unfold spacing_jitter. intros He Hj.
  assert (H : 0 <= (md - elapsed) * (j + (3 # 10))).
  { apply Qmult_le_0_compat; lra. }
  unfold spacing_wait, py_max2.
  destruct (Qltb_spec 0 (md - elapsed + j * (md - elapsed))); lra.
Qed.

Lemma min_delay_check_sleeps now j w last :
  last_request (state w) = Some last ->
  now - last < min_delay (config w) ->
  min_delay_check now j w =
    (Ok tt, after_sleep (spacing_wait (min_delay (config w)) (now - last) j) w).
Proof.
  intros Hl He. unfold min_delay_check, bind, get_state, get_config.
  rewrite Hl. destruct (Qltb_spec (now - last) (min_delay (config w))); [|lra].
  apply time_sleep_ok, spacing_wait_nonneg.
Qed.

Lemma gov_frame_rolling_window_check now :
  steady gov_frame (rolling_window_check now).
Proof. apply steady_rolling_window_check; frame_solve. Qed.

(** A call that returns has made the sleep of its step 3 and has lasted at
    least that long. *)
Lemma wait_if_needed_lasts j h w w' last :
  last_request (state w) = Some last ->
  clock w - last < min_delay (config w) ->
  wait_if_needed j h w = (Ok tt, w') ->
  let wait := spacing_wait (min_delay (config w)) (clock w - last) j in
  (exists l1 l2, slept w' = slept w ++ l1 ++ wait :: l2) /\
  clock w + wait <= clock w'.
Proof.
  intros Hl He H wait.
  destruct (wait_if_needed_stages _ _ _ _ H)
    as (w1 & w2 & w3 & w4 & E1 & E2 & E3 & E4 & E5).
  pose proof (gov_frame_cooldown_check (clock w) w) as F1.
  pose proof (gov_frame_rolling_window_check (clock w) w1) as F2.
  pose proof (gov_frame_burst_detection (clock w) w3) as F4.
  pose proof (gov_frame_human_randomization h w4) as F5.
  pose proof (slept_extends_cooldown_check (clock w) w) as S1.
  pose proof (slept_extends_rolling_window_check (clock w) w1) as S2.
  pose proof (slept_extends_burst_detection (clock w) w3) as S4.
  pose proof (slept_extends_human_randomization h w4) as S5.
  rewrite E1 in F1, S1. rewrite E2 in F2, S2.
  rewrite E4 in F4, S4. rewrite E5 in F5, S5.
  simpl in F1, F2, F4, F5, S1, S2, S4, S5.
  pose proof (gov_frame_trans _ _ _ F1 F2) as F12.
  pose proof (slept_extends_trans _ _ _ S1 S2) as [l1 S12].
  pose proof (slept_extends_trans _ _ _ S4 S5) as [l2 S45].
  destruct F12 as [Hc _ _ _ Hlast Hclk].
  rewrite (min_delay_check_sleeps (clock w) j w2 last) in E3
    by (rewrite ?Hc; congruence).
  inversion E3; subst w3. clear E3.
  destruct F4 as [_ _ _ _ _ Hclk4]. destruct F5 as [_ _ _ _ _ Hclk5].
  simpl in Hclk4, S45. rewrite Hc in Hclk4, S45. split.
  - exists l1, l2. rewrite S45, S12. rewrite <- !app_assoc. reflexivity.
  - subst wait. lra.
Qed.

Lemma record_request_run w :
  record_request w =
    (Ok tt,
     with_state
       (set_requests_made (requests_made (state w) + 1)
          (set_last_request (clock w) (state w)))
       (with_history
          (deque_append history_maxlen (clock w) (request_history w)) w)).
Proof. reflexivity. Qed.

(** C5.  In a call that begins less than [min_delay] after the last
    request, step 3 sleeps for [(min_delay - elapsed) * (1 + jitter)],
    not less than 0, where the jitter is the value drawn from
    [-0.3, 0.3] and elapsed is taken at the now of the call; a call that
    returns has made that sleep and has lasted at least as long.  Hence, when a
    request is recorded, an admission returns some time later and the next
    request is recorded some time after that, the two recorded times are at
    least [min_delay * (1 - 0.3)] apart, whatever jitter was drawn. *)
Theorem minimum_spacing :
  (forall (w : world) (last j : Q),
     last_request (state w) = Some last ->
     clock w - last < min_delay (config w) ->
     - spacing_jitter <= j <= spacing_jitter ->
     let elapsed := clock w - last in
     let wait := spacing_wait (min_delay (config w)) elapsed j in
     wait == Qmax 0 ((min_delay (config w) - elapsed) * (1 + j)) /\
     min_delay_check (clock w) j w = (Ok tt, after_sleep wait w) /\
     forall h w', wait_if_needed j h w = (Ok tt, w') ->
                  (exists l1 l2, slept w' = slept w ++ l1 ++ wait :: l2) /\
                  clock w + wait <= clock w') /\
  (forall (w0 wb : world) (d1 d2 j h : Q),
     0 <= d1 -> 0 <= d2 ->
     - spacing_jitter <= j <= spacing_jitter ->
     let wa := snd (record_request w0) in
     wait_if_needed j h (time_passes d1 wa) = (Ok tt, wb) ->
     let wc := snd (record_request (time_passes d2 wb)) in
     exists t0 t1,
       last_request (state wa) = Some t0 /\
       last_request (state wc) = Some t1 /\
       min_delay (config w0) * (1 - spacing_jitter) <= t1 - t0).
Proof.
  split.
  - intros w last j Hl He Hj elapsed wait. subst elapsed wait.
    split; [apply spacing_wait_value|].
    split; [now apply min_delay_check_sleeps|].
    intros h w' H. now apply wait_if_needed_lasts with (h := h).
  - intros w0 wb d1 d2 j h H1 H2 Hj wa H wc.
    exists (clock w0), (clock wb + d2).
    split; [reflexivity|]. split; [reflexivity|].
    pose proof (gov_frame_wait_if_needed j h (time_passes d1 wa)) as F.
    rewrite H in F. destruct F as [_ _ _ _ _ Hclk].
    cbn [snd clock time_passes] in Hclk.
    change (clock wa) with (clock w0) in Hclk.
    destruct (Qlt_le_dec (clock w0 + d1 - clock w0) (min_delay (config w0)))
      as [He|He].
    + pose proof (wait_if_needed_lasts j h (time_passes d1 wa) wb (clock w0)
                    eq_refl He H) as [_ L].
      pose proof (spacing_wait_lower (min_delay (config w0))
                    (clock w0 + d1 - clock w0) j He (proj1 Hj)) as S.
      cbn [clock time_passes config] in L.
      change (clock wa) with (clock w0) in L.
      change (config wa) with (config w0) in L.
      unfold spacing_jitter in *. lra.
    + unfold spacing_jitter in *.
      destruct (Qlt_le_dec (min_delay (config w0)) 0); lra.
Qed.

Lemma minimum_spacing_witness :
  let w := cooling_world in
  let w0 := stale_burst_world in
  let wa := snd (record_request w0) in
  let wb := snd (wait_if_needed 0 1 (time_passes (1 # 2) wa)) in
  let wc := snd (record_request (time_passes (1 # 4) wb)) in
  (last_request (state w) = Some 99 /\
   clock w - 99 < min_delay (config w) /\
   spacing_wait (min_delay (config w)) (clock w - 99) 0 ==
     Qmax 0 ((min_delay (config w) - (clock w - 99)) * (1 + 0)) /\
   slept (snd (wait_if_needed 0 1 w)) = [3; 1] /\
   clock w + spacing_wait (min_delay (config w)) (clock w - 99) 0 <=
     clock (snd (wait_if_needed 0 1 w))) /\
  (wait_if_needed 0 1 (time_passes (1 # 2) wa) = (Ok tt, wb) /\
   exists t0 t1,
     last_request (state wa) = Some t0 /\
     last_request (state wc) = Some t1 /\
     min_delay (config w0) * (1 - spacing_jitter) <= t1 - t0).
Proof.
  intros w w0 wa wb wc.
  assert (Hj : - spacing_jitter <= 0 <= spacing_jitter).
  { split; apply Qle_bool_iff; reflexivity. }
  assert (Hl : last_request (state w) = Some 99) by reflexivity.
  assert (He : clock w - 99 < min_delay (config w)).
  { apply Qltb_lt. reflexivity. }
  assert (Hr : wait_if_needed 0 1 (time_passes (1 # 2) wa) = (Ok tt, wb)).
  { vm_compute. reflexivity. }
  split.
  - destruct (proj1 minimum_spacing w 99 0 Hl He Hj) as (A & _ & C).
    repeat split; try assumption.
    apply (C 1). vm_compute. reflexivity.
  - split; [exact Hr|].
    apply (proj2 minimum_spacing w0 wb (1 # 2) (1 # 4) 0 1); try assumption;
      apply Qle_bool_iff; reflexivity.
Defined.

(** ** Recording a request *)

Lemma deque_append_length maxlen x d :
  (length d <= maxlen)%nat -> (length (deque_append maxlen x d) <= maxlen)%nat.
Proof.
  intro H. unfold deque_append.
  destruct (Nat.ltb_spec maxlen (length (d ++ [x]))) as [L|L].
  - destruct d as [|y d]; simpl in *; [lia|].
    rewrite length_app. simpl. lia.
  - exact L.
Qed.

Lemma deque_append_room maxlen x d :
  (length d < maxlen)%nat -> deque_append maxlen x d = d ++ [x].
Proof.
  intro H. unfold deque_append.
  destruct (Nat.ltb_spec maxlen (length (d ++ [x]))) as [L|L]; [|reflexivity].
  rewrite length_app in L. simpl in L. lia.
Qed.

Lemma deque_append_full maxlen x d :
  (0 < maxlen)%nat -> length d = maxlen ->
  deque_append maxlen x d = tl d ++ [x].
Proof.
  intros Hpos H. unfold deque_append.
  destruct (Nat.ltb_spec maxlen (length (d ++ [x]))) as [L|L].
  - destruct d; [simpl in H; lia|reflexivity].
  - rewrite length_app in L. simpl in L. lia.
Qed.

Lemma time_ordered_tl l : time_ordered l -> time_ordered (tl l).
Proof. destruct l; simpl; tauto. Qed.

Lemma time_ordered_snoc l x :
  time_ordered l -> Forall (fun t => t <= x) l -> time_ordered (l ++ [x]).
Proof.
  induction l as [|a l IH]; intros Ho Hf.
  - simpl. tauto.
  - inversion Hf as [|? ? Ha Hl]; subst. destruct Ho as [Hhd Ho].
    specialize (IH Ho Hl). cbn [app time_ordered]. split; [|exact IH].
    destruct l as [|b l]; simpl; assumption.
Qed.

Lemma Forall_tl {A} (P : A -> Prop) l : Forall P l -> Forall P (tl l).
Proof. destruct l; simpl; [auto|]. intro H. now inversion H. Qed.

Lemma deque_append_ordered maxlen x d :
  time_ordered d -> Forall (fun t => t <= x) d ->
  time_ordered (deque_append maxlen x d) /\
  Forall (fun t => t <= x) (deque_append maxlen x d).
Proof.
  intros Ho Hf.
  assert (H1 : time_ordered (d ++ [x])) by now apply time_ordered_snoc.
  assert (H2 : Forall (fun t => t <= x) (d ++ [x])).
  { apply Forall_app. split; [assumption|]. constructor; [lra|constructor]. }
  unfold deque_append. destruct (_ <? _)%nat.
  - split; [now apply time_ordered_tl|now apply Forall_tl].
  - split; assumption.
Qed.

Lemma Forall_le_later (l : list Q) a b :
  a <= b -> Forall (fun t => t <= a) l -> Forall (fun t => t <= b) l.
Proof.
  intros H. apply Forall_impl. intros t Ht. lra.
Qed.

Lemma history_inv_frame w w' :
  gov_frame w w' -> history_inv w -> history_inv w'.
Proof.
  intros [_ _ Hh _ _ Hc] [L O P]. constructor; rewrite Hh; try assumption.
  now apply Forall_le_later with (a := clock w).
Qed.

Lemma history_inv_record w : history_inv w -> history_inv (snd (record_request w)).
Proof.
  intros [L O P]. rewrite record_request_run.
  destruct (deque_append_ordered history_maxlen (clock w) _ O P) as [O' P'].
  constructor; simpl.
  - now apply deque_append_length.
  - exact O'.
  - exact P'.
Qed.

Lemma history_inv_step w w' : gov_step w w' -> history_inv w -> history_inv w'.
Proof.
  intros [w0 d Hd|w0 j h|w0|w0] H.
  - eapply history_inv_frame; [|exact H]. now apply gov_frame_time_passes.
  - eapply history_inv_frame; [|exact H]. apply gov_frame_wait_if_needed.
  - now apply history_inv_record.
  - exact H.
Qed.

Lemma history_inv_steps w w' : gov_steps w w' -> history_inv w -> history_inv w'.
Proof.
  induction 1 as [|w1 w2 w3 _ IH Hs]; intro H; [exact H|].
  eapply history_inv_step; [exact Hs|auto].
Qed.

Lemma history_inv_init cfg stealth t0 :
  history_inv (IntelligentRateLimiter_init cfg stealth t0).
Proof.
  constructor; simpl; [unfold history_maxlen; lia|exact I|constructor].
Qed.

Lemma requests_made_step w w' :
  gov_step w w' -> (requests_made (state w) <= requests_made (state w'))%Z.
Proof.
  intros [w0 d Hd|w0 j h|w0|w0].
  - simpl. lia.
  - destruct (gov_frame_wait_if_needed j h w0) as [_ _ _ Hm _ _]. lia.
  - rewrite record_request_run. simpl. lia.
  - simpl. lia.
Qed.

Lemma requests_made_steps w w' :
  gov_steps w w' -> (requests_made (state w) <= requests_made (state w'))%Z.
Proof.
  induction 1 as [|w1 w2 w3 _ IH Hs]; [lia|].
  apply requests_made_step in Hs. lia.
Qed.

(** C9.  [record_request] returns, having appended the time it read to the
    history (dropping the oldest entry when the history already held 200),
    set [last_request] to that time and added one to [requests_made].  After
    any sequence of calls of the governor's methods and lapses of time,
    begun with a new governor, the history holds at most 200 entries in
    non-decreasing order of time, and along any such sequence
    [requests_made] does not decrease. *)
Theorem record_request_and_history_invariants :
  (forall w,
     let r := record_request w in
     fst r = Ok tt /\
     request_history (snd r) =
       deque_append history_maxlen (clock w) (request_history w) /\
     ((length (request_history w) < 200)%nat ->
        request_history (snd r) = request_history w ++ [clock w]) /\
     (length (request_history w) = 200%nat ->
        request_history (snd r) = tl (request_history w) ++ [clock w]) /\
     last_request (state (snd r)) = Some (clock w) /\
     requests_made (state (snd r)) = (requests_made (state w) + 1)%Z /\
     clock (snd r) = clock w) /\
  (forall cfg stealth t0 w,
     gov_steps (IntelligentRateLimiter_init cfg stealth t0) w ->
     (length (request_history w) <= 200)%nat /\
     time_ordered (request_history w)) /\
  (forall w w',
     gov_steps w w' ->
     (requests_made (state w) <= requests_made (state w'))%Z).
Proof.
  split; [|split].
  - intros w r. subst r. rewrite record_request_run. simpl.
    repeat split.
    + intro H. now apply deque_append_room.
    + intro H. apply deque_append_full; [unfold history_maxlen; lia|exact H].
  - intros cfg stealth t0 w H.
    destruct (history_inv_steps _ _ H (history_inv_init cfg stealth t0))
      as [L O _].
    split; assumption.
  - apply requests_made_steps.
Qed.

Lemma record_request_and_history_invariants_witness :
  let w0 := IntelligentRateLimiter_init default_rate_limit true 0 in
  let w1 := snd (record_request w0) in
  let w2 := snd (wait_if_needed 0 1 (time_passes 1 w1)) in
  let w3 := snd (record_request w2) in
  gov_steps w0 w3 /\
  request_history w3 = [0; 3] /\
  (length (request_history w3) <= 200)%nat /\
  time_ordered (request_history w3) /\
  (requests_made (state w0) <= requests_made (state w3))%Z.
Proof.
  intros w0 w1 w2 w3.
  assert (H : gov_steps w0 w3).
  { eapply steps_next; [|apply step_record].
    eapply steps_next; [|apply step_wait].
    eapply steps_next; [|apply (step_time _ 1); apply Qle_bool_iff; reflexivity].
    eapply steps_next; [|apply step_record].
    apply steps_refl. }
  split; [exact H|].
  split; [vm_compute; reflexivity|].
  destruct record_request_and_history_invariants as (_ & Inv & Mono).
  destruct (Inv default_rate_limit true 0 w3 H) as [L O].
  split; [exact L|]. split; [exact O|].
  exact (Mono w0 w3 H).
Defined.

(** ** The quota of the rolling window, at a history that fills it *)

Lemma gov_steps_admit_and_record w0 w d j h :
  0 <= d -> gov_steps w0 w -> gov_steps w0 (admit_and_record d j h w).
Proof.
  intros Hd H. unfold admit_and_record.
  eapply steps_next; [|apply step_record].
  eapply steps_next; [|apply step_wait].
  eapply steps_next; [exact H|now apply step_time].
Qed.

Lemma gov_steps_cycles n w0 w d j h :
  0 <= d -> gov_steps w0 w -> gov_steps w0 (cycles n d j h w).
Proof.
  intro Hd. revert w. induction n as [|n IH]; intros w H; simpl.
  - exact H.
  - apply IH. now apply gov_steps_admit_and_record.
Qed.

Lemma busy_hour_world_arises :
  gov_steps (IntelligentRateLimiter_init default_rate_limit true 0)
            busy_hour_world.
Proof.
  unfold busy_hour_world.
  eapply steps_next; [|apply step_time; apply Qle_bool_iff; reflexivity].
  apply gov_steps_cycles; [apply Qle_bool_iff; reflexivity|].
  apply gov_steps_admit_and_record; [apply Qle_bool_iff; reflexivity|].
  apply steps_refl.
Qed.

(** C3, where the code falls short of it.  A new governor with the default
    limit of 180 admits and records a request at 5.9 seconds and 179 more
    at ten-second intervals, every admission awaited.  At 3600 all 180 lie
    within the last hour and the oldest is at 5.9, so the wait computed is
    5.9 seconds, to 3605.9.  The sleep helper makes five sleeps of one
    second; with the half second of step 5 the call returns at 3605.5,
    before the oldest request is an hour old, and once the request it
    admitted is recorded the trailing hour holds 181 requests. *)
Theorem quota_wait_ends_before_the_oldest_expires :
  let w := busy_hour_world in
  let recent := recent_requests (clock w) (request_history w) in
  let r := wait_if_needed 0 (1 # 2) w in
  let w' := snd (record_request (snd r)) in
  gov_steps (IntelligentRateLimiter_init default_rate_limit true 0) w /\
  requests_made (state w) = 180%Z /\
  clock w == 3600 /\
  requests_per_hour (config w) = 180%Z /\
  length recent = 180%nat /\
  option_map Qred (py_min recent) = Some (59 # 10) /\
  fst r = Ok tt /\
  slept (snd r) = slept w ++ [1; 1; 1; 1; 1; 1 # 2] /\
  clock (snd r) < (59 # 10) + one_hour /\
  length (recent_requests (clock w') (request_history w')) = 181%nat.
Proof.
  split; [exact busy_hour_world_arises|].
  vm_compute. repeat split; reflexivity.
Qed.

(** ** The delay between retries *)

Lemma float_of_int_ok n :
  (Z.abs n < float_limit)%Z -> float_of_int n = Ok (inject_Z n).
Proof.
  intro H. unfold float_of_int.
  destruct (Z.leb_spec float_limit (Z.abs n)); [lia|reflexivity].
Qed.

Lemma float_of_int_overflow n :
  (float_limit <= Z.abs n)%Z -> float_of_int n = Raise (mk_exn OverflowError 0).
Proof.
  intro H. unfold float_of_int.
  destruct (Z.leb_spec float_limit (Z.abs n)); [reflexivity|lia].
Qed.

Lemma backoff_wait_time_ok rc k j :
  (Z.abs (backoff_delay rc k) < float_limit)%Z ->
  backoff_wait_time rc k j = Ok (backoff_wait rc k j).
Proof.
  intro H. unfold backoff_wait_time, backoff_wait.
  now rewrite float_of_int_ok.
Qed.

Lemma backoff_wait_time_overflow rc k j :
  (float_limit <= Z.abs (backoff_delay rc k))%Z ->
  backoff_wait_time rc k j = Raise (mk_exn OverflowError 0).
Proof.
  intro H. unfold backoff_wait_time. now rewrite float_of_int_overflow.
Qed.

(** The wait is computed or the conversion overflows, and nothing else. *)
Lemma backoff_wait_time_cases rc k j :
  (Z.abs (backoff_delay rc k) < float_limit)%Z /\
    backoff_wait_time rc k j = Ok (backoff_wait rc k j) \/
  (float_limit <= Z.abs (backoff_delay rc k))%Z /\
    backoff_wait_time rc k j = Raise (mk_exn OverflowError 0).
Proof.
  destruct (Z.lt_ge_cases (Z.abs (backoff_delay rc k)) float_limit) as [H|H].
  - left. split; [exact H|now apply backoff_wait_time_ok].
  - right. split; [exact H|now apply backoff_wait_time_overflow].
Qed.

Lemma backoff_delay_Q rc (k : nat) :
  inject_Z (backoff_delay rc (Z.of_nat k)) ==
    inject_Z (base_delay rc) * inject_Z (exponential_base rc) ^ Z.of_nat k.
Proof.
  unfold backoff_delay. rewrite inject_Z_mult, Zpower_Qpower by lia.
  reflexivity.
Qed.

Lemma backoff_wait_value rc (k : nat) j :
  backoff_wait rc (Z.of_nat k) j ==
    Qmin (retry_max_delay rc)
         (inject_Z (base_delay rc) * inject_Z (exponential_base rc) ^ Z.of_nat k
          * (1 + j)).
Proof.
  unfold backoff_wait. rewrite py_min2_Qmin, Q.min_comm.
  apply Q.min_compat; [reflexivity|]. rewrite backoff_delay_Q. ring.
Qed.

Lemma backoff_wait_no_jitter rc k :
  backoff_wait rc k 0 == Qmin (retry_max_delay rc) (inject_Z (backoff_delay rc k)).
Proof.
  unfold backoff_wait. rewrite py_min2_Qmin, Q.min_comm.
  apply Q.min_compat; [reflexivity|ring].
Qed.

Lemma backoff_delay_succ rc k :
  (0 <= k)%Z ->
  backoff_delay rc (k + 1) = (backoff_delay rc k * exponential_base rc)%Z.
Proof.
  intro Hk. unfold backoff_delay.
  rewrite Z.pow_add_r, Z.pow_1_r by lia. ring.
Qed.

Lemma backoff_delay_nonneg rc k :
  (0 <= base_delay rc)%Z -> (0 <= exponential_base rc)%Z ->
  (0 <= backoff_delay rc k)%Z.
Proof.
  intros Hb He. unfold backoff_delay.
  apply Z.mul_nonneg_nonneg; [assumption|now apply Z.pow_nonneg].
Qed.

Lemma backoff_delay_pos rc k :
  (0 < base_delay rc)%Z -> (0 < exponential_base rc)%Z -> (0 <= k)%Z ->
  (0 < backoff_delay rc k)%Z.
Proof.
  intros Hb He Hk. unfold backoff_delay.
  apply Z.mul_pos_pos; [assumption|now apply Z.pow_pos_nonneg].
Qed.

Lemma backoff_delay_grows rc k :
  (0 < base_delay rc)%Z -> (1 < exponential_base rc)%Z -> (0 <= k)%Z ->
  (backoff_delay rc k < backoff_delay rc (k + 1))%Z.
Proof.
  intros Hb He Hk. rewrite backoff_delay_succ by assumption.
  pose proof (backoff_delay_pos rc k Hb ltac:(lia) Hk). nia.
Qed.

(** The delay outgrows the number of the attempt. *)
Lemma backoff_delay_above rc k :
  (0 < base_delay rc)%Z -> (1 < exponential_base rc)%Z -> (0 <= k)%Z ->
  (k < backoff_delay rc k)%Z.
Proof.
  intros Hb He Hk. unfold backoff_delay.
  pose proof (Z.pow_gt_lin_r (exponential_base rc) k He Hk). nia.
Qed.

Lemma backoff_wait_nonneg rc k j :
  (0 <= base_delay rc)%Z -> (0 <= exponential_base rc)%Z ->
  0 <= retry_max_delay rc -> -1 <= j ->
  0 <= backoff_wait rc k j.
Proof.
  intros Hb He Hm Hj. unfold backoff_wait. rewrite py_min2_Qmin.
  pose proof (backoff_delay_nonneg rc k Hb He) as Hd.
  rewrite Zle_Qle in Hd. change (inject_Z 0) with 0 in Hd.
  set (d := inject_Z (backoff_delay rc k)) in *.
  apply Q.min_glb; [|assumption].
  assert (0 <= d * (1 + j)) by (apply Qmult_le_0_compat; lra). lra.
Qed.

Lemma backoff_wait_le_max rc k j :
  backoff_wait rc k j <= retry_max_delay rc.
Proof.
  unfold backoff_wait, py_min2.
  destruct (Qltb_spec (retry_max_delay rc)
              (inject_Z (backoff_delay rc k) + j * inject_Z (backoff_delay rc k)));
    lra.
Qed.

Lemma transient_caught e :
  transient e = true ->
  is_Exception e = true /\ isinstance e non_retryable = false.
Proof.
  unfold transient. intro H. apply andb_true_iff in H. destruct H as [H1 H2].
  split; [exact H1|]. now apply negb_true_iff in H2.
Qed.

Lemma non_retryable_is_caught e :
  isinstance e non_retryable = true -> is_Exception e = true.
Proof.
  destruct e as [c a]. destruct c; cbn; intro H;
    first [reflexivity|discriminate H].
Qed.

(** ** The retry wrapper *)

Section RetryFacts.

Variables St V : Type.
Variable func : St -> result V * St.
Variable sleep_on : Q -> St -> St.
Variable REQUESTS_AVAILABLE : bool.
Variable rc : retry_config.
Variable uniform_draw : Z -> Q.

Let retry :=
  retry_with_backoff St V func sleep_on REQUESTS_AVAILABLE rc uniform_draw.
Let loop := retry_loop St V func sleep_on REQUESTS_AVAILABLE rc uniform_draw.

(** The test on [RequestException] never lets an attempt through that is
    not the last. *)
Lemma requests_test_not_last e attempt max_attempts :
  (attempt =? max_attempts - 1)%Z = false ->
  (if REQUESTS_AVAILABLE
   then if isinstance e [RequestException]
        then (attempt =? max_attempts - 1)%Z else false
   else false) = false.
Proof.
  intros ->. destruct REQUESTS_AVAILABLE, (isinstance e [RequestException]);
    reflexivity.
Qed.

(** An attempt, not the last, that fails with a transient error: the wait
    is computed, logged and slept, and the next attempt follows. *)
Lemma retry_loop_sleeps max_attempts n attempt s tr e s' wait :
  func s = (Raise e, s') ->
  transient e = true ->
  (attempt =? max_attempts - 1)%Z = false ->
  backoff_wait_time rc attempt (uniform_draw attempt) = Ok wait ->
  0 <= wait ->
  loop max_attempts (S n) attempt s tr =
    loop max_attempts n (attempt + 1)%Z (sleep_on wait s')
      (tr ++ [Called attempt; LogWarning attempt; LogInfo wait; Slept wait]).
Proof.
  intros Hf Ht Ha Hw Hpos. destruct (transient_caught e Ht) as [Hc Hn].
  unfold loop. cbn [retry_loop]. rewrite Hf, Hc. cbn [negb].
  rewrite (requests_test_not_last e _ _ Ha), Hn, Ha, Hw.
  destruct (Qltb_spec wait 0); [lra|].
  rewrite <- !app_assoc. reflexivity.
Qed.

Lemma retry_loop_retries max_attempts n attempt s tr e s' :
  func s = (Raise e, s') ->
  transient e = true ->
  (attempt =? max_attempts - 1)%Z = false ->
  (Z.abs (backoff_delay rc attempt) < float_limit)%Z ->
  0 <= backoff_wait rc attempt (uniform_draw attempt) ->
  loop max_attempts (S n) attempt s tr =
    loop max_attempts n (attempt + 1)%Z
      (sleep_on (backoff_wait rc attempt (uniform_draw attempt)) s')
      (tr ++ [Called attempt; LogWarning attempt;
              LogInfo (backoff_wait rc attempt (uniform_draw attempt));
              Slept (backoff_wait rc attempt (uniform_draw attempt))]).
Proof.
  intros Hf Ht Ha Hd Hw.
  apply retry_loop_sleeps with (e := e); try assumption.
  now apply backoff_wait_time_ok.
Qed.

(** Such an attempt when the wait cannot be computed: the error of the
    computation leaves the wrapper, before any log line. *)
Lemma retry_loop_wait_fails max_attempts n attempt s tr e s' o :
  func s = (Raise e, s') ->
  transient e = true ->
  (attempt =? max_attempts - 1)%Z = false ->
  backoff_wait_time rc attempt (uniform_draw attempt) = Raise o ->
  loop max_attempts (S n) attempt s tr = (Raise o, (s', tr ++ [Called attempt])).
Proof.
  intros Hf Ht Ha Hw. destruct (transient_caught e Ht) as [Hc Hn].
  unfold loop. cbn [retry_loop]. rewrite Hf, Hc. cbn [negb].
  now rewrite (requests_test_not_last e _ _ Ha), Hn, Ha, Hw.
Qed.

(** The last attempt, failing with a transient error: an error line in the
    log and a bare [raise]. *)
Lemma retry_loop_gives_up max_attempts n attempt s tr e s' :
  func s = (Raise e, s') ->
  transient e = true ->
  (attempt =? max_attempts - 1)%Z = true ->
  loop max_attempts (S n) attempt s tr =
    (Raise e, (s', tr ++ [Called attempt] ++ [LogError max_attempts])).
Proof.
  intros Hf Ht Ha. destruct (transient_caught e Ht) as [Hc Hn].
  unfold loop. cbn [retry_loop]. rewrite Hf, Hc, Hn, Ha.
  rewrite <- !app_assoc. cbn [negb].
  destruct REQUESTS_AVAILABLE, (isinstance e [RequestException]); reflexivity.
Qed.

(** An error of a class the wrapper does not retry on, at an attempt that is
    not the last. *)
Lemma retry_loop_raises_at_once max_attempts n attempt s tr e s' :
  func s = (Raise e, s') ->
  isinstance e non_retryable = true ->
  (attempt =? max_attempts - 1)%Z = false ->
  loop max_attempts (S n) attempt s tr = (Raise e, (s', tr ++ [Called attempt])).
Proof.
  intros Hf Hn Ha. unfold loop. cbn [retry_loop].
  rewrite Hf, (non_retryable_is_caught e Hn). cbn [negb].
  now rewrite (requests_test_not_last e _ _ Ha), Hn.
Qed.

(** An error that [except Exception] does not catch. *)
Lemma retry_loop_not_caught max_attempts n attempt s tr e s' :
  func s = (Raise e, s') ->
  is_Exception e = false ->
  loop max_attempts (S n) attempt s tr = (Raise e, (s', tr ++ [Called attempt])).
Proof.
  intros Hf Hc. unfold loop. cbn [retry_loop]. now rewrite Hf, Hc.
Qed.

(** C6, as the code has it.  The wait after attempt [k] is the lesser of
    [max_delay] and [base_delay * exponential_base ^ k * (1 + j)], where
    [j], between [-jitter] and [jitter], is the value drawn, as long as the
    int [base_delay * exponential_base ^ k] converts to a float; from the
    attempt on at which it does not, the computation raises
    [OverflowError].  The wrapper, after a transient failure at an attempt
    that is not the last, logs and sleeps the wait computed and goes on to
    the next attempt, or raises the [OverflowError] without a log line.
    For a positive [base_delay] and an [exponential_base] above 1 the waits
    computed with no jitter grow strictly from one attempt to the next
    while they are below [max_delay], and from some attempt on every wait
    that is computed is [max_delay]. *)
Theorem backoff_wait_formula_and_growth :
  (forall (k : nat) (j : Q),
     - jitter rc <= j <= jitter rc ->
     (Z.abs (backoff_delay rc (Z.of_nat k)) < float_limit)%Z ->
     exists wait,
       backoff_wait_time rc (Z.of_nat k) j = Ok wait /\
       wait == Qmin (retry_max_delay rc)
                    (inject_Z (base_delay rc)
                     * inject_Z (exponential_base rc) ^ Z.of_nat k * (1 + j))) /\
  (forall (k : nat) (j : Q),
     (float_limit <= Z.abs (backoff_delay rc (Z.of_nat k)))%Z ->
     backoff_wait_time rc (Z.of_nat k) j = Raise (mk_exn OverflowError 0)) /\
  (forall max_attempts n (k : nat) s tr e s',
     func s = (Raise e, s') ->
     transient e = true ->
     (Z.of_nat k =? max_attempts - 1)%Z = false ->
     (forall wait,
        backoff_wait_time rc (Z.of_nat k) (uniform_draw (Z.of_nat k)) = Ok wait ->
        0 <= wait ->
        loop max_attempts (S n) (Z.of_nat k) s tr =
          loop max_attempts n (Z.of_nat k + 1)%Z (sleep_on wait s')
            (tr ++ [Called (Z.of_nat k); LogWarning (Z.of_nat k);
                    LogInfo wait; Slept wait])) /\
     (forall o,
        backoff_wait_time rc (Z.of_nat k) (uniform_draw (Z.of_nat k)) = Raise o ->
        loop max_attempts (S n) (Z.of_nat k) s tr =
          (Raise o, (s', tr ++ [Called (Z.of_nat k)])))) /\
  ((0 < base_delay rc)%Z -> (1 < exponential_base rc)%Z ->
     (forall (k : nat) (w w' : Q),
        backoff_wait_time rc (Z.of_nat k) 0 = Ok w ->
        backoff_wait_time rc (Z.of_nat (S k)) 0 = Ok w' ->
        w < retry_max_delay rc -> w < w') /\
     (exists K : nat, forall k : nat, (K <= k)%nat ->
        forall w, backoff_wait_time rc (Z.of_nat k) 0 = Ok w ->
                  w == retry_max_delay rc)).
Proof.
  split; [|split; [|split]].
  - intros k j _ Hd. exists (backoff_wait rc (Z.of_nat k) j).
    split; [now apply backoff_wait_time_ok|apply backoff_wait_value].
  - intros k j Hd. now apply backoff_wait_time_overflow.
  - intros max_attempts n k s tr e s' Hf Ht Ha. split.
    + intros wait Hw Hpos. now apply retry_loop_sleeps with (e := e).
    + intros o Hw. now apply retry_loop_wait_fails with (e := e).
  - intros Hb He. split.
    + intros k w w' Hw Hw' Hlt.
      pose proof (backoff_delay_grows rc (Z.of_nat k) Hb He ltac:(lia)) as G.
      replace (Z.of_nat k + 1)%Z with (Z.of_nat (S k)) in G by lia.
      remember (Z.of_nat (S k)) as k1 eqn:Ek1. clear Ek1.
      destruct (backoff_wait_time_cases rc (Z.of_nat k) 0) as [[_ E]|[_ E]];
        rewrite E in Hw; [|discriminate].
      destruct (backoff_wait_time_cases rc k1 0) as [[_ E']|[_ E']];
        rewrite E' in Hw'; [|discriminate].
      injection Hw as <-. injection Hw' as <-. clear E E'.
      rewrite backoff_wait_no_jitter in Hlt. rewrite !backoff_wait_no_jitter.
      rewrite Zlt_Qlt in G.
      set (dk := inject_Z (backoff_delay rc (Z.of_nat k))) in *.
      set (dk' := inject_Z (backoff_delay rc k1)) in *.
      apply Q.min_glb_lt_iff. apply Q.min_lt_iff in Hlt.
      destruct Hlt as [Hlt|Hlt]; [lra|].
      assert (Hmin : Qmin (retry_max_delay rc) dk == dk) by (apply Q.min_r; lra).
      rewrite Hmin. split; lra.
    + exists (Z.to_nat (Qceiling (retry_max_delay rc))). intros k Hk w Hw.
      destruct (backoff_wait_time_cases rc (Z.of_nat k) 0) as [[_ E]|[_ E]];
        rewrite E in Hw; [|discriminate].
      injection Hw as <-. rewrite backoff_wait_no_jitter.
      apply Q.min_l.
      pose proof (backoff_delay_above rc (Z.of_nat k) Hb He ltac:(lia)) as A.
      apply Qle_trans with (inject_Z (Qceiling (retry_max_delay rc)));
        [apply Qle_ceiling|].
      rewrite <- Zle_Qle. lia.
Qed.

(** C7.  Under [max_attempts = 3], when the first call of the wrapped
    function raises an error of one of the three classes that are not
    retried, the wrapper raises that error: the function has been called
    once and the wrapper has neither slept nor logged. *)
Theorem non_retryable_error_raised_at_once (s s' : St) (e : exn)
    (Hfail : func s = (Raise e, s'))
    (Hclass : isinstance e non_retryable = true) :
  let r := retry 3%Z s in
  r = (Raise e, (s', [Called 0])) /\
  length (filter is_call (snd (snd r))) = 1%nat /\
  filter is_sleep (snd (snd r)) = [].
Proof.
  intro r. subst r. unfold retry, retry_with_backoff.
  change (Z.to_nat 3) with 3%nat.
  change (retry_loop St V func sleep_on REQUESTS_AVAILABLE rc uniform_draw)
    with loop.
  rewrite (retry_loop_raises_at_once 3 2 0 s [] e s' Hfail Hclass eq_refl).
  repeat split.
Qed.

(** C8, as the code has it.  Under [max_attempts = 3], when three calls in
    a row fail with transient errors, errors that derive from [Exception]
    and are of none of the three classes that are not retried, the wrapper
    calls the function three times, sleeping the backoff wait after the
    first and the second failure, writes the error line "failed after 3
    attempts" to the log and re-raises the third error as it caught it.
    What the caller receives is what the third call raised, the same
    object; nothing is added to it. *)
Theorem exhausted_retries_reraise_the_last_error
    (s0 s1 s2 s3 : St) (e0 e1 e2 : exn)
    (Hb : (0 <= base_delay rc)%Z) (He : (0 <= exponential_base rc)%Z)
    (Hm : 0 <= retry_max_delay rc)
    (Hj : jitter rc <= 1)
    (Hdraw : forall k, - jitter rc <= uniform_draw k <= jitter rc)
    (Hfloat : delays_convert rc 2)
    (H0 : func s0 = (Raise e0, s1)) (T0 : transient e0 = true)
    (H1 : func (sleep_on (backoff_wait rc 0 (uniform_draw 0%Z)) s1)
          = (Raise e1, s2))
    (T1 : transient e1 = true)
    (H2 : func (sleep_on (backoff_wait rc 1 (uniform_draw 1%Z)) s2)
          = (Raise e2, s3))
    (T2 : transient e2 = true) :
  let r := retry 3%Z s0 in
  let wait0 := backoff_wait rc 0 (uniform_draw 0%Z) in
  let wait1 := backoff_wait rc 1 (uniform_draw 1%Z) in
  backoff_wait_time rc 0 (uniform_draw 0%Z) = Ok wait0 /\
  backoff_wait_time rc 1 (uniform_draw 1%Z) = Ok wait1 /\
  r = (Raise e2,
       (s3, [Called 0; LogWarning 0; LogInfo wait0; Slept wait0;
             Called 1; LogWarning 1; LogInfo wait1; Slept wait1;
             Called 2; LogError 3])) /\
  length (filter is_call (snd (snd r))) = 3%nat /\
  raised (fst r) = raised (fst (func (sleep_on wait1 s2))).
Proof.
  intros r wait0 wait1.
  assert (W : forall k, 0 <= backoff_wait rc k (uniform_draw k)).
  { intro k. apply backoff_wait_nonneg; try assumption.
    destruct (Hdraw k). lra. }
  assert (D0 : (Z.abs (backoff_delay rc 0) < float_limit)%Z)
    by (apply Hfloat; lia).
  assert (D1 : (Z.abs (backoff_delay rc 1) < float_limit)%Z)
    by (apply Hfloat; lia).
  assert (E : r = (Raise e2,
       (s3, [Called 0; LogWarning 0; LogInfo wait0; Slept wait0;
             Called 1; LogWarning 1; LogInfo wait1; Slept wait1;
             Called 2; LogError 3]))).
  { subst r. unfold retry, retry_with_backoff.
    change (Z.to_nat 3) with 3%nat.
    change (retry_loop St V func sleep_on REQUESTS_AVAILABLE rc uniform_draw)
      with loop.
    rewrite (retry_loop_retries 3 2 0 s0 [] e0 s1 H0 T0 eq_refl D0 (W 0%Z)).
    rewrite (retry_loop_retries 3 1 (0 + 1) _ _ e1 s2 H1 T1 eq_refl D1 (W 1%Z)).
    rewrite (retry_loop_gives_up 3 0 (0 + 1 + 1) _ _ e2 s3 H2 T2 eq_refl).
    reflexivity. }
  split; [now apply backoff_wait_time_ok|].
  split; [now apply backoff_wait_time_ok|].
  rewrite E. split; [reflexivity|]. split; [reflexivity|].
  unfold wait1. now rewrite H2.
Qed.

End RetryFacts.

Lemma default_retry_converts (k : Z) :
  (0 <= k < 1022)%Z -> (Z.abs (backoff_delay default_retry k) < float_limit)%Z.
Proof.
  intros [H0 H1]. unfold backoff_delay. cbn [base_delay exponential_base default_retry].
  assert (H : (2 ^ k <= 2 ^ 1021)%Z) by (apply Z.pow_le_mono_r; lia).
  assert (P : (0 < 2 ^ k)%Z) by (apply Z.pow_pos_nonneg; lia).
  assert (L : (5 * 2 ^ 1021 < float_limit)%Z) by (vm_compute; reflexivity).
  rewrite Z.abs_eq by lia. lia.
Qed.

Lemma default_retry_overflows (k : Z) :
  (1022 <= k)%Z -> (float_limit <= Z.abs (backoff_delay default_retry k))%Z.
Proof.
  intro H. unfold backoff_delay. cbn [base_delay exponential_base default_retry].
  assert (P : (2 ^ 1022 <= 2 ^ k)%Z) by (apply Z.pow_le_mono_r; lia).
  assert (L : (float_limit <= 5 * 2 ^ 1022)%Z) by (vm_compute; discriminate).
  assert (Q : (0 < 2 ^ 1022)%Z) by (apply Z.pow_pos_nonneg; lia).
  rewrite Z.abs_eq by lia. lia.
Qed.

Lemma backoff_wait_formula_and_growth_witness :
  let loop := retry_loop nat unit always_connection_error sleep_unseen true
                default_retry (fun _ => 0) in
  - jitter default_retry <= 1 # 10 <= jitter default_retry /\
  (Z.abs (backoff_delay default_retry (Z.of_nat 1)) < float_limit)%Z /\
  (float_limit <= Z.abs (backoff_delay default_retry (Z.of_nat 1022)))%Z /\
  always_connection_error 0%nat = (Raise (mk_exn ConnectionException 0), 1%nat) /\
  transient (mk_exn ConnectionException 0) = true /\
  (0 < base_delay default_retry)%Z /\
  (1 < exponential_base default_retry)%Z /\
  (exists wait,
     backoff_wait_time default_retry (Z.of_nat 1) (1 # 10) = Ok wait /\
     wait == 11) /\
  backoff_wait_time default_retry (Z.of_nat 1022) (1 # 10) =
    Raise (mk_exn OverflowError 0) /\
  loop 3%Z 3%nat (Z.of_nat 0) 0%nat [] =
    loop 3%Z 2%nat (Z.of_nat 0 + 1)%Z 1%nat
      [Called 0; LogWarning 0; LogInfo 5; Slept 5] /\
  5 < 10 /\
  (exists K : nat, forall k : nat, (K <= k)%nat ->
     forall w, backoff_wait_time default_retry (Z.of_nat k) 0 = Ok w ->
               w == retry_max_delay default_retry).
Proof.
  intro loop.
  destruct (backoff_wait_formula_and_growth nat unit always_connection_error
              sleep_unseen true default_retry (fun _ => 0))
    as (F & O & W & G).
  assert (Hj : - jitter default_retry <= 1 # 10 <= jitter default_retry).
  { split; apply Qle_bool_iff; reflexivity. }
  assert (Hc : (Z.abs (backoff_delay default_retry (Z.of_nat 1)) < float_limit)%Z)
    by (vm_compute; reflexivity).
  assert (Ho : (float_limit <= Z.abs (backoff_delay default_retry (Z.of_nat 1022)))%Z)
    by (vm_compute; discriminate).
  assert (Hf : always_connection_error 0%nat =
               (Raise (mk_exn ConnectionException 0), 1%nat)) by reflexivity.
  assert (Ht : transient (mk_exn ConnectionException 0) = true) by reflexivity.
  assert (Hb : (0 < base_delay default_retry)%Z) by reflexivity.
  assert (He : (1 < exponential_base default_retry)%Z) by reflexivity.
  destruct (G Hb He) as [Gs Gm].
  destruct (W 3%Z 2%nat 0%nat 0%nat [] _ _ Hf Ht eq_refl) as [Ws _].
  split; [exact Hj|]. split; [exact Hc|]. split; [exact Ho|].
  split; [exact Hf|]. split; [exact Ht|]. split; [exact Hb|].
  split; [exact He|]. split.
  { destruct (F 1%nat (1 # 10) Hj Hc) as (wait & E & V).
    exists wait. split; [exact E|]. rewrite V. reflexivity. }
  split; [exact (O 1022%nat (1 # 10) Ho)|].
  split.
  { apply (Ws 5); [reflexivity|]. apply Qle_bool_iff. reflexivity. }
  split; [|exact Gm].
  apply (Gs 0%nat 5 10); [reflexivity|reflexivity|].
  apply Qltb_lt. reflexivity.
Defined.

(** C6 as stated fails.  With the configuration of the program the
    computation of the wait raises [OverflowError] at attempt 1022 and at
    every later one, whatever is drawn, so the wait is not [max_delay] at
    every attempt that is late enough; at attempt 1021 it still is.  A
    wrapper with 1024 attempts around a function that always fails with a
    connection error ends so, after 1023 calls. *)
Lemma delay_computation_overflows :
  let r := retry_with_backoff nat unit always_connection_error sleep_unseen
             true default_retry (fun _ => 0) 1024%Z 0%nat in
  backoff_wait_time default_retry 1021 0 = Ok 300 /\
  (forall (k : nat) (j : Q), (1022 <= k)%nat ->
     backoff_wait_time default_retry (Z.of_nat k) j =
       Raise (mk_exn OverflowError 0)) /\
  fst r = Raise (mk_exn OverflowError 0) /\
  length (filter is_call (snd (snd r))) = 1023%nat /\
  length (filter is_sleep (snd (snd r))) = 1022%nat /\
  ~ (exists K : nat, forall k : nat, (K <= k)%nat ->
       exists w, backoff_wait_time default_retry (Z.of_nat k) 0 = Ok w /\
                 w == retry_max_delay default_retry).
Proof.
  intro r.
  assert (O : forall (k : nat) (j : Q), (1022 <= k)%nat ->
            backoff_wait_time default_retry (Z.of_nat k) j =
              Raise (mk_exn OverflowError 0)).
  { intros k j Hk. apply backoff_wait_time_overflow.
    apply default_retry_overflows. lia. }
  split; [vm_compute; reflexivity|]. split; [exact O|].
  split; [vm_compute; reflexivity|].
  split; [vm_compute; reflexivity|].
  split; [vm_compute; reflexivity|].
  intros [K HK].
  destruct (HK (Nat.max K 1022) ltac:(lia)) as (w & E & _).
  rewrite O in E by lia. discriminate E.
Qed.

Lemma non_retryable_error_raised_at_once_witness :
  let e := mk_exn ProfileNotExistsException 0 in
  let r := retry_with_backoff nat unit profile_missing sleep_unseen true
             default_retry (fun _ => 0) 3%Z 0%nat in
  profile_missing 0%nat = (Raise e, 1%nat) /\
  isinstance e non_retryable = true /\
  r = (Raise e, (1%nat, [Called 0])) /\
  length (filter is_call (snd (snd r))) = 1%nat /\
  filter is_sleep (snd (snd r)) = [].
Proof.
  intros e r.
  split; [reflexivity|]. split; [reflexivity|].
  apply (non_retryable_error_raised_at_once nat unit profile_missing
           sleep_unseen true default_retry (fun _ => 0) 0%nat 1%nat e);
    reflexivity.
Defined.

Lemma exhausted_retries_reraise_the_last_error_witness :
  let r := retry_with_backoff nat unit always_connection_error sleep_unseen
             true default_retry (fun _ => 0) 3%Z 0%nat in
  delays_convert default_retry 2 /\
  transient (mk_exn ConnectionException 2) = true /\
  backoff_wait_time default_retry 0 0 = Ok (backoff_wait default_retry 0 0) /\
  backoff_wait_time default_retry 1 0 = Ok (backoff_wait default_retry 1 0) /\
  r = (Raise (mk_exn ConnectionException 2),
       (3%nat, [Called 0; LogWarning 0;
                LogInfo (backoff_wait default_retry 0 0);
                Slept (backoff_wait default_retry 0 0);
                Called 1; LogWarning 1;
                LogInfo (backoff_wait default_retry 1 0);
                Slept (backoff_wait default_retry 1 0);
                Called 2; LogError 3])) /\
  length (filter is_call (snd (snd r))) = 3%nat /\
  raised (fst r) = raised (fst (always_connection_error 2%nat)).
Proof.
  intro r.
  assert (Hf : delays_convert default_retry 2).
  { intros a Ha. apply default_retry_converts. lia. }
  split; [exact Hf|]. split; [reflexivity|].
  apply (exhausted_retries_reraise_the_last_error nat unit
           always_connection_error sleep_unseen true default_retry
           (fun _ => 0) 0%nat 1%nat 2%nat 3%nat
           (mk_exn ConnectionException 0) (mk_exn ConnectionException 1)
           (mk_exn ConnectionException 2));
    try reflexivity; try (apply Qle_bool_iff; reflexivity);
    try exact Hf; try discriminate.
  intros _. split; apply Qle_bool_iff; reflexivity.
Defined.

(** C8 as stated fails.  A function that fails with a connection error at
    every call is called three times and the line "failed after 3 attempts"
    is logged; what the caller then catches is the exception object the
    third call raised, of the class and with the arguments that call gave
    it, and no other: no mark of the exhaustion is on it. *)
Lemma exhausted_error_is_not_marked :
  let r := retry_with_backoff nat unit always_connection_error sleep_unseen
             true default_retry (fun _ => 0) 3%Z 0%nat in
  let third := always_connection_error 2%nat in
  length (filter is_call (snd (snd r))) = 3%nat /\
  filter is_log_error (snd (snd r)) = [LogError 3] /\
  raised (fst third) = Some (mk_exn ConnectionException 2) /\
  raised (fst r) = raised (fst third) /\
  ~ (exists e, raised (fst r) = Some e /\ e <> mk_exn ConnectionException 2).
Proof.
  vm_compute. repeat split; try reflexivity.
  intros [e [E N]]. apply N. now inversion E.
Qed.

(** ** An admission returns *)

Lemma fold_min_in (l : list Q) (x : Q) :
  let m := fold_left (fun m y => if Qltb y m then y else m) l x in
  m = x \/ In m l.
Proof.
  revert x. induction l as [|a l IH]; intro x; simpl.
  - now left.
  - destruct (IH (if Qltb a x then a else x)) as [E|I].
    + rewrite E. destruct (Qltb a x); [right; now left|now left].
    + right. now right.
Qed.

Lemma py_min_in l m : py_min l = Some m -> In m l.
Proof.
  destruct l as [|x l]; simpl; [discriminate|].
  intro H. inversion H. destruct (fold_min_in l x) as [E|I].
  - left. now rewrite E.
  - now right.
Qed.

Lemma py_min_nonempty l : l <> [] -> exists m, py_min l = Some m.
Proof. destruct l; [congruence|]. intros _. simpl. eauto. Qed.

Lemma recent_is_recent now h t :
  In t (recent_requests now h) -> now - one_hour < t.
Proof.
  unfold recent_requests. intro H. apply filter_In in H.
  destruct H as [_ H]. now apply Qltb_lt in H.
Qed.

(** The quota step, when the limit is reached: the helper is asked for the
    time until the oldest recent request is an hour old, a positive length. *)
Lemma rolling_window_check_waits now w :
  (0 < requests_per_hour (config w))%Z ->
  (requests_per_hour (config w) <=
     Z.of_nat (length (recent_requests now (request_history w))))%Z ->
  exists oldest,
    py_min (recent_requests now (request_history w)) = Some oldest /\
    0 < oldest + one_hour - now /\
    rolling_window_check now w =
      _sleep_with_progress (oldest + one_hour - now) w.
Proof.
  intros Hpos Hfull.
  destruct (py_min_nonempty (recent_requests now (request_history w)))
    as [oldest E].
  { intro Z. rewrite Z in Hfull. simpl in Hfull. lia. }
  exists oldest. split; [exact E|].
  pose proof (recent_is_recent _ _ _ (py_min_in _ _ E)) as R.
  split; [lra|].
  unfold rolling_window_check, bind, get_history, get_config.
  apply Z.leb_le in Hfull. rewrite Hfull, E. reflexivity.
Qed.

Lemma sleep_with_progress_returns d w :
  0 <= d -> fst (_sleep_with_progress d w) = Ok tt.
Proof. intro H. now rewrite sleep_with_progress_ok. Qed.

Lemma cooldown_check_returns now w :
  well_formed w -> fst (cooldown_check now w) = Ok tt.
Proof.
  intros [Hu _ _]. unfold cooldown_check, bind, get_state.
  destruct (is_cooling_down (state w)); [|reflexivity].
  destruct (cooldown_until (state w)) as [until|]; [|now destruct Hu].
  destruct (Qltb_spec now until); [|reflexivity].
  apply sleep_with_progress_returns. lra.
Qed.

Lemma rolling_window_check_returns now w :
  (0 < requests_per_hour (config w))%Z ->
  fst (rolling_window_check now w) = Ok tt.
Proof.
  intro Hpos.
  destruct (Z.leb_spec (requests_per_hour (config w))
              (Z.of_nat (length (recent_requests now (request_history w)))))
    as [L|L].
  - destruct (rolling_window_check_waits now w Hpos L) as (o & _ & P & E).
    rewrite E. apply sleep_with_progress_returns. lra.
  - unfold rolling_window_check, bind, get_history, get_config.
    apply Z.leb_gt in L. now rewrite L.
Qed.

Lemma min_delay_check_returns now j w : fst (min_delay_check now j w) = Ok tt.
Proof.
  unfold min_delay_check, bind, get_state, get_config.
  destruct (last_request (state w)); [|reflexivity].
  destruct (Qltb _ _); [|reflexivity].
  rewrite time_sleep_ok by apply spacing_wait_nonneg. reflexivity.
Qed.

Lemma burst_detection_returns now w :
  0 <= cooldown_after_burst (config w) ->
  fst (burst_detection now w) = Ok tt.
Proof.
  intro Hc. unfold burst_detection, bind, get_state, get_config.
  destruct (burst_start (state w)); [|reflexivity].
  destruct (Qltb _ _); [|reflexivity].
  cbn [modify_state put_state state with_state burst_count set_burst_count].
  destruct (_ <=? _)%Z; [|reflexivity].
  cbn [modify_state put_state].
  rewrite sleep_with_progress_ok by exact Hc. reflexivity.
Qed.

Lemma human_randomization_returns h w :
  (randomize_timing w = true -> 0 <= h) ->
  fst (human_randomization h w) = Ok tt.
Proof.
  intro H. unfold human_randomization.
  destruct (randomize_timing w); [|reflexivity].
  rewrite time_sleep_ok by auto. reflexivity.
Qed.

(** On a well-formed governor [wait_if_needed] returns: it only delays. *)
Lemma wait_if_needed_returns j h w :
  well_formed w ->
  (randomize_timing w = true -> 0 <= h) ->
  fst (wait_if_needed j h w) = Ok tt.
Proof.
  intros Hwf Hh. pose proof Hwf as [_ Hl Hc].
  unfold wait_if_needed, steps_after_cooldown.
  rewrite (bind_run datetime_now _ w (clock w) w) by reflexivity.
  pose proof (cooldown_check_returns (clock w) w Hwf) as R1.
  pose proof (gov_frame_cooldown_check (clock w) w) as F1.
  destruct (cooldown_check (clock w) w) as [r1 w1] eqn:E1.
  simpl in R1, F1. subst r1. rewrite (bind_run _ _ _ _ _ E1).
  assert (Hl1 : (0 < requests_per_hour (config w1))%Z)
    by (destruct F1 as [C _ _ _ _ _]; now rewrite C).
  pose proof (rolling_window_check_returns (clock w) w1 Hl1) as R2.
  pose proof (gov_frame_rolling_window_check (clock w) w1) as F2.
  destruct (rolling_window_check (clock w) w1) as [r2 w2] eqn:E2.
  simpl in R2, F2. subst r2.
  pose proof (min_delay_check_returns (clock w) j w2) as R3.
  pose proof (steady_min_delay_check gov_frame gov_frame_refl gov_frame_trans
                gov_frame_sleep (clock w) j w2) as F3.
  destruct (min_delay_check (clock w) j w2) as [r3 w3] eqn:E3.
  simpl in R3, F3. subst r3.
  pose proof (gov_frame_trans _ _ _ (gov_frame_trans _ _ _ F1 F2) F3) as F13.
  assert (Hc3 : 0 <= cooldown_after_burst (config w3))
    by (destruct F13 as [C _ _ _ _ _]; now rewrite C).
  pose proof (burst_detection_returns (clock w) w3 Hc3) as R4.
  pose proof (gov_frame_burst_detection (clock w) w3) as F4.
  destruct (burst_detection (clock w) w3) as [r4 w4] eqn:E4.
  simpl in R4, F4. subst r4.
  assert (E234 : bind (rolling_window_check (clock w))
                   (fun _ => bind (min_delay_check (clock w) j)
                                  (fun _ => burst_detection (clock w))) w1
                 = (Ok tt, w4)).
  { rewrite (bind_run _ _ _ _ _ E2), (bind_run _ _ _ _ _ E3). exact E4. }
  rewrite (bind_run _ _ _ _ _ E234).
  apply human_randomization_returns.
  pose proof (gov_frame_trans _ _ _ F13 F4) as [_ Hr _ _ _ _].
  now rewrite Hr.
Qed.

Lemma well_formed_init cfg stealth t0 :
  (0 < requests_per_hour cfg)%Z -> 0 <= cooldown_after_burst cfg ->
  well_formed (IntelligentRateLimiter_init cfg stealth t0).
Proof.
  intros Hl Hc. constructor; simpl; [discriminate|assumption|assumption].
Qed.

(** ** Every governor that can arise is well-formed *)

Lemma until_kept_refl w : until_kept w w.
Proof. intro H. exact H. Qed.

Lemma until_kept_trans a b c : until_kept a b -> until_kept b c -> until_kept a c.
Proof. unfold until_kept. auto. Qed.

Lemma until_kept_sleep d w : 0 <= d -> until_kept w (after_sleep d w).
Proof. intros _ H. exact H. Qed.

Lemma until_kept_cooldown_check now : steady until_kept (cooldown_check now).
Proof.
  apply steady_cooldown_check;
    first [ exact until_kept_refl | exact until_kept_trans
          | exact until_kept_sleep
          | unfold keeps, until_kept; intros; simpl in *; auto; discriminate ].
Qed.

Lemma until_kept_burst_detection now : steady until_kept (burst_detection now).
Proof.
  intros w Hw. unfold burst_detection, bind, get_state, get_config.
  destruct (burst_start (state w)); [|exact Hw].
  destruct (Qltb _ _); [|exact Hw].
  cbn [modify_state put_state state with_state burst_count set_burst_count].
  destruct (_ <=? _)%Z; [|exact Hw].
  cbn [modify_state put_state].
  match goal with
  | |- context [_sleep_with_progress ?d ?w0] =>
      pose proof (sleep_with_progress_state d w0) as S;
      destruct (_sleep_with_progress d w0) as [[[]|e] w1]
  end; simpl in S |- *; rewrite S; simpl; discriminate.
Qed.

Ltac until_facts :=
  first [ exact until_kept_refl | exact until_kept_trans
        | exact until_kept_sleep ].

Lemma until_kept_wait_if_needed j h : steady until_kept (wait_if_needed j h).
Proof.
  unfold wait_if_needed, steps_after_cooldown.
  apply steady_bind;
    [until_facts|apply steady_datetime_now; until_facts|intro now].
  apply steady_bind; [until_facts|apply until_kept_cooldown_check|intros _].
  apply steady_bind; [until_facts| |intros _].
  - apply steady_bind; [until_facts| |intros _].
    + apply steady_rolling_window_check; until_facts.
    + apply steady_bind; [until_facts| |intros _].
      * apply steady_min_delay_check; until_facts.
      * apply until_kept_burst_detection.
  - apply steady_human_randomization; until_facts.
Qed.

Lemma well_formed_step w w' : gov_step w w' -> well_formed w -> well_formed w'.
Proof.
  intros [w0 d Hd|w0 j h|w0|w0] [Hu Hl Hc].
  - constructor; assumption.
  - destruct (gov_frame_wait_if_needed j h w0) as [C _ _ _ _ _].
    constructor; rewrite ?C; try assumption.
    now apply until_kept_wait_if_needed.
  - rewrite record_request_run. constructor; assumption.
  - constructor; assumption.
Qed.

Lemma well_formed_steps w w' : gov_steps w w' -> well_formed w -> well_formed w'.
Proof.
  induction 1 as [|w1 w2 w3 _ IH Hs]; intro H; [exact H|].
  eapply well_formed_step; [exact Hs|auto].
Qed.

(** X1.  The governor only delays: begun new with a positive hourly limit
    and a cooldown length that is not negative, after any sequence of calls
    and lapses of time [wait_if_needed] returns; it raises none of the
    errors its sleeps, its [min] and its comparison with [cooldown_until]
    could raise. *)
Lemma admission_never_fails cfg stealth t0 w j h :
  (0 < requests_per_hour cfg)%Z -> 0 <= cooldown_after_burst cfg ->
  gov_steps (IntelligentRateLimiter_init cfg stealth t0) w ->
  0 <= h ->
  fst (wait_if_needed j h w) = Ok tt.
Proof.
  intros Hl Hc Hs Hh. apply wait_if_needed_returns; [|auto].
  eapply well_formed_steps; [exact Hs|now apply well_formed_init].
Qed.

(** * Further properties of the governor *)

Lemma admission_never_fails_witness :
  (0 < requests_per_hour default_rate_limit)%Z /\
  0 <= cooldown_after_burst default_rate_limit /\
  gov_steps (IntelligentRateLimiter_init default_rate_limit true 0)
            busy_hour_world /\
  0 <= 1 # 2 /\
  fst (wait_if_needed 0 (1 # 2) busy_hour_world) = Ok tt.
Proof.
  assert (Hl : (0 < requests_per_hour default_rate_limit)%Z) by reflexivity.
  assert (Hc : 0 <= cooldown_after_burst default_rate_limit)
    by (apply Qle_bool_iff; reflexivity).
  assert (Hh : 0 <= 1 # 2) by (apply Qle_bool_iff; reflexivity).
  split; [exact Hl|]. split; [exact Hc|].
  split; [exact busy_hour_world_arises|]. split; [exact Hh|].
  exact (admission_never_fails default_rate_limit true 0 busy_hour_world
           0 (1 # 2) Hl Hc busy_hour_world_arises Hh).
Defined.

Lemma cooldown_check_idle now w :
  is_cooling_down (state w) = false -> cooldown_check now w = (Ok tt, w).
Proof.
  intro H. unfold cooldown_check, bind, get_state. now rewrite H.
Qed.

(** X2.  With an hourly limit of zero or less the quota step always finds
    the limit reached; when no request lies within the last hour it then
    takes the [min] of an empty list, and [wait_if_needed] raises
    [ValueError] before any sleep or change of state. *)
Theorem no_limit_and_empty_window_raise (w : world) (j h : Q)
    (Hidle : is_cooling_down (state w) = false)
    (Hlimit : (requests_per_hour (config w) <= 0)%Z)
    (Hempty : recent_requests (clock w) (request_history w) = []) :
  wait_if_needed j h w = (Raise (mk_exn ValueError 0), w).
Proof.
  unfold wait_if_needed, steps_after_cooldown.
  rewrite (bind_run datetime_now _ w (clock w) w) by reflexivity.
  rewrite (bind_run _ _ _ _ _ (cooldown_check_idle (clock w) w Hidle)).
  unfold bind at 1. unfold bind at 1.
  unfold rolling_window_check, bind, get_history, get_config.
  rewrite Hempty. change (Z.of_nat (length (@nil Q))) with 0%Z.
  apply Z.leb_le in Hlimit. rewrite Hlimit. reflexivity.
Qed.

Lemma no_limit_and_empty_window_raise_witness :
  let w := IntelligentRateLimiter_init zero_limit true 0 in
  is_cooling_down (state w) = false /\
  (requests_per_hour (config w) <= 0)%Z /\
  recent_requests (clock w) (request_history w) = [] /\
  wait_if_needed 0 1 w = (Raise (mk_exn ValueError 0), w).
Proof.
  intro w.
  assert (H1 : is_cooling_down (state w) = false) by reflexivity.
  assert (H2 : (requests_per_hour (config w) <= 0)%Z) by (simpl; lia).
  assert (H3 : recent_requests (clock w) (request_history w) = [])
    by reflexivity.
  split; [exact H1|]. split; [exact H2|]. split; [exact H3|].
  exact (no_limit_and_empty_window_raise w 0 1 H1 H2 H3).
Defined.

(** ** Burst protection *)

Lemma sleep_with_progress_run d w :
  0 <= d -> _sleep_with_progress d w = (Ok tt, after_progress d w).
Proof. apply sleep_with_progress_ok. Qed.

Lemma after_progress_fields d w :
  clock (after_progress d w) == clock w + progress_length d /\
  config (after_progress d w) = config w /\
  randomize_timing (after_progress d w) = randomize_timing w /\
  state (after_progress d w) = state w /\
  request_history (after_progress d w) = request_history w.
Proof.
  unfold after_progress, progress_length.
  destruct (Qltb_spec d 5) as [L|L].
  - repeat split; reflexivity.
  - destruct (iter_sleep_fields (Z.to_nat (Qfloor d)) w)
      as (Hc & _ & Hk & Hr & Ht & Hh).
    repeat split; try assumption.
    rewrite Hc, Z2Nat.id; [reflexivity|].
    apply Qfloor_nonneg. lra.
Qed.

Lemma state_kept_refl w : state_kept w w.
Proof.
  constructor; try reflexivity; [apply slept_extends_refl|lra].
Qed.

Lemma state_kept_trans a b c : state_kept a b -> state_kept b c -> state_kept a c.
Proof.
  intros [] []. constructor; try congruence.
  - eapply slept_extends_trans; eassumption.
  - lra.
Qed.

Lemma state_kept_sleep d w : 0 <= d -> state_kept w (after_sleep d w).
Proof.
  intro H. constructor; try reflexivity.
  - now apply slept_extends_sleep.
  - simpl. lra.
Qed.

Ltac kept_facts :=
  first [ exact state_kept_refl | exact state_kept_trans
        | exact state_kept_sleep ].

Lemma state_kept_rolling_window_check now :
  steady state_kept (rolling_window_check now).
Proof. apply steady_rolling_window_check; kept_facts. Qed.

Lemma state_kept_min_delay_check now j :
  steady state_kept (min_delay_check now j).
Proof. apply steady_min_delay_check; kept_facts. Qed.

Lemma state_kept_human_randomization h :
  steady state_kept (human_randomization h).
Proof. apply steady_human_randomization; kept_facts. Qed.

(** A call that begins outside cooldown and returns reaches burst detection
    with the state it began with. *)
Lemma idle_before_burst_detection j h w w' :
  is_cooling_down (state w) = false ->
  wait_if_needed j h w = (Ok tt, w') ->
  exists w3 w4,
    state_kept w w3 /\
    burst_detection (clock w) w3 = (Ok tt, w4) /\
    state_kept w4 w'.
Proof.
  intros Hidle H.
  destruct (wait_if_needed_stages _ _ _ _ H)
    as (w1 & w2 & w3 & w4 & E1 & E2 & E3 & E4 & E5).
  rewrite (cooldown_check_idle _ _ Hidle) in E1. inversion E1; subst w1.
  pose proof (state_kept_rolling_window_check (clock w) w) as F2.
  pose proof (state_kept_min_delay_check (clock w) j w2) as F3.
  pose proof (state_kept_human_randomization h w4) as F5.
  rewrite E2 in F2. rewrite E3 in F3. rewrite E5 in F5. simpl in F2, F3, F5.
  exists w3, w4. split; [eapply state_kept_trans; eassumption|].
  split; assumption.
Qed.

Lemma burst_detection_triggers now w start :
  burst_start (state w) = Some start ->
  now - start < 10 ->
  (burst_limit (config w) <= burst_count (state w) + 1)%Z ->
  0 <= cooldown_after_burst (config w) ->
  let armed :=
    set_cooldown_until (now + cooldown_after_burst (config w))
      (set_is_cooling_down true
         (set_burst_count (burst_count (state w) + 1) (state w))) in
  burst_detection now w =
    (Ok tt,
     with_state (set_burst_count 0 armed)
       (after_progress (cooldown_after_burst (config w)) (with_state armed w))).
Proof.
  intros Hs Hw Hl Hc armed.
  unfold burst_detection, bind, get_state, get_config.
  rewrite Hs. destruct (Qltb_spec (now - start) 10); [|lra].
  cbn [modify_state put_state state with_state burst_count set_burst_count].
  apply Z.leb_le in Hl. rewrite Hl.
  cbn [modify_state put_state state with_state].
  rewrite sleep_with_progress_run by exact Hc.
  match goal with
  | |- modify_state _ (after_progress _ ?x) = _ =>
      change x with (with_state armed w)
  end.
  destruct (after_progress_fields (cooldown_after_burst (config w))
              (with_state armed w)) as (_ & _ & _ & Ht & _).
  unfold modify_state, put_state. rewrite Ht. reflexivity.
Qed.

(** X3.  A call that begins outside cooldown, less than 10 seconds after
    the burst window opened, with the burst count one short of
    [burst_limit] or more, and that returns: it has set the cooldown flag and
    [cooldown_until] to now plus [cooldown_after_burst], put the burst count
    back to 0 and slept what the sleep helper sleeps for that length.  When
    that length is below 5 seconds or a whole number of seconds the clock is
    then at or past [cooldown_until]; all the same the flag is still set and
    [get_stats], which divides by the hourly limit and so needs one that is
    not 0, reports the governor as cooling down. *)
Theorem burst_protection_triggers (w w' : world) (start j h : Q)
    (Hrph : requests_per_hour (config w) <> 0%Z)
    (Hidle : is_cooling_down (state w) = false)
    (Hstart : burst_start (state w) = Some start)
    (Hwin : clock w - start < 10)
    (Hlim : (burst_limit (config w) <= burst_count (state w) + 1)%Z)
    (Hcd : 0 <= cooldown_after_burst (config w))
    (Hret : wait_if_needed j h w = (Ok tt, w')) :
  let cd := cooldown_after_burst (config w) in
  is_cooling_down (state w') = true /\
  cooldown_until (state w') = Some (clock w + cd) /\
  burst_count (state w') = 0%Z /\
  clock w + progress_length cd <= clock w' /\
  (cd < 5 \/ inject_Z (Qfloor cd) == cd -> clock w + cd <= clock w') /\
  exists s, get_stats w' = (Ok s, w') /\ stats_is_cooling_down s = true.
Proof.
  intro cd.
  destruct (idle_before_burst_detection _ _ _ _ Hidle Hret)
    as (w3 & w4 & [Hs3 Hc3 _ _ _ Hk3] & E4 & [Hs5 _ _ _ _ Hk5]).
  rewrite (burst_detection_triggers (clock w) w3 start) in E4
    by (rewrite ?Hs3, ?Hc3; assumption).
  inversion E4 as [E]. clear E4.
  assert (St : state w' = set_burst_count 0
                 (set_cooldown_until (clock w + cd)
                    (set_is_cooling_down true
                       (set_burst_count (burst_count (state w) + 1) (state w))))).
  { rewrite Hs5, <- E. cbn [state with_state]. rewrite Hs3, Hc3. reflexivity. }
  assert (Ck : clock w + progress_length cd <= clock w').
  { destruct (after_progress_fields (cooldown_after_burst (config w3))
                (with_state
                   (set_cooldown_until (clock w + cooldown_after_burst (config w3))
                      (set_is_cooling_down true
                         (set_burst_count (burst_count (state w3) + 1) (state w3))))
                   w3)) as (Hc & _).
    rewrite <- E in Hk5. cbn [clock with_state] in Hk5, Hc.
    rewrite Hc in Hk5. rewrite Hc3 in Hk5. unfold cd. lra. }
  split; [now rewrite St|]. split; [now rewrite St|]. split; [now rewrite St|].
  split; [exact Ck|]. split.
  - intros [L|L]; unfold progress_length in Ck.
    + destruct (Qltb_spec cd 5); lra.
    + destruct (Qltb_spec cd 5); lra.
  - eexists. split; [reflexivity|]. simpl. now rewrite St.
Qed.

Lemma burst_protection_triggers_witness :
  let w := rapid_world in
  let w' := snd (wait_if_needed 0 1 w) in
  requests_per_hour (config w) <> 0%Z /\
  is_cooling_down (state w) = false /\
  burst_start (state w) = Some 100 /\
  clock w - 100 < 10 /\
  (burst_limit (config w) <= burst_count (state w) + 1)%Z /\
  0 <= cooldown_after_burst (config w) /\
  wait_if_needed 0 1 w = (Ok tt, w') /\
  is_cooling_down (state w') = true /\
  cooldown_until (state w') = Some (clock w + cooldown_after_burst (config w)) /\
  burst_count (state w') = 0%Z /\
  clock w + progress_length (cooldown_after_burst (config w)) <= clock w' /\
  (cooldown_after_burst (config w) < 5 \/
   inject_Z (Qfloor (cooldown_after_burst (config w))) ==
     cooldown_after_burst (config w) ->
   clock w + cooldown_after_burst (config w) <= clock w') /\
  exists s, get_stats w' = (Ok s, w') /\ stats_is_cooling_down s = true.
Proof.
  intros w w'.
  assert (H0 : requests_per_hour (config w) <> 0%Z) by (simpl; lia).
  assert (H1 : is_cooling_down (state w) = false) by reflexivity.
  assert (H2 : burst_start (state w) = Some 100) by reflexivity.
  assert (H3 : clock w - 100 < 10) by (apply Qltb_lt; reflexivity).
  assert (H4 : (burst_limit (config w) <= burst_count (state w) + 1)%Z)
    by (simpl; lia).
  assert (H5 : 0 <= cooldown_after_burst (config w))
    by (apply Qle_bool_iff; reflexivity).
  assert (H6 : wait_if_needed 0 1 w = (Ok tt, w'))
    by (vm_compute; reflexivity).
  repeat (split; [assumption|]).
  exact (burst_protection_triggers w w' 100 0 1 H0 H1 H2 H3 H4 H5 H6).
Defined.

(** ** The quota step *)

Lemma fold_min_le (l : list Q) (x : Q) :
  let m := fold_left (fun m y => if Qltb y m then y else m) l x in
  m <= x /\ Forall (fun t => m <= t) l.
Proof.
  revert x. induction l as [|a l IH]; intro x; simpl.
  - split; [lra|constructor].
  - destruct (IH (if Qltb a x then a else x)) as [Hx Hl].
    destruct (Qltb_spec a x) as [L|L].
    + split; [lra|]. constructor; assumption.
    + split; [assumption|]. constructor; [lra|assumption].
Qed.

Lemma py_min_least l m : py_min l = Some m -> Forall (fun t => m <= t) l.
Proof.
  destruct l as [|x l]; simpl; [discriminate|].
  intro H. inversion H. destruct (fold_min_le l x) as [Hx Hl].
  constructor; assumption.
Qed.

(** As time goes on fewer requests are recent, and one that has left the
    window makes the count go down. *)
Lemma recent_requests_shrink now now' h :
  now <= now' ->
  (length (recent_requests now' h) <= length (recent_requests now h))%nat /\
  (forall t, In t (recent_requests now h) -> t <= now' - one_hour ->
     (length (recent_requests now' h) < length (recent_requests now h))%nat).
Proof.
  intro Hle. unfold recent_requests, Qgtb.
  induction h as [|a h [IH1 IH2]]; simpl.
  - split; [lia|]. intros t [].
  - destruct (Qltb_spec (now' - one_hour) a) as [L'|L'];
      destruct (Qltb_spec (now - one_hour) a) as [L|L]; simpl.
    + split; [lia|]. intros t [E|I] Ht.
      * subst. lra.
      * specialize (IH2 t I Ht). lia.
    + lra.
    + split; [lia|]. intros. lia.
    + split; [assumption|]. intros t I Ht. now apply (IH2 t).
Qed.

Lemma recent_subset now h t : In t (recent_requests now h) -> In t h.
Proof. unfold recent_requests. intro H. now apply filter_In in H. Qed.

(** X4.  When the hourly limit, a positive number, is reached and no entry
    of the history lies in the future, the quota step finds the least of the
    recent timestamps and asks the sleep helper for the time until that one
    is an hour old, a wait above 0 and of at most one hour.  When that wait
    is below 5 seconds the step ends exactly when the oldest request is an
    hour old, and fewer requests are recent then than when it began. *)
Theorem quota_wait_is_within_the_hour (w : world)
    (Hpos : (0 < requests_per_hour (config w))%Z)
    (Hfull : (requests_per_hour (config w) <=
              Z.of_nat (length (recent_requests (clock w) (request_history w))))%Z)
    (Hpast : Forall (fun t => t <= clock w) (request_history w)) :
  exists oldest,
    let recent := recent_requests (clock w) (request_history w) in
    let wait := oldest + one_hour - clock w in
    let w' := snd (rolling_window_check (clock w) w) in
    py_min recent = Some oldest /\
    In oldest recent /\
    Forall (fun t => oldest <= t) recent /\
    0 < wait /\ wait <= one_hour /\
    rolling_window_check (clock w) w = _sleep_with_progress wait w /\
    (wait < 5 ->
       clock w' == oldest + one_hour /\
       (length (recent_requests (clock w') (request_history w')) <
        length recent)%nat).
Proof.
  destruct (rolling_window_check_waits (clock w) w Hpos Hfull)
    as (oldest & Emin & Hwait & Erun).
  exists oldest. intros recent wait w'.
  pose proof (py_min_in _ _ Emin) as Hin.
  split; [exact Emin|]. split; [exact Hin|].
  split; [now apply py_min_least|]. split; [exact Hwait|].
  assert (Hold : oldest <= clock w).
  { apply recent_subset in Hin.
    rewrite Forall_forall in Hpast. now apply Hpast. }
  split; [unfold wait; lra|]. split; [exact Erun|].
  intro Hshort. subst w'. rewrite Erun.
  rewrite sleep_with_progress_ok by lra.
  destruct (Qltb_spec (oldest + one_hour - clock w) 5) as [_|C];
    [|unfold wait in Hshort; lra].
  cbn [snd clock after_sleep request_history].
  split; [ring|].
  assert (Hle : clock w <= clock w + (oldest + one_hour - clock w)) by lra.
  destruct (recent_requests_shrink (clock w)
              (clock w + (oldest + one_hour - clock w)) (request_history w) Hle)
    as [_ Hstrict].
  apply (Hstrict oldest Hin). lra.
Qed.

Lemma quota_wait_is_within_the_hour_witness :
  let w := two_per_hour_world in
  (0 < requests_per_hour (config w))%Z /\
  (requests_per_hour (config w) <=
   Z.of_nat (length (recent_requests (clock w) (request_history w))))%Z /\
  Forall (fun t => t <= clock w) (request_history w) /\
  exists oldest,
    let recent := recent_requests (clock w) (request_history w) in
    let wait := oldest + one_hour - clock w in
    let w' := snd (rolling_window_check (clock w) w) in
    py_min recent = Some oldest /\
    In oldest recent /\
    Forall (fun t => oldest <= t) recent /\
    0 < wait /\ wait <= one_hour /\
    rolling_window_check (clock w) w = _sleep_with_progress wait w /\
    (wait < 5 ->
       clock w' == oldest + one_hour /\
       (length (recent_requests (clock w') (request_history w')) <
        length recent)%nat).
Proof.
  intro w.
  assert (H1 : (0 < requests_per_hour (config w))%Z) by reflexivity.
  assert (H2 : (requests_per_hour (config w) <=
                Z.of_nat (length (recent_requests (clock w) (request_history w))))%Z)
    by (vm_compute; discriminate).
  assert (H3 : Forall (fun t => t <= clock w) (request_history w)).
  { repeat constructor; apply Qle_bool_iff; reflexivity. }
  split; [exact H1|]. split; [exact H2|]. split; [exact H3|].
  exact (quota_wait_is_within_the_hour w H1 H2 H3).
Defined.

(** ** The counter, the history and the last request *)

Lemma newest_snoc l x : newest (l ++ [x]) = Some x.
Proof. unfold newest. rewrite rev_app_distr. reflexivity. Qed.

Lemma deque_append_newest maxlen x d :
  (0 < maxlen)%nat -> (length d <= maxlen)%nat ->
  newest (deque_append maxlen x d) = Some x.
Proof.
  intros Hpos Hlen. unfold deque_append.
  destruct (Nat.ltb_spec maxlen (length (d ++ [x]))) as [L|L].
  - destruct d as [|y d].
    + simpl in L. lia.
    + cbn [app tl]. apply newest_snoc.
  - apply newest_snoc.
Qed.

Lemma deque_append_length_exact maxlen x d :
  (length d <= maxlen)%nat ->
  length (deque_append maxlen x d) = Nat.min (S (length d)) maxlen.
Proof.
  intro Hlen. unfold deque_append.
  destruct (Nat.ltb_spec maxlen (length (d ++ [x]))) as [L|L];
    rewrite length_app in L; cbn [length] in L.
  - destruct d as [|y d]; cbn [app tl length] in *; [lia|].
    rewrite length_app. cbn [length]. lia.
  - rewrite length_app. cbn [length]. lia.
Qed.

Lemma counts_inv_frame w w' : gov_frame w w' -> counts_inv w -> counts_inv w'.
Proof.
  intros [_ _ Hh Hm Hl _] [M L N]. constructor; rewrite ?Hh, ?Hm, ?Hl; assumption.
Qed.

Lemma counts_inv_record w : counts_inv w -> counts_inv (snd (record_request w)).
Proof.
  intros [M L N]. rewrite record_request_run.
  assert (Hlen : (length (request_history w) <= history_maxlen)%nat).
  { rewrite L. unfold history_maxlen. lia. }
  constructor; cbn [snd state with_state with_history request_history
                    requests_made last_request set_requests_made
                    set_last_request].
  - lia.
  - rewrite deque_append_length_exact by exact Hlen.
    rewrite L. unfold history_maxlen. lia.
  - symmetry. apply deque_append_newest; [unfold history_maxlen; lia|exact Hlen].
Qed.

Lemma counts_inv_step w w' : gov_step w w' -> counts_inv w -> counts_inv w'.
Proof.
  intros [w0 d Hd|w0 j h|w0|w0] H.
  - eapply counts_inv_frame; [|exact H]. now apply gov_frame_time_passes.
  - eapply counts_inv_frame; [|exact H]. apply gov_frame_wait_if_needed.
  - now apply counts_inv_record.
  - exact H.
Qed.

Lemma counts_inv_steps w w' : gov_steps w w' -> counts_inv w -> counts_inv w'.
Proof.
  induction 1 as [|w1 w2 w3 _ IH Hs]; intro H; [exact H|].
  eapply counts_inv_step; [exact Hs|auto].
Qed.

Lemma counts_inv_init cfg stealth t0 :
  counts_inv (IntelligentRateLimiter_init cfg stealth t0).
Proof. constructor; simpl; [lia|reflexivity|reflexivity]. Qed.

Lemma recent_requests_length now h :
  (length (recent_requests now h) <= length h)%nat.
Proof. unfold recent_requests. apply filter_length_le. Qed.

(** X5.  After any sequence of calls and lapses of time, begun with a new
    governor whose hourly limit is not 0: the history holds as many
    timestamps as requests were recorded, up to 200; [last_request] is the
    newest entry of the history; and [get_stats], which divides by the
    limit, changes nothing and reports [requests_made] as the total and, as
    the requests of the last hour, a number that exceeds neither that total
    nor 200. *)
Theorem history_counts_the_recorded_requests
    (cfg : rate_limit_config) (stealth : bool) (t0 : Q) (w : world)
    (Hrph : requests_per_hour cfg <> 0%Z)
    (Hrun : gov_steps (IntelligentRateLimiter_init cfg stealth t0) w) :
  length (request_history w) =
    Z.to_nat (Z.min (requests_made (state w)) 200) /\
  last_request (state w) = newest (request_history w) /\
  exists s,
    get_stats w = (Ok s, w) /\
    total_requests s = requests_made (state w) /\
    limit s = requests_per_hour (config w) /\
    (Z.of_nat (last_hour s) <= total_requests s)%Z /\
    (last_hour s <= 200)%nat.
Proof.
  destruct (counts_inv_steps _ _ Hrun (counts_inv_init cfg stealth t0))
    as [M L N].
  split; [exact L|]. split; [exact N|].
  eexists. split; [reflexivity|]. cbn [total_requests limit last_hour].
  split; [reflexivity|]. split; [reflexivity|].
  pose proof (recent_requests_length (clock w) (request_history w)) as R.
  rewrite L in R. change (Z.of_nat history_maxlen) with 200%Z in R.
  split; lia.
Qed.

Lemma history_counts_the_recorded_requests_witness :
  let w0 := IntelligentRateLimiter_init default_rate_limit true 0 in
  let w := busy_hour_world in
  requests_per_hour default_rate_limit <> 0%Z /\
  gov_steps w0 w /\
  length (request_history w) =
    Z.to_nat (Z.min (requests_made (state w)) 200) /\
  last_request (state w) = newest (request_history w) /\
  exists s,
    get_stats w = (Ok s, w) /\
    total_requests s = requests_made (state w) /\
    limit s = requests_per_hour (config w) /\
    (Z.of_nat (last_hour s) <= total_requests s)%Z /\
    (last_hour s <= 200)%nat.
Proof.
  intros w0 w.
  assert (H0 : requests_per_hour default_rate_limit <> 0%Z) by (simpl; lia).
  split; [exact H0|]. split; [exact busy_hour_world_arises|].
  exact (history_counts_the_recorded_requests default_rate_limit true 0 w
           H0 busy_hour_world_arises).
Defined.

(** ** A governor at rest *)

(** X6.  A governor that is not cooling down, is below its hourly limit,
    had its last request at least [min_delay] ago and is not about to reach
    [burst_limit] within an open burst window admits at once: the call
    returns having slept the humanization delay alone, or not at all when
    [randomize_timing] is off. *)
Theorem governor_at_rest_admits_at_once (w : world) (j h : Q)
    (Hidle : is_cooling_down (state w) = false)
    (Hquota : (Z.of_nat (length (recent_requests (clock w) (request_history w)))
               < requests_per_hour (config w))%Z)
    (Hspace : forall last, last_request (state w) = Some last ->
                min_delay (config w) <= clock w - last)
    (Hburst : forall start, burst_start (state w) = Some start ->
                10 <= clock w - start \/
                (burst_count (state w) + 1 < burst_limit (config w))%Z)
    (Hh : 0 <= h) :
  let r := wait_if_needed j h w in
  fst r = Ok tt /\
  slept (snd r) = slept w ++ (if randomize_timing w then [h] else []) /\
  clock (snd r) == clock w + (if randomize_timing w then h else 0) /\
  request_history (snd r) = request_history w /\
  is_cooling_down (state (snd r)) = false.
Proof.
  intro r. subst r. unfold wait_if_needed, steps_after_cooldown.
  rewrite (bind_run datetime_now _ w (clock w) w) by reflexivity.
  rewrite (bind_run _ _ _ _ _ (cooldown_check_idle (clock w) w Hidle)).
  assert (E2 : rolling_window_check (clock w) w = (Ok tt, w)).
  { unfold rolling_window_check, bind, get_history, get_config.
    apply Z.leb_gt in Hquota. now rewrite Hquota. }
  assert (E3 : min_delay_check (clock w) j w = (Ok tt, w)).
  { unfold min_delay_check, bind, get_state, get_config.
    destruct (last_request (state w)) as [last|] eqn:El; [|reflexivity].
    specialize (Hspace last eq_refl).
    destruct (Qltb_spec (clock w - last) (min_delay (config w)));
      [lra|reflexivity]. }
  assert (E4 : exists s4, burst_detection (clock w) w = (Ok tt, with_state s4 w)
                          /\ is_cooling_down s4 = false).
  { unfold burst_detection, bind, get_state, get_config.
    destruct (burst_start (state w)) as [start|] eqn:Eb.
    - destruct (Qltb_spec (clock w - start) 10) as [L|L].
      + destruct (Hburst start eq_refl) as [B|B]; [lra|].
        cbn [modify_state put_state state with_state burst_count set_burst_count].
        apply Z.leb_gt in B. rewrite B.
        eexists. split; [reflexivity|exact Hidle].
      + eexists. split; [reflexivity|exact Hidle].
    - eexists. split; [reflexivity|exact Hidle]. }
  destruct E4 as (s4 & E4 & F4).
  assert (E234 : bind (rolling_window_check (clock w))
                   (fun _ => bind (min_delay_check (clock w) j)
                                  (fun _ => burst_detection (clock w))) w
                 = (Ok tt, with_state s4 w)).
  { rewrite (bind_run _ _ _ _ _ E2), (bind_run _ _ _ _ _ E3). exact E4. }
  rewrite (bind_run _ _ _ _ _ E234).
  unfold human_randomization. cbn [randomize_timing with_state].
  destruct (randomize_timing w).
  - rewrite time_sleep_ok by exact Hh. cbn.
    repeat split; try reflexivity; try assumption.
  - cbn. rewrite app_nil_r.
    repeat split; try reflexivity; try assumption. ring.
Qed.

Lemma governor_at_rest_admits_at_once_witness :
  let w := resting_world in
  let r := wait_if_needed 0 1 w in
  is_cooling_down (state w) = false /\
  (Z.of_nat (length (recent_requests (clock w) (request_history w)))
   < requests_per_hour (config w))%Z /\
  (forall last, last_request (state w) = Some last ->
     min_delay (config w) <= clock w - last) /\
  (forall start, burst_start (state w) = Some start ->
     10 <= clock w - start \/
     (burst_count (state w) + 1 < burst_limit (config w))%Z) /\
  0 <= 1 /\
  fst r = Ok tt /\
  slept (snd r) = slept w ++ (if randomize_timing w then [1] else []) /\
  clock (snd r) == clock w + (if randomize_timing w then 1 else 0) /\
  request_history (snd r) = request_history w /\
  is_cooling_down (state (snd r)) = false.
Proof.
  intros w r.
  assert (H1 : is_cooling_down (state w) = false) by reflexivity.
  assert (H2 : (Z.of_nat (length (recent_requests (clock w) (request_history w)))
                < requests_per_hour (config w))%Z) by reflexivity.
  assert (H3 : forall last, last_request (state w) = Some last ->
                 min_delay (config w) <= clock w - last).
  { intros last E. inversion E. apply Qle_bool_iff. reflexivity. }
  assert (H4 : forall start, burst_start (state w) = Some start ->
                 10 <= clock w - start \/
                 (burst_count (state w) + 1 < burst_limit (config w))%Z).
  { intros start E. right. reflexivity. }
  assert (H5 : 0 <= 1) by (apply Qle_bool_iff; reflexivity).
  split; [exact H1|]. split; [exact H2|]. split; [exact H3|].
  split; [exact H4|]. split; [exact H5|].
  exact (governor_at_rest_admits_at_once w 0 1 H1 H2 H3 H4 H5).
Defined.

(** * Further properties of the retry wrapper *)

Section RetryRuns.

Variables St V : Type.
Variable func : St -> result V * St.
Variable sleep_on : Q -> St -> St.
Variable REQUESTS_AVAILABLE : bool.
Variable rc : retry_config.
Variable uniform_draw : Z -> Q.

Let retry :=
  retry_with_backoff St V func sleep_on REQUESTS_AVAILABLE rc uniform_draw.
Let loop := retry_loop St V func sleep_on REQUESTS_AVAILABLE rc uniform_draw.
Let failures := transient_failures func sleep_on rc uniform_draw.

Lemma transient_failures_S k attempt s :
  failures (S k) attempt s =
    match func s with
    | (Raise e, s') =>
        if transient e then
          failures k (attempt + 1)%Z
            (sleep_on (backoff_wait rc attempt (uniform_draw attempt)) s')
        else None
    | (Ok _, _) => None
    end.
Proof. reflexivity. Qed.

(** What the wrapper does over [k] transient failures, none of them at the
    last attempt. *)
Lemma retry_loop_after_failures max_attempts k :
  forall remaining attempt s tr sk,
  failures k attempt s = Some sk ->
  (attempt + Z.of_nat k <= max_attempts - 1)%Z ->
  (forall a, (attempt <= a < attempt + Z.of_nat k)%Z ->
             (Z.abs (backoff_delay rc a) < float_limit)%Z) ->
  (forall a, 0 <= backoff_wait rc a (uniform_draw a)) ->
  exists tr',
    loop max_attempts (k + remaining) attempt s tr =
      loop max_attempts remaining (attempt + Z.of_nat k) sk (tr ++ tr') /\
    length (filter is_call tr') = k /\
    length (filter is_sleep tr') = k /\
    filter is_log_error tr' = [] /\
    Forall (sleep_within rc) tr'.
Proof.
  induction k as [|k IH]; intros remaining attempt s tr sk H Ha Hd Hw.
  - cbn in H. inversion H; subst. exists [].
    rewrite app_nil_r, Z.add_0_r. repeat split. constructor.
  - rewrite transient_failures_S in H.
    destruct (func s) as [[v|e] s0] eqn:Ef; [discriminate|].
    destruct (transient e) eqn:Et; [|discriminate].
    assert (Hne : (attempt =? max_attempts - 1)%Z = false)
      by (apply Z.eqb_neq; lia).
    set (wait := backoff_wait rc attempt (uniform_draw attempt)) in *.
    destruct (IH remaining (attempt + 1)%Z (sleep_on wait s0)
                (tr ++ [Called attempt; LogWarning attempt; LogInfo wait;
                        Slept wait])
                sk H ltac:(lia) ltac:(intros a Hr; apply Hd; lia) Hw)
      as (tr' & E & C & Sl & Le & Fw).
    exists ([Called attempt; LogWarning attempt; LogInfo wait; Slept wait]
              ++ tr').
    split.
    + change (S k + remaining)%nat with (S (k + remaining)).
      unfold loop in *.
      rewrite (retry_loop_retries St V func sleep_on REQUESTS_AVAILABLE rc
                 uniform_draw max_attempts (k + remaining) attempt s tr e s0
                 Ef Et Hne ltac:(apply Hd; lia) (Hw attempt)).
      fold wait. rewrite E. rewrite <- app_assoc.
      replace (attempt + 1 + Z.of_nat k)%Z with (attempt + Z.of_nat (S k))%Z
        by lia.
      reflexivity.
    + rewrite !filter_app, !length_app.
      cbn [filter is_call is_sleep is_log_error length app].
      rewrite C, Sl, Le.
      split; [reflexivity|]. split; [reflexivity|]. split; [reflexivity|].
      constructor; [exact I|]. constructor; [exact I|].
      constructor; [exact I|]. constructor; [|exact Fw].
      split; [apply Hw|apply backoff_wait_le_max].
Qed.

Lemma sane_waits :
  (0 <= base_delay rc)%Z -> (0 <= exponential_base rc)%Z ->
  0 <= retry_max_delay rc -> jitter rc <= 1 ->
  (forall k, - jitter rc <= uniform_draw k <= jitter rc) ->
  forall a, 0 <= backoff_wait rc a (uniform_draw a).
Proof.
  intros Hb He Hm Hj Hd a.
  apply backoff_wait_nonneg; try assumption.
  destruct (Hd a). lra.
Qed.

(** X7.  When the wrapped function fails [k] times in a row with transient
    errors, each followed by the sleep of the wrapper, and then returns
    [v], where [k] is below [max_attempts], the configuration is sane and
    the delays of those [k] attempts convert to floats, the wrapper returns
    [v]: it has called the function [k + 1] times and slept [k] times, each
    time between 0 and [max_delay], and has written no error line. *)
Theorem retry_returns_the_first_success
    (max_attempts : Z) (k : nat) (s sk s' : St) (v : V)
    (Hb : (0 <= base_delay rc)%Z) (He : (0 <= exponential_base rc)%Z)
    (Hm : 0 <= retry_max_delay rc) (Hj : jitter rc <= 1)
    (Hdraw : forall a, - jitter rc <= uniform_draw a <= jitter rc)
    (Hfloat : delays_convert rc (Z.of_nat k))
    (Hk : (Z.of_nat k < max_attempts)%Z)
    (Hfail : failures k 0%Z s = Some sk)
    (Hok : func sk = (Ok v, s')) :
  let r := retry max_attempts s in
  fst r = Ok (Some v) /\
  fst (snd r) = s' /\
  length (filter is_call (snd (snd r))) = S k /\
  length (filter is_sleep (snd (snd r))) = k /\
  filter is_log_error (snd (snd r)) = [] /\
  Forall (sleep_within rc) (snd (snd r)).
Proof.
  intro r. subst r. unfold retry, retry_with_backoff.
  change (retry_loop St V func sleep_on REQUESTS_AVAILABLE rc uniform_draw)
    with loop.
  set (rest := (Z.to_nat max_attempts - S k)%nat).
  replace (Z.to_nat max_attempts) with (k + S rest)%nat by (unfold rest; lia).
  destruct (retry_loop_after_failures max_attempts k (S rest) 0%Z s [] sk
              Hfail ltac:(lia) ltac:(intros a Ha; apply Hfloat; lia)
              (sane_waits Hb He Hm Hj Hdraw))
    as (tr' & E & C & Sl & Le & Fw).
  rewrite E. unfold loop. cbn [retry_loop]. rewrite Hok.
  cbn [fst snd app]. rewrite !filter_app, !length_app, Forall_app.
  cbn. rewrite C, Sl, Le.
  repeat split; try lia; try assumption. repeat constructor.
Qed.

(** X8.  When the wrapped function fails [n] times in a row with transient
    errors, each but the last followed by the sleep of the wrapper, the
    configuration is sane and the delays of the attempts before the last
    convert to floats, the wrapper under [max_attempts = n], for every [n]
    of 1 or more, calls the function [n] times, sleeps [n - 1] times, each
    time between 0 and [max_delay], ends its log with the line "failed
    after [n] attempts" and raises the last of the errors. *)
Theorem retry_gives_up_after_max_attempts
    (m : nat) (s sm sn : St) (e : exn)
    (Hb : (0 <= base_delay rc)%Z) (He : (0 <= exponential_base rc)%Z)
    (Hm : 0 <= retry_max_delay rc) (Hj : jitter rc <= 1)
    (Hdraw : forall a, - jitter rc <= uniform_draw a <= jitter rc)
    (Hfloat : delays_convert rc (Z.of_nat m))
    (Hfail : failures m 0%Z s = Some sm)
    (Hlast : func sm = (Raise e, sn))
    (Hclass : transient e = true) :
  let n := S m in
  let r := retry (Z.of_nat n) s in
  fst r = Raise e /\
  fst (snd r) = sn /\
  length (filter is_call (snd (snd r))) = n /\
  S (length (filter is_sleep (snd (snd r)))) = n /\
  filter is_log_error (snd (snd r)) = [LogError (Z.of_nat n)] /\
  Forall (sleep_within rc) (snd (snd r)).
Proof.
  intros n r. subst n r.
  unfold retry, retry_with_backoff. rewrite Nat2Z.id.
  change (retry_loop St V func sleep_on REQUESTS_AVAILABLE rc uniform_draw)
    with loop.
  destruct (retry_loop_after_failures (Z.of_nat (S m)) m 1 0%Z s [] sm
              Hfail ltac:(lia) ltac:(intros a Ha; apply Hfloat; lia)
              (sane_waits Hb He Hm Hj Hdraw))
    as (tr' & E & C & Sl & Le & Fw).
  assert (Erun : loop (Z.of_nat (S m)) (S m) 0%Z s [] =
                 (Raise e, (sn, tr' ++ [Called (0 + Z.of_nat m)]
                                    ++ [LogError (Z.of_nat (S m))]))).
  { replace (S m) with (m + 1)%nat at 2 by lia. rewrite E. unfold loop.
    apply (retry_loop_gives_up St V func sleep_on REQUESTS_AVAILABLE rc
             uniform_draw (Z.of_nat (S m)) 0 (0 + Z.of_nat m) sm _ e sn
             Hlast Hclass).
    apply Z.eqb_eq. lia. }
  rewrite Erun.
  cbn [fst snd]. rewrite !filter_app, !length_app, Forall_app.
  cbn. rewrite C, Sl, Le.
  repeat split; try lia; try assumption. repeat constructor.
Qed.

(** The shape of every run of the loop that has an attempt left, the last
    of them numbered [max_attempts - 1]. *)
Lemma retry_loop_shape max_attempts remaining :
  forall attempt s tr,
  (attempt + Z.of_nat remaining = max_attempts)%Z ->
  (1 <= remaining)%nat ->
  exists tr',
    snd (snd (loop max_attempts remaining attempt s tr)) = tr ++ tr' /\
    length (filter is_call tr') = S (length (filter is_sleep tr')) /\
    (length (filter is_call tr') <= remaining)%nat /\
    Forall (sleep_within rc) tr' /\
    fst (loop max_attempts remaining attempt s tr) <> Ok None.
Proof.
  induction remaining as [|n IH]; intros attempt s tr Ha Hr; [lia|].
  unfold loop in *. cbn [retry_loop].
  destruct (func s) as [[v|e] s'].
  { exists [Called attempt]. cbn. repeat split; try lia.
    - repeat constructor.
    - discriminate. }
  destruct (negb (is_Exception e)).
  { exists [Called attempt]. cbn. repeat split; try lia.
    - repeat constructor.
    - discriminate. }
  destruct (if REQUESTS_AVAILABLE
            then if isinstance e [RequestException]
                 then (attempt =? max_attempts - 1)%Z else false
            else false).
  { exists [Called attempt; LogError max_attempts].
    cbn. rewrite <- app_assoc. repeat split; try lia.
    - repeat constructor.
    - discriminate. }
  destruct (isinstance e non_retryable).
  { exists [Called attempt]. cbn. repeat split; try lia.
    - repeat constructor.
    - discriminate. }
  destruct (attempt =? max_attempts - 1)%Z eqn:Elast.
  { exists [Called attempt; LogError max_attempts].
    cbn. rewrite <- app_assoc. repeat split; try lia.
    - repeat constructor.
    - discriminate. }
  destruct (backoff_wait_time_cases rc attempt (uniform_draw attempt))
    as [[_ Ew]|[_ Ew]]; rewrite Ew.
  2:{ exists [Called attempt]. cbn. repeat split; try lia.
      - repeat constructor.
      - discriminate. }
  set (wait := backoff_wait rc attempt (uniform_draw attempt)).
  destruct (Qltb_spec wait 0) as [Hneg|Hpos].
  { exists [Called attempt; LogWarning attempt; LogInfo wait].
    cbn. rewrite <- app_assoc. repeat split; try lia.
    - repeat constructor.
    - discriminate. }
  apply Z.eqb_neq in Elast.
  destruct (IH (attempt + 1)%Z (sleep_on wait s')
              (((tr ++ [Called attempt]) ++ [LogWarning attempt; LogInfo wait])
                 ++ [Slept wait]) ltac:(lia) ltac:(lia))
    as (tr' & E & C & B & Fw & Nn).
  exists ([Called attempt; LogWarning attempt; LogInfo wait; Slept wait] ++ tr').
  split; [rewrite E; rewrite <- !app_assoc; reflexivity|].
  rewrite !filter_app, !length_app. cbn [filter is_call is_sleep length].
  split; [lia|]. split; [cbn; lia|]. split; [|exact Nn].
  apply Forall_app. split; [|exact Fw].
  constructor; [exact I|]. constructor; [exact I|]. constructor; [exact I|].
  constructor; [|constructor].
  split; [lra|apply backoff_wait_le_max].
Qed.

(** X9.  Whatever the wrapped function does, a run of the wrapper calls it
    at most [max_attempts] times; when [max_attempts] is 1 or more it calls
    it at least once, sleeps exactly once between two calls and never after
    the last, each sleep between 0 and [max_delay], and it does not return
    [None].  When [max_attempts] is 0 or less it returns [None] without
    calling the function at all. *)
Theorem retry_calls_and_sleeps_are_bounded (max_attempts : Z) (s : St) :
  let r := retry max_attempts s in
  let calls := length (filter is_call (snd (snd r))) in
  let sleeps := length (filter is_sleep (snd (snd r))) in
  (calls <= Z.to_nat max_attempts)%nat /\
  Forall (sleep_within rc) (snd (snd r)) /\
  ((1 <= max_attempts)%Z -> calls = S sleeps /\ fst r <> Ok None) /\
  ((max_attempts <= 0)%Z -> r = (Ok None, (s, []))).
Proof.
  intros r calls sleeps. subst r calls sleeps.
  unfold retry, retry_with_backoff.
  change (retry_loop St V func sleep_on REQUESTS_AVAILABLE rc uniform_draw)
    with loop.
  destruct (Z.leb_spec 1 max_attempts) as [Hpos|Hnone].
  - destruct (retry_loop_shape max_attempts (Z.to_nat max_attempts) 0%Z s []
                ltac:(lia) ltac:(lia)) as (tr' & E & C & B & Fw & Nn).
    rewrite E. cbn [app].
    split; [exact B|]. split; [exact Fw|]. split; [|lia].
    intros _. split; [exact C|exact Nn].
  - replace (Z.to_nat max_attempts) with 0%nat by lia.
    unfold loop. cbn. split; [lia|]. split; [constructor|].
    split; [lia|reflexivity].
Qed.

(** A run of the wrapper that returns a value: the value is what the last
    call returned, in a state reached from the first through calls that
    failed and sleeps that were not negative; when the function was called
    once, that state is the first. *)
Lemma retry_loop_returns (R : St -> St -> Prop) :
  (forall s, R s s) ->
  (forall s1 s2 s3, R s1 s2 -> R s2 s3 -> R s1 s3) ->
  (forall s, R s (snd (func s))) ->
  (forall d s, 0 <= d -> R s (sleep_on d s)) ->
  forall max_attempts remaining attempt s tr v s' tr',
  loop max_attempts remaining attempt s tr = (Ok (Some v), (s', tr')) ->
  exists sk ext,
    tr' = tr ++ ext /\
    R s sk /\
    func sk = (Ok v, s') /\
    (1 <= length (filter is_call ext))%nat /\
    (length (filter is_call ext) = 1%nat -> sk = s).
Proof.
  intros Rrefl Rtrans Rfunc Rsleep max_attempts.
  induction remaining as [|n IH]; intros attempt s tr v s' tr' H.
  - discriminate H.
  - unfold loop in *. cbn [retry_loop] in H.
    pose proof (Rfunc s) as Rf.
    destruct (func s) as [[v0|e] s0] eqn:Ef; cbn [snd] in Rf.
    { inversion H; subst. exists s, [Called attempt].
      split; [reflexivity|]. split; [apply Rrefl|]. split; [exact Ef|].
      cbn. split; [lia|reflexivity]. }
    destruct (negb (is_Exception e)); [discriminate|].
    destruct (if REQUESTS_AVAILABLE
              then if isinstance e [RequestException]
                   then (attempt =? max_attempts - 1)%Z else false
              else false); [discriminate|].
    destruct (isinstance e non_retryable); [discriminate|].
    destruct (attempt =? max_attempts - 1)%Z; [discriminate|].
    destruct (backoff_wait_time rc attempt (uniform_draw attempt))
      as [wait|o]; [|discriminate].
    destruct (Qltb_spec wait 0) as [Hneg|Hpos]; [discriminate|].
    destruct (IH _ _ _ _ _ _ H) as (sk & ext & E & Rk & Fk & C1 & _).
    exists sk,
      ([Called attempt; LogWarning attempt; LogInfo wait; Slept wait] ++ ext).
    split; [rewrite E, <- !app_assoc; reflexivity|].
    split.
    { eapply Rtrans; [exact Rf|]. eapply Rtrans; [|exact Rk].
      apply Rsleep. lra. }
    split; [exact Fk|].
    rewrite filter_app, length_app. cbn [filter is_call length].
    split; lia.
Qed.

End RetryRuns.

Lemma retry_returns_the_first_success_witness :
  let r := retry_with_backoff nat nat fails_twice sleep_unseen true
             default_retry (fun _ => 0) 3%Z 0%nat in
  delays_convert default_retry (Z.of_nat 2) /\
  (Z.of_nat 2 < 3)%Z /\
  transient_failures fails_twice sleep_unseen default_retry (fun _ => 0)
    2 0%Z 0%nat = Some 2%nat /\
  fails_twice 2%nat = (Ok 2%nat, 3%nat) /\
  fst r = Ok (Some 2%nat) /\
  fst (snd r) = 3%nat /\
  length (filter is_call (snd (snd r))) = 3%nat /\
  length (filter is_sleep (snd (snd r))) = 2%nat /\
  filter is_log_error (snd (snd r)) = [] /\
  Forall (sleep_within default_retry) (snd (snd r)).
Proof.
  intro r.
  assert (Hf : delays_convert default_retry (Z.of_nat 2)).
  { intros a Ha. apply default_retry_converts. lia. }
  assert (Hb : (0 <= base_delay default_retry)%Z) by (cbn; lia).
  assert (He : (0 <= exponential_base default_retry)%Z) by (cbn; lia).
  assert (Hm : 0 <= retry_max_delay default_retry)
    by (apply Qle_bool_iff; reflexivity).
  assert (Hj : jitter default_retry <= 1) by (apply Qle_bool_iff; reflexivity).
  assert (Hd : forall a : Z, - jitter default_retry <= (fun _ : Z => 0) a
                             <= jitter default_retry).
  { intros _. split; apply Qle_bool_iff; reflexivity. }
  assert (Hk : (Z.of_nat 2 < 3)%Z) by lia.
  assert (Hfail : transient_failures fails_twice sleep_unseen default_retry
                    (fun _ => 0) 2 0%Z 0%nat = Some 2%nat) by reflexivity.
  assert (Hok : fails_twice 2%nat = (Ok 2%nat, 3%nat)) by reflexivity.
  split; [exact Hf|]. split; [exact Hk|]. split; [exact Hfail|].
  split; [exact Hok|].
  exact (retry_returns_the_first_success nat nat fails_twice sleep_unseen true
           default_retry (fun _ => 0) 3%Z 2%nat 0%nat 2%nat 3%nat 2%nat
           Hb He Hm Hj Hd Hf Hk Hfail Hok).
Defined.

Lemma retry_gives_up_after_max_attempts_witness :
  let r := retry_with_backoff nat unit always_connection_error sleep_unseen
             true default_retry (fun _ => 0) (Z.of_nat 5) 0%nat in
  delays_convert default_retry (Z.of_nat 4) /\
  transient_failures always_connection_error sleep_unseen default_retry
    (fun _ => 0) 4 0%Z 0%nat = Some 4%nat /\
  always_connection_error 4%nat =
    (Raise (mk_exn ConnectionException 4), 5%nat) /\
  transient (mk_exn ConnectionException 4) = true /\
  fst r = Raise (mk_exn ConnectionException 4) /\
  fst (snd r) = 5%nat /\
  length (filter is_call (snd (snd r))) = 5%nat /\
  S (length (filter is_sleep (snd (snd r)))) = 5%nat /\
  filter is_log_error (snd (snd r)) = [LogError (Z.of_nat 5)] /\
  Forall (sleep_within default_retry) (snd (snd r)).
Proof.
  intro r.
  assert (Hf : delays_convert default_retry (Z.of_nat 4)).
  { intros a Ha. apply default_retry_converts. lia. }
  assert (Hb : (0 <= base_delay default_retry)%Z) by (cbn; lia).
  assert (He : (0 <= exponential_base default_retry)%Z) by (cbn; lia).
  assert (Hm : 0 <= retry_max_delay default_retry)
    by (apply Qle_bool_iff; reflexivity).
  assert (Hj : jitter default_retry <= 1) by (apply Qle_bool_iff; reflexivity).
  assert (Hd : forall a : Z, - jitter default_retry <= (fun _ : Z => 0) a
                             <= jitter default_retry).
  { intros _. split; apply Qle_bool_iff; reflexivity. }
  assert (Hfail : transient_failures always_connection_error sleep_unseen
                    default_retry (fun _ => 0) 4 0%Z 0%nat = Some 4%nat)
    by reflexivity.
  assert (Hlast : always_connection_error 4%nat =
                  (Raise (mk_exn ConnectionException 4), 5%nat)) by reflexivity.
  assert (Hc : transient (mk_exn ConnectionException 4) = true) by reflexivity.
  split; [exact Hf|]. split; [exact Hfail|]. split; [exact Hlast|].
  split; [exact Hc|].
  exact (retry_gives_up_after_max_attempts nat unit always_connection_error
           sleep_unseen true default_retry (fun _ => 0) 4%nat 0%nat 4%nat
           5%nat (mk_exn ConnectionException 4)
           Hb He Hm Hj Hd Hf Hfail Hlast Hc).
Defined.

Lemma retry_calls_and_sleeps_are_bounded_witness :
  let r := retry_with_backoff nat nat fails_twice sleep_unseen true
             default_retry (fun _ => 0) 3%Z 0%nat in
  let none := retry_with_backoff nat nat fails_twice sleep_unseen true
                default_retry (fun _ => 0) 0%Z 0%nat in
  (1 <= 3)%Z /\ (0 <= 0)%Z /\
  (length (filter is_call (snd (snd r))) <= Z.to_nat 3)%nat /\
  length (filter is_call (snd (snd r))) =
    S (length (filter is_sleep (snd (snd r)))) /\
  fst r <> Ok None /\
  none = (Ok None, (0%nat, [])).
Proof.
  intros r none.
  destruct (retry_calls_and_sleeps_are_bounded nat nat fails_twice sleep_unseen
              true default_retry (fun _ => 0) 3%Z 0%nat) as (B & _ & P & _).
  destruct (retry_calls_and_sleeps_are_bounded nat nat fails_twice sleep_unseen
              true default_retry (fun _ => 0) 0%Z 0%nat) as (_ & _ & _ & N).
  assert (H1 : (1 <= 3)%Z) by lia. assert (H0 : (0 <= 0)%Z) by lia.
  destruct (P H1) as [C Nn].
  split; [exact H1|]. split; [exact H0|]. split; [exact B|].
  split; [exact C|]. split; [exact Nn|exact (N H0)].
Defined.

(** * The calls that pass the governor *)

Lemma get_profile_run {P : Type} (w : world) (j h d : Q) (r : result P) :
  get_profile j h d r w =
    match wait_if_needed j h w with
    | (Ok _, w1) =>
        match r with
        | Ok p => (Ok p, snd (record_request (time_passes d w1)))
        | Raise e => (Raise e, time_passes d w1)
        end
    | (Raise e, w1) => (Raise e, w1)
    end.
Proof.
  unfold get_profile, remote_call. unfold bind at 1.
  destruct (wait_if_needed j h w) as [[[]|e] w1]; [|reflexivity].
  destruct r; reflexivity.
Qed.

(** X10.  [get_profile] passes the governor before the remote call and
    records the request after it, so only a call that succeeded is
    recorded.  When the admission returns and the remote call raises, the
    error goes to the caller and neither the history nor [requests_made]
    has changed; when the remote call returns, its value is returned, one
    request is recorded and its timestamp, which is also [last_request], is
    the time the remote call ended.  When the admission itself raises, the
    remote call is not made. *)
Theorem get_profile_records_only_a_success {P : Type}
    (w : world) (j h d : Q) (from_username : result P) :
  let admitted := wait_if_needed j h w in
  let out := get_profile j h d from_username w in
  (forall e, fst admitted = Ok tt -> from_username = Raise e ->
     fst out = Raise e /\
     request_history (snd out) = request_history w /\
     requests_made (state (snd out)) = requests_made (state w)) /\
  (forall p, fst admitted = Ok tt -> from_username = Ok p ->
     fst out = Ok p /\
     requests_made (state (snd out)) = (requests_made (state w) + 1)%Z /\
     request_history (snd out) =
       deque_append history_maxlen (clock (snd admitted) + d)
         (request_history w) /\
     last_request (state (snd out)) = Some (clock (snd admitted) + d) /\
     clock (snd out) = clock (snd admitted) + d) /\
  (forall e, fst admitted = Raise e ->
     fst out = Raise e /\ snd out = snd admitted).
Proof.
  intros admitted out. subst admitted out. rewrite get_profile_run.
  pose proof (gov_frame_wait_if_needed j h w) as F.
  destruct (wait_if_needed j h w) as [[[]|e0] w1]; cbn [fst snd] in *.
  - destruct F as [_ _ Hh Hm _ _]. split; [|split].
    + intros e _ ->. cbn. now rewrite Hh, Hm.
    + intros p _ ->. rewrite record_request_run.
      cbn. rewrite Hh, Hm. repeat split.
    + intros e E. discriminate E.
  - split; [|split].
    + intros e E. discriminate E.
    + intros p E. discriminate E.
    + intros e E. inversion E. split; reflexivity.
Qed.

Lemma get_profile_records_only_a_success_witness :
  let w := resting_world in
  let admitted := wait_if_needed 0 1 w in
  let failed := get_profile 0 1 (1 # 2)
                  (@Raise nat (mk_exn ConnectionException 0)) w in
  let fetched := get_profile 0 1 (1 # 2) (Ok 7%nat) w in
  fst admitted = Ok tt /\
  fst failed = Raise (mk_exn ConnectionException 0) /\
  request_history (snd failed) = request_history w /\
  requests_made (state (snd failed)) = requests_made (state w) /\
  fst fetched = Ok 7%nat /\
  requests_made (state (snd fetched)) = (requests_made (state w) + 1)%Z /\
  last_request (state (snd fetched)) = Some (clock (snd admitted) + (1 # 2)).
Proof.
  intros w admitted failed fetched.
  assert (Ha : fst admitted = Ok tt) by (vm_compute; reflexivity).
  destruct (get_profile_records_only_a_success w 0 1 (1 # 2)
              (@Raise nat (mk_exn ConnectionException 0))) as (Hf & _ & _).
  destruct (get_profile_records_only_a_success w 0 1 (1 # 2) (Ok 7%nat))
    as (_ & Hs & _).
  destruct (Hf _ Ha eq_refl) as (F1 & F2 & F3).
  destruct (Hs _ Ha eq_refl) as (S1 & S2 & _ & S4 & _).
  repeat split; assumption.
Defined.

Lemma gov_steps_trans w1 w2 w3 :
  gov_steps w1 w2 -> gov_steps w2 w3 -> gov_steps w1 w3.
Proof.
  intros H12 H23. induction H23 as [|a b c _ IH Hs]; [exact H12|].
  eapply steps_next; [apply IH; exact H12|exact Hs].
Qed.

Lemma analyze_posts_loop_run {A : Type} (max_posts : Z) (iter_error : option exn)
    (visits : list (post_visit A)) :
  forall idx posts_data w data w',
  (1 <= idx)%Z ->
  Forall (fun v => 0 <= pv_fetch v /\ 0 <= pv_time v) visits ->
  analyze_posts_loop visits iter_error idx max_posts posts_data w = (Ok data, w') ->
  let seen := firstn (Z.to_nat (max_posts - idx + 1)) visits in
  data = posts_data ++ built seen /\
  requests_made (state w') =
    (requests_made (state w) + Z.of_nat (length (built seen)))%Z /\
  gov_steps w w'.
Proof.
  induction visits as [|v rest IH]; intros idx posts_data w data w' Hidx Ht H.
  - cbn [analyze_posts_loop] in H. rewrite firstn_nil. cbn.
    destruct iter_error; [discriminate|]. inversion H; subst.
    rewrite app_nil_r. repeat split; [lia|apply steps_refl].
  - inversion Ht as [|? ? [Hf Hp] Ht']; subst.
    cbn [analyze_posts_loop] in H.
    assert (S0 : gov_steps w (time_passes (pv_fetch v) w)).
    { eapply steps_next; [apply steps_refl|now apply step_time]. }
    destruct (Z.ltb_spec max_posts idx) as [Hbreak|Hgo].
    + inversion H; subst.
      replace (Z.to_nat (max_posts - idx + 1)) with 0%nat by lia.
      cbn. rewrite app_nil_r. repeat split; [lia|exact S0].
    + replace (Z.to_nat (max_posts - idx + 1))
        with (S (Z.to_nat (max_posts - (idx + 1) + 1))) by lia.
      cbn [firstn].
      pose proof (gov_frame_wait_if_needed (pv_jitter v) (pv_delay v)
                    (time_passes (pv_fetch v) w)) as F.
      assert (S1 : gov_steps w
                     (snd (wait_if_needed (pv_jitter v) (pv_delay v)
                             (time_passes (pv_fetch v) w)))).
      { eapply steps_next; [exact S0|apply step_wait]. }
      destruct (wait_if_needed (pv_jitter v) (pv_delay v)
                  (time_passes (pv_fetch v) w)) as [[[]|e] w1];
        [|discriminate].
      cbn [snd] in F, S1. destruct F as [_ _ _ Hm _ _].
      cbn [state time_passes] in Hm.
      assert (S2 : gov_steps w (time_passes (pv_time v) w1)).
      { eapply steps_next; [exact S1|now apply step_time]. }
      unfold remote_call in H. unfold built. cbn [flat_map].
      fold (built (firstn (Z.to_nat (max_posts - (idx + 1) + 1)) rest)).
      destruct (pv_outcome v) as [post_meta|e].
      * destruct (IH (idx + 1)%Z _ _ _ _ ltac:(lia) Ht' H) as (D & R & G).
        split; [rewrite D, <- app_assoc; reflexivity|]. split.
        -- rewrite R, record_request_run.
           cbn [snd state with_state with_history requests_made
                set_requests_made time_passes].
           rewrite Hm, length_app. cbn [length]. lia.
        -- eapply gov_steps_trans; [|exact G].
           eapply steps_next; [exact S2|apply step_record].
      * destruct (is_Exception e); [|discriminate].
        destruct (IH (idx + 1)%Z _ _ _ _ ltac:(lia) Ht' H) as (D & R & G).
        split; [exact D|]. split.
        -- rewrite R. cbn [state time_passes]. rewrite Hm. cbn. lia.
        -- eapply gov_steps_trans; [exact S2|exact G].
Qed.

(** However a run of the body ends, the governor has gone through calls
    of its own and lapses of time, and has lost no record. *)
Lemma analyze_posts_loop_keeps {A : Type} (max_posts : Z)
    (iter_error : option exn) (visits : list (post_visit A)) :
  forall idx posts_data w,
  Forall (fun v => 0 <= pv_fetch v /\ 0 <= pv_time v) visits ->
  let r := analyze_posts_loop visits iter_error idx max_posts posts_data w in
  gov_steps w (snd r) /\
  (requests_made (state w) <= requests_made (state (snd r)))%Z.
Proof.
  induction visits as [|v rest IH]; intros idx posts_data w Ht.
  - cbn [analyze_posts_loop]. destruct iter_error; cbn;
      (split; [apply steps_refl|lia]).
  - inversion Ht as [|? ? [Hf Hp] Ht']; subst.
    cbn [analyze_posts_loop].
    assert (S0 : gov_steps w (time_passes (pv_fetch v) w)).
    { eapply steps_next; [apply steps_refl|now apply step_time]. }
    destruct (max_posts <? idx)%Z; [cbn; split; [exact S0|lia]|].
    pose proof (gov_frame_wait_if_needed (pv_jitter v) (pv_delay v)
                  (time_passes (pv_fetch v) w)) as F.
    assert (S1 : gov_steps w
                   (snd (wait_if_needed (pv_jitter v) (pv_delay v)
                           (time_passes (pv_fetch v) w)))).
    { eapply steps_next; [exact S0|apply step_wait]. }
    destruct (wait_if_needed (pv_jitter v) (pv_delay v)
                (time_passes (pv_fetch v) w)) as [[[]|e] w1];
      cbn [snd] in F, S1; destruct F as [_ _ _ Hm _ _];
      cbn [state time_passes] in Hm.
    2:{ cbn [snd]. split; [exact S1|lia]. }
    assert (S2 : gov_steps w (time_passes (pv_time v) w1)).
    { eapply steps_next; [exact S1|now apply step_time]. }
    unfold remote_call.
    destruct (pv_outcome v) as [post_meta|e].
    + destruct (IH (idx + 1)%Z (posts_data ++ [post_meta])
                  (snd (record_request (time_passes (pv_time v) w1))) Ht')
        as [G L].
      split.
      * eapply gov_steps_trans; [|exact G].
        eapply steps_next; [exact S2|apply step_record].
      * etransitivity; [|exact L]. rewrite record_request_run.
        cbn [snd state with_state with_history requests_made
             set_requests_made time_passes]. lia.
    + destruct (is_Exception e).
      * destruct (IH (idx + 1)%Z posts_data (time_passes (pv_time v) w1) Ht')
          as [G L].
        split; [eapply gov_steps_trans; [exact S2|exact G]|].
        etransitivity; [|exact L]. cbn [state time_passes]. lia.
      * cbn [snd]. split; [exact S2|]. cbn [state time_passes]. lia.
Qed.

Lemma built_length {A : Type} (visits : list (post_visit A)) :
  (length (built visits) <= length visits)%nat.
Proof.
  unfold built. induction visits as [|v rest IH]; cbn [flat_map length]; [lia|].
  rewrite length_app. destruct (pv_outcome v); cbn [length]; lia.
Qed.

(** A run of the body that returns. *)
Lemma analyze_posts_body_returns {A : Type}
    (visits : list (post_visit A)) (iter_error : option exn)
    (max_posts : Z) (w w' : world) (data : list A) :
  Forall (fun v => 0 <= pv_fetch v /\ 0 <= pv_time v) visits ->
  analyze_posts_body visits iter_error max_posts w = (Ok data, w') ->
  data = built (firstn (Z.to_nat max_posts) visits) /\
  (length data <= Z.to_nat max_posts)%nat /\
  requests_made (state w') = (requests_made (state w) + Z.of_nat (length data))%Z /\
  gov_steps w w'.
Proof.
  intros Htimes Hret. unfold analyze_posts_body in Hret.
  destruct (analyze_posts_loop_run max_posts iter_error visits 1 [] w data w'
              ltac:(lia) Htimes Hret) as (D & R & G).
  replace (max_posts - 1 + 1)%Z with max_posts in * by lia.
  cbn [app] in D. subst data.
  split; [reflexivity|]. split; [|split; assumption].
  etransitivity; [apply built_length|]. rewrite length_firstn. lia.
Qed.

(** The wrapper of [analyze_posts] counts the runs of the body. *)
Lemma analyze_posts_runs {A : Type}
    (get_posts : nat -> list (post_visit A) * option exn)
    (REQUESTS_AVAILABLE : bool) (uniform_draw : Z -> Q) (max_posts : Z) :
  forall remaining attempt s tr,
  let r := retry_loop (world * nat) (list A)
             (analyze_posts_attempt get_posts max_posts) wrapper_sleep
             REQUESTS_AVAILABLE default_retry uniform_draw 3 remaining attempt
             s tr in
  exists ext,
    snd (snd r) = tr ++ ext /\
    snd (fst (snd r)) = (snd s + length (filter is_call ext))%nat /\
    (length (filter is_call ext) <= remaining)%nat.
Proof.
  induction remaining as [|n IH]; intros attempt s tr r; subst r.
  - exists []. cbn. rewrite app_nil_r. repeat split; lia.
  - cbn [retry_loop].
    assert (Hc : snd (snd (analyze_posts_attempt get_posts max_posts s))
                 = S (snd s)).
    { unfold analyze_posts_attempt. destruct (get_posts (snd s)) as [vs er].
      destruct (analyze_posts_body vs er max_posts (fst s)); reflexivity. }
    destruct (analyze_posts_attempt get_posts max_posts s) as [[v|e] s'];
      cbn [snd] in Hc.
    { exists [Called attempt]. cbn. rewrite Hc. repeat split; lia. }
    destruct (negb (is_Exception e)).
    { exists [Called attempt]. cbn. rewrite Hc. repeat split; lia. }
    destruct (if REQUESTS_AVAILABLE
              then if isinstance e [RequestException]
                   then (attempt =? 3 - 1)%Z else false
              else false).
    { exists [Called attempt; LogError 3]. cbn. rewrite <- app_assoc, Hc.
      repeat split; lia. }
    destruct (isinstance e non_retryable).
    { exists [Called attempt]. cbn. rewrite Hc. repeat split; lia. }
    destruct (attempt =? 3 - 1)%Z.
    { exists [Called attempt; LogError 3]. cbn. rewrite <- app_assoc, Hc.
      repeat split; lia. }
    destruct (backoff_wait_time default_retry attempt (uniform_draw attempt))
      as [wait|o].
    2:{ exists [Called attempt]. cbn. rewrite Hc. repeat split; lia. }
    destruct (Qltb wait 0).
    { exists [Called attempt; LogWarning attempt; LogInfo wait]. cbn.
      rewrite <- app_assoc, Hc. repeat split; lia. }
    destruct (IH (attempt + 1)%Z (wrapper_sleep wait s')
                (((tr ++ [Called attempt])
                    ++ [LogWarning attempt; LogInfo wait]) ++ [Slept wait]))
      as (ext & E & C & B).
    exists ([Called attempt; LogWarning attempt; LogInfo wait; Slept wait]
              ++ ext).
    split; [rewrite E, <- !app_assoc; reflexivity|].
    rewrite filter_app, length_app. cbn [filter is_call length].
    split; [|lia]. rewrite C. cbn [wrapper_sleep snd]. lia.
Qed.

(** X11.  [analyze_posts] is decorated with the retry wrapper: when the
    body raises a transient error, an error of the post iterator for one,
    the body runs again from the first post, with a new list, while the
    requests the failed run recorded stay recorded.  When [analyze_posts]
    returns a list, the body has run once, twice or three times; the list
    holds, in order, the posts among the first [max_posts] of the last run
    whose [try] block came through; [requests_made] has grown by the length
    of that list at least, and by exactly that when the body ran once; and
    the governor has gone through a sequence of its own calls and lapses of
    time, so what holds after every such sequence holds after
    [analyze_posts]. *)
Theorem analyze_posts_records_what_it_returns {A : Type}
    (get_posts : nat -> list (post_visit A) * option exn)
    (REQUESTS_AVAILABLE : bool) (uniform_draw : Z -> Q)
    (max_posts : Z) (w w' : world) (runs : nat) (tr : list event)
    (data : list A)
    (Htimes : forall n, Forall (fun v => 0 <= pv_fetch v /\ 0 <= pv_time v)
                               (fst (get_posts n)))
    (Hret : analyze_posts get_posts REQUESTS_AVAILABLE uniform_draw max_posts w
            = (Ok (Some data), ((w', runs), tr))) :
  (1 <= runs <= 3)%nat /\
  length (filter is_call tr) = runs /\
  data = built (firstn (Z.to_nat max_posts) (fst (get_posts (runs - 1)%nat))) /\
  (length data <= Z.to_nat max_posts)%nat /\
  (requests_made (state w) + Z.of_nat (length data)
   <= requests_made (state w'))%Z /\
  (runs = 1%nat ->
   requests_made (state w') =
     (requests_made (state w) + Z.of_nat (length data))%Z) /\
  gov_steps w w'.
Proof.
  unfold analyze_posts, retry_with_backoff in Hret.
  change (Z.to_nat 3) with 3%nat in Hret.
  set (R := fun s1 s2 : world * nat =>
              gov_steps (fst s1) (fst s2) /\
              (requests_made (state (fst s1))
               <= requests_made (state (fst s2)))%Z).
  assert (Rrefl : forall s, R s s).
  { intro s. split; [apply steps_refl|lia]. }
  assert (Rtrans : forall s1 s2 s3, R s1 s2 -> R s2 s3 -> R s1 s3).
  { intros s1 s2 s3 [G1 L1] [G2 L2].
    split; [eapply gov_steps_trans; eassumption|lia]. }
  assert (Rfunc : forall s,
            R s (snd (analyze_posts_attempt get_posts max_posts s))).
  { intro s. unfold analyze_posts_attempt.
    pose proof (Htimes (snd s)) as Ht.
    destruct (get_posts (snd s)) as [vs er]. cbn [fst] in Ht.
    pose proof (analyze_posts_loop_keeps max_posts er vs 1 [] (fst s) Ht) as K.
    unfold analyze_posts_body.
    destruct (analyze_posts_loop vs er 1 max_posts [] (fst s)) as [r0 w0].
    exact K. }
  assert (Rsleep : forall d s, 0 <= d -> R s (wrapper_sleep d s)).
  { intros d s Hd. split; [|cbn; lia].
    eapply steps_next; [apply steps_refl|now apply step_time]. }
  destruct (retry_loop_returns (world * nat) (list A)
              (analyze_posts_attempt get_posts max_posts) wrapper_sleep
              REQUESTS_AVAILABLE default_retry uniform_draw R
              Rrefl Rtrans Rfunc Rsleep 3 3 0 (w, 0%nat) [] data (w', runs) tr
              Hret)
    as ([wk ck] & ext & E & [Gk Lk] & Fk & C1 & Cone).
  cbn [app] in E. subst ext. cbn [fst] in Gk, Lk.
  destruct (analyze_posts_runs get_posts REQUESTS_AVAILABLE uniform_draw
              max_posts 3 0 (w, 0%nat) []) as (ext & E & C & B).
  rewrite Hret in E, C. cbn [fst snd app] in E, C. subst ext.
  unfold analyze_posts_attempt in Fk. cbn [fst snd] in Fk.
  pose proof (Htimes ck) as Ht.
  destruct (get_posts ck) as [vs er] eqn:Eg. cbn [fst] in Ht.
  destruct (analyze_posts_body vs er max_posts wk) as [r0 w0] eqn:Eb.
  inversion Fk; subst r0 w0 runs. clear Fk.
  destruct (analyze_posts_body_returns vs er max_posts wk w' data Ht Eb)
    as (D & Ld & Rm & Gb).
  replace (S ck - 1)%nat with ck by lia. rewrite Eg. cbn [fst].
  split; [lia|]. split; [lia|]. split; [exact D|]. split; [exact Ld|].
  split; [lia|]. split.
  - intro H1. assert (Hone : length (filter is_call tr) = 1%nat) by lia.
    specialize (Cone Hone). inversion Cone. subst wk. exact Rm.
  - eapply gov_steps_trans; eassumption.
Qed.

Lemma analyze_posts_records_what_it_returns_witness :
  let w := resting_world in
  let r := analyze_posts broken_feed true (fun _ => 0) 5 w in
  let w' := fst (fst (snd r)) in
  (forall n, Forall (fun v => 0 <= pv_fetch v /\ 0 <= pv_time v)
                    (fst (broken_feed n))) /\
  r = (Ok (Some [11%nat]), ((w', 2%nat), snd (snd r))) /\
  requests_made (state w) = 2%Z /\
  requests_made (state w') = 5%Z /\
  (1 <= 2 <= 3)%nat /\
  length (filter is_call (snd (snd r))) = 2%nat /\
  [11%nat] = built (firstn (Z.to_nat 5) (fst (broken_feed (2 - 1)%nat))) /\
  (length [11%nat] <= Z.to_nat 5)%nat /\
  (requests_made (state w) + Z.of_nat (length [11%nat])
   <= requests_made (state w'))%Z /\
  (2%nat = 1%nat ->
   requests_made (state w') =
     (requests_made (state w) + Z.of_nat (length [11%nat]))%Z) /\
  gov_steps w w'.
Proof.
  intros w r w'.
  assert (Ht : forall n, Forall (fun v => 0 <= pv_fetch v /\ 0 <= pv_time v)
                                (fst (broken_feed n))).
  { intros [|n]; cbn; repeat constructor; apply Qle_bool_iff; reflexivity. }
  assert (Hr : r = (Ok (Some [11%nat]), ((w', 2%nat), snd (snd r))))
    by (vm_compute; reflexivity).
  split; [exact Ht|]. split; [exact Hr|].
  split; [reflexivity|]. split; [vm_compute; reflexivity|].
  exact (analyze_posts_records_what_it_returns broken_feed true (fun _ => 0) 5
           w w' 2%nat (snd (snd r)) [11%nat] Ht Hr).
Defined.

(** * The statistics over the posts *)

(** ** [sorted] *)

Section Sorted.

Variable A : Type.
Variable before : A -> A -> bool.

(** [before] is a strict order of the kind a sort key gives. *)
Hypothesis before_asym : forall a b, before a b = true -> before b a = false.
Hypothesis before_neg_trans :
  forall a b c, before a b = false -> before b c = false -> before a c = false.

(** [a] may stand in front of [b]. *)
Let ordered (a b : A) : Prop := before b a = false.

Lemma py_insert_perm x l : Permutation (py_insert before x l) (x :: l).
Proof.
  induction l as [|y r IH]; cbn [py_insert]; [reflexivity|].
  destruct (before y x); [|reflexivity].
  rewrite IH. apply perm_swap.
Qed.

Lemma py_sorted_perm l : Permutation (py_sorted before l) l.
Proof.
  induction l as [|x r IH]; cbn; [reflexivity|].
  fold (py_sorted before r). rewrite py_insert_perm. now constructor.
Qed.

Lemma py_insert_sorted x l :
  StronglySorted ordered l -> StronglySorted ordered (py_insert before x l).
Proof.
  induction 1 as [|y r Hs IH Hy]; cbn [py_insert].
  - repeat constructor.
  - destruct (before y x) eqn:E.
    + constructor; [exact IH|].
      rewrite (py_insert_perm x r). constructor; [|exact Hy].
      unfold ordered. now apply before_asym.
    + constructor; [now constructor|].
      constructor; [exact E|].
      rewrite Forall_forall in Hy |- *. intros z Hz.
      unfold ordered in *. apply (before_neg_trans z y x); auto.
Qed.

Lemma py_sorted_sorted l : StronglySorted ordered (py_sorted before l).
Proof.
  induction l as [|x r IH]; cbn; [constructor|].
  now apply py_insert_sorted.
Qed.

Lemma sorted_split l1 l2 :
  StronglySorted ordered (l1 ++ l2) ->
  StronglySorted ordered l1 /\
  forall a b, In a l1 -> In b l2 -> ordered a b.
Proof.
  induction l1 as [|x l1 IH]; cbn [app]; intro H.
  - split; [constructor|]. intros a b [].
  - inversion H as [|? ? Hs Hx]; subst.
    destruct (IH Hs) as [S1 D]. apply Forall_app in Hx. destruct Hx as [X1 X2].
    split; [now constructor|].
    intros a b [->|Ha] Hb.
    + rewrite Forall_forall in X2. now apply X2.
    + now apply D.
Qed.

End Sorted.

Lemma by_engagement_perm posts : Permutation (by_engagement posts) posts.
Proof. apply py_sorted_perm. Qed.

Lemma by_engagement_sorted posts :
  StronglySorted (fun a b => (engagement a <? engagement b)%Z = false)
    (by_engagement posts).
Proof.
  apply py_sorted_sorted.
  - intros a b H. apply Z.ltb_lt in H. apply Z.ltb_ge. lia.
  - intros a b c H1 H2. apply Z.ltb_ge in H1, H2. apply Z.ltb_ge. lia.
Qed.

(** ** [sum] and [round] *)

Lemma fold_left_Zadd l acc : fold_left Z.add l acc = (acc + fold_left Z.add l 0)%Z.
Proof.
  revert acc. induction l as [|x l IH]; intro acc; cbn; [lia|].
  rewrite IH, (IH x). lia.
Qed.

Lemma py_sum_Z_cons x l : py_sum_Z (x :: l) = (x + py_sum_Z l)%Z.
Proof. unfold py_sum_Z. cbn. apply fold_left_Zadd. Qed.

Lemma py_sum_engagement posts :
  (py_sum_Z (map likes posts) + py_sum_Z (map comments posts))%Z =
  py_sum_Z (map engagement posts).
Proof.
  induction posts as [|p r IH]; [reflexivity|].
  cbn [map]. rewrite !py_sum_Z_cons, <- IH. unfold engagement. lia.
Qed.

Lemma round_half_even_close y :
  y - (1 # 2) <= inject_Z (round_half_even y) /\
  inject_Z (round_half_even y) <= y + (1 # 2).
Proof.
  unfold round_half_even.
  destruct (floor_within_one y) as [Hlo Hhi].
  set (f := Qfloor y) in *.
  assert (E1 : inject_Z (f + 1) == inject_Z f + 1)
    by (rewrite inject_Z_plus; reflexivity).
  destruct (Qltb_spec (y - inject_Z f) (1 # 2)) as [L|L]; [lra|].
  destruct (Qltb_spec (1 # 2) (y - inject_Z f)) as [G|G]; [lra|].
  destruct (Z.even f); lra.
Qed.

Lemma py_round_close x n :
  x - (1 # 2) / 10 ^ n <= py_round x n /\
  py_round x n <= x + (1 # 2) / 10 ^ n.
Proof.
  unfold py_round.
  assert (Hp : 0 < 10 ^ n) by (apply Qpower_0_lt; lra).
  set (p := 10 ^ n) in *.
  destruct (round_half_even_close (x * p)) as [Lo Hi].
  set (z := inject_Z (round_half_even (x * p))) in *.
  split.
  - apply Qle_shift_div_l; [exact Hp|].
    assert (E : (x - (1 # 2) / p) * p == x * p - (1 # 2))
      by (field; lra).
    rewrite E. exact Lo.
  - apply Qle_shift_div_r; [exact Hp|].
    assert (E : (x + (1 # 2) / p) * p == x * p + (1 # 2))
      by (field; lra).
    rewrite E. exact Hi.
Qed.

(** X12.  [calculate_engagement_stats] returns the empty dict for no posts.
    For one post or more it counts the posts; its totals of likes and of
    comments add up to the sum of likes plus comments over the posts; the
    mean it reports for the likes is within 0.005 of the quotient of the
    total by the number of posts; the engagement rate is 0 when the profile
    has no followers; and [top_posts] are five of the posts, or all when
    there are fewer, in order of falling likes plus comments, none of the
    posts left out having more than any of them. *)
Theorem engagement_stats_of_posts
    (posts : list PostMetadata) (profile : ProfileMetadata) :
  (posts = [] -> calculate_engagement_stats posts profile = None) /\
  (posts <> [] ->
   exists e,
     calculate_engagement_stats posts profile = Some e /\
     total_analyzed e = length posts /\
     (total_likes e + total_comments e)%Z = py_sum_Z (map engagement posts) /\
     (let mean := inject_Z (total_likes e) / inject_Z (Z.of_nat (length posts)) in
      mean - (1 # 200) <= avg_likes e /\ avg_likes e <= mean + (1 # 200)) /\
     ((followers profile <= 0)%Z -> engagement_rate e == 0) /\
     exists top rest,
       top_posts e = map top_post_of top /\
       Permutation posts (top ++ rest) /\
       length top = Nat.min 5 (length posts) /\
       StronglySorted (fun a b => (engagement b <= engagement a)%Z) top /\
       forall a b, In a top -> In b rest ->
                   (engagement b <= engagement a)%Z).
Proof.
  split; [intros ->; reflexivity|].
  intro Hne. destruct posts as [|p0 r]; [congruence|].
  set (posts := p0 :: r) in *.
  eexists. split; [reflexivity|].
  cbn [total_analyzed total_likes total_comments avg_likes engagement_rate
       top_posts].
  split; [reflexivity|]. split; [apply py_sum_engagement|]. split.
  { cbn zeta.
    destruct (py_round_close
                (inject_Z (py_sum_Z (map likes posts)) /
                 inject_Z (Z.of_nat (length posts))) 2) as [Lo Hi].
    assert (E : (1 # 2) / 10 ^ 2 == 1 # 200) by reflexivity.
    rewrite E in Lo, Hi. split; assumption. }
  split.
  { intro Hf. apply Z.ltb_ge in Hf. rewrite Hf. reflexivity. }
  exists (firstn 5 (by_engagement posts)), (skipn 5 (by_engagement posts)).
  split; [reflexivity|].
  rewrite firstn_skipn.
  split; [symmetry; apply by_engagement_perm|].
  split.
  { rewrite length_firstn.
    now rewrite (Permutation_length (by_engagement_perm posts)). }
  pose proof (by_engagement_sorted posts) as S.
  rewrite <- (firstn_skipn 5 (by_engagement posts)) in S.
  apply sorted_split in S. destruct S as [S1 D]. split.
  - clear D. induction S1 as [|x l Hs IH Hx]; constructor; [exact IH|].
    rewrite Forall_forall in Hx |- *. intros y Hy.
    specialize (Hx y Hy). cbn in Hx. apply Z.ltb_ge in Hx. exact Hx.
  - intros a b Ha Hb. specialize (D a b Ha Hb). cbn in D.
    apply Z.ltb_ge in D. exact D.
Qed.

Lemma engagement_stats_of_posts_witness :
  six_posts <> [] /\
  (followers (some_profile 0) <= 0)%Z /\
  exists e,
    calculate_engagement_stats six_posts (some_profile 0) = Some e /\
    total_analyzed e = 6%nat /\
    (total_likes e + total_comments e)%Z = py_sum_Z (map engagement six_posts) /\
    engagement_rate e == 0 /\
    map tp_engagement (top_posts e) = [100; 55; 12; 12; 7]%Z /\
    exists top rest,
      top_posts e = map top_post_of top /\
      Permutation six_posts (top ++ rest) /\
      length top = 5%nat.
Proof.
  assert (Hne : six_posts <> []) by discriminate.
  assert (Hf : (followers (some_profile 0) <= 0)%Z) by (cbn; lia).
  split; [exact Hne|]. split; [exact Hf|].
  destruct (proj2 (engagement_stats_of_posts six_posts (some_profile 0)) Hne)
    as (e & E & N & T & _ & R & top & rest & Et & P & L & _).
  exists e. split; [exact E|]. split; [exact N|]. split; [exact T|].
  split; [exact (R Hf)|]. split.
  - inversion E. reflexivity.
  - exists top, rest. repeat split; assumption.
Defined.
(** ** [temporal_analysis]: the distributions and the peak hour *)

Lemma py_count_cons k x l :
  py_count k (x :: l) = ((if (k =? x)%Z then 1 else 0) + py_count k l)%nat.
Proof. unfold py_count. cbn [filter]. destruct (k =? x)%Z; reflexivity. Qed.

Lemma list_sum_cons_eq x l : list_sum (x :: l) = (x + list_sum l)%nat.
Proof. reflexivity. Qed.

(** Over a run of consecutive keys, one of which is [x], the counts of [x]
    in the one-element list add up to 1. *)
Lemma indicator_sum x a n :
  list_sum (map (fun h => if (h =? x)%Z then 1 else 0)%nat
              (map Z.of_nat (seq a n))) =
  if ((Z.of_nat a <=? x) && (x <? Z.of_nat (a + n)))%Z then 1%nat else 0%nat.
Proof.
  revert a. induction n as [|n IH]; intro a; cbn [seq map].
  - replace (a + 0)%nat with a by lia.
    destruct (Z.leb_spec (Z.of_nat a) x), (Z.ltb_spec x (Z.of_nat a));
      cbn; try reflexivity; lia.
  - rewrite list_sum_cons_eq, IH.
    destruct (Z.eqb_spec (Z.of_nat a) x) as [E|E];
      destruct (Z.leb_spec (Z.of_nat (S a)) x),
               (Z.ltb_spec x (Z.of_nat (S a + n))),
               (Z.leb_spec (Z.of_nat a) x),
               (Z.ltb_spec x (Z.of_nat (a + S n)));
      cbn; try reflexivity; lia.
Qed.

Lemma list_sum_map_add {A : Type} (f g : A -> nat) l :
  list_sum (map (fun a => f a + g a)%nat l) =
  (list_sum (map f l) + list_sum (map g l))%nat.
Proof.
  induction l as [|a l IH]; cbn [map]; [reflexivity|].
  rewrite !list_sum_cons_eq, IH. lia.
Qed.

Lemma counts_sum (keys : nat) (l : list Z) :
  Forall (fun x => (0 <= x < Z.of_nat keys)%Z) l ->
  list_sum (map (fun h => py_count h l) (map Z.of_nat (seq 0 keys))) = length l.
Proof.
  induction 1 as [|x l Hx _ IH]; cbn [length].
  - unfold py_count. cbn [filter length].
    induction (map Z.of_nat (seq 0 keys)); cbn; auto.
  - rewrite (map_ext _ (fun h => (if (h =? x)%Z then 1 else 0) + py_count h l)%nat)
      by (intro h; apply py_count_cons).
    rewrite list_sum_map_add, IH, indicator_sum.
    destruct (Z.leb_spec (Z.of_nat 0) x), (Z.ltb_spec x (Z.of_nat (0 + keys)));
      cbn; lia.
Qed.

Lemma hour_of_range t : (0 <= hour_of t < 24)%Z.
Proof. unfold hour_of. apply Z.mod_pos_bound. lia. Qed.

Lemma weekday_number_range t : (0 <= weekday_number t < 7)%Z.
Proof. unfold weekday_number. apply Z.mod_pos_bound. lia. Qed.

Lemma py_count_absent k l : existsb (Z.eqb k) l = false -> py_count k l = 0%nat.
Proof.
  unfold py_count. induction l as [|x l IH]; cbn; [reflexivity|].
  destruct (k =? x)%Z; cbn; [discriminate|exact IH].
Qed.

(** The first of the items with the greatest value. *)
Lemma fold_first_max {K : Type} (r : list (K * nat)) :
  forall pre m0 mid,
  Forall (fun y => (snd y < snd m0)%nat) pre ->
  Forall (fun y => (snd y <= snd m0)%nat) mid ->
  let m := fold_left (fun m y => if (snd m <? snd y)%nat then y else m) r m0 in
  exists l1 l2,
    pre ++ m0 :: mid ++ r = l1 ++ m :: l2 /\
    Forall (fun y => (snd y < snd m)%nat) l1 /\
    Forall (fun y => (snd y <= snd m)%nat) l2.
Proof.
  induction r as [|y r IH]; intros pre m0 mid Hpre Hmid; cbn [fold_left].
  - exists pre, mid. rewrite app_nil_r. repeat split; assumption.
  - destruct (Nat.ltb_spec (snd m0) (snd y)) as [L|L].
    + destruct (IH (pre ++ m0 :: mid) y []) as (l1 & l2 & E & H1 & H2).
      * apply Forall_app. split.
        -- eapply Forall_impl; [|exact Hpre]. cbn. intros. lia.
        -- constructor; [exact L|].
           eapply Forall_impl; [|exact Hmid]. cbn. intros. lia.
      * constructor.
      * exists l1, l2. split; [|split; assumption].
        rewrite <- E. cbn [app]. rewrite <- app_assoc. reflexivity.
    + destruct (IH pre m0 (mid ++ [y])) as (l1 & l2 & E & H1 & H2).
      * exact Hpre.
      * apply Forall_app. split; [exact Hmid|]. constructor; [exact L|constructor].
      * exists l1, l2. split; [|split; assumption].
        rewrite <- E, <- app_assoc. reflexivity.
Qed.

Lemma py_max_by_value_first {K : Type} (items : list (K * nat)) :
  items <> [] ->
  exists k c l1 l2,
    py_max_by_value items = Some k /\
    items = l1 ++ (k, c) :: l2 /\
    Forall (fun y => (snd y < c)%nat) l1 /\
    Forall (fun y => (snd y <= c)%nat) l2.
Proof.
  destruct items as [|x r]; [congruence|]. intros _.
  destruct (fold_first_max r [] x [] ltac:(constructor) ltac:(constructor))
    as (l1 & l2 & E & H1 & H2).
  cbn [app] in E. cbn [py_max_by_value].
  set (m := fold_left _ r x) in *.
  exists (fst m), (snd m), l1, l2.
  split; [reflexivity|]. split; [|split; assumption].
  rewrite E. now destruct m.
Qed.

Lemma list_sum_bound {K : Type} (l : list (K * nat)) c :
  Forall (fun y => (snd y <= c)%nat) l ->
  (list_sum (map snd l) <= length l * c)%nat.
Proof.
  induction 1 as [|y l Hy _ IH]; cbn [map length]; [cbn; lia|].
  rewrite list_sum_cons_eq. lia.
Qed.

Lemma present_counts_sum (days : list Z) (ds : list weekday) :
  list_sum (map snd
    (flat_map (fun d => if existsb (Z.eqb (weekday_index d)) days
                        then [(d, py_count (weekday_index d) days)]
                        else []) ds)) =
  list_sum (map (fun d => py_count (weekday_index d) days) ds).
Proof.
  induction ds as [|d ds IH]; [reflexivity|].
  cbn [flat_map map]. rewrite map_app, list_sum_app, IH, list_sum_cons_eq.
  destruct (existsb (Z.eqb (weekday_index d)) days) eqn:E.
  - cbn [map snd]. rewrite list_sum_cons_eq. cbn [list_sum fold_right]. lia.
  - apply py_count_absent in E. rewrite E. reflexivity.
Qed.

Lemma day_counts_sum (days : list Z) :
  list_sum (map snd
    (flat_map (fun d => if existsb (Z.eqb (weekday_index d)) days
                        then [(d, py_count (weekday_index d) days)]
                        else []) all_weekdays)) =
  list_sum (map (fun h => py_count h days) (map Z.of_nat (seq 0 7))).
Proof.
  rewrite present_counts_sum.
  change (map Z.of_nat (seq 0 7)) with (map weekday_index all_weekdays).
  now rewrite map_map.
Qed.

(** X13.  For one post or more [temporal_analysis] gives every hour from
    0 to 23 its number of posts, and every day of the week on which a post
    was made its number; both distributions add up to the number of posts.
    The peak hour is the first hour, counting from 0, whose number of posts
    no other hour exceeds, and that number is at least 1. *)
Theorem temporal_distributions (posts : list PostMetadata)
    (Hposts : posts <> []) :
  exists t,
    temporal_analysis posts = Some t /\
    map fst (hour_distribution t) = map Z.of_nat (seq 0 24) /\
    (forall h c, In (h, c) (hour_distribution t) ->
       c = py_count h (map (fun p => hour_of (timestamp p)) posts)) /\
    list_sum (map snd (hour_distribution t)) = length posts /\
    list_sum (map snd (day_distribution t)) = length posts /\
    exists peak c earlier later,
      peak_posting_hour t = Some peak /\
      hour_distribution t = earlier ++ (peak, c) :: later /\
      Forall (fun y => (snd y < c)%nat) earlier /\
      Forall (fun y => (snd y <= c)%nat) later /\
      (1 <= c)%nat.
Proof.
  destruct posts as [|p0 r]; [congruence|]. set (posts := p0 :: r) in *.
  set (hours := map (fun p => hour_of (timestamp p)) posts).
  set (dist := map (fun h => (h, py_count h hours)) (map Z.of_nat (seq 0 24))).
  assert (Hsum : list_sum (map snd dist) = length posts).
  { unfold dist. rewrite map_map. cbn [snd].
    rewrite <- (length_map (fun p => hour_of (timestamp p)) posts).
    apply (counts_sum 24). apply Forall_forall. intros x Hx.
    apply in_map_iff in Hx. destruct Hx as (p & <- & _). apply hour_of_range. }
  eexists. split; [reflexivity|].
  cbn [hour_distribution day_distribution peak_posting_hour].
  fold posts. fold hours. fold dist.
  split; [unfold dist; rewrite map_map; cbn [fst]; apply map_id|].
  split.
  { intros h c Hin. unfold dist in Hin. apply in_map_iff in Hin.
    destruct Hin as (h' & E & _). now inversion E. }
  split; [exact Hsum|]. split.
  { rewrite day_counts_sum.
    rewrite <- (length_map (fun p => weekday_number (timestamp p)) posts).
    apply (counts_sum 7). apply Forall_forall. intros x Hx.
    apply in_map_iff in Hx. destruct Hx as (p & <- & _).
    apply weekday_number_range. }
  destruct (py_max_by_value_first dist) as (k & c & l1 & l2 & Ek & Ed & H1 & H2).
  { unfold dist. discriminate. }
  exists k, c, l1, l2. repeat split; try assumption.
  assert (B : (list_sum (map snd dist) <= length dist * c)%nat).
  { apply list_sum_bound. rewrite Ed. apply Forall_app. split.
    - eapply Forall_impl; [|exact H1]. cbn. intros. lia.
    - constructor; [cbn; lia|exact H2]. }
  rewrite Hsum in B. unfold posts in B. cbn [length] in B.
  destruct c; [|lia]. rewrite Nat.mul_0_r in B. lia.
Qed.

Lemma temporal_distributions_witness :
  six_posts <> [] /\
  exists t,
    temporal_analysis six_posts = Some t /\
    list_sum (map snd (hour_distribution t)) = 6%nat /\
    list_sum (map snd (day_distribution t)) = 6%nat /\
    peak_posting_hour t = Some 6%Z /\
    In (6%Z, 5%nat) (hour_distribution t).
Proof.
  assert (Hne : six_posts <> []) by discriminate.
  split; [exact Hne|].
  destruct (temporal_distributions six_posts Hne)
    as (t & E & _ & _ & Sh & Sd & _).
  exists t. split; [exact E|]. split; [exact Sh|]. split; [exact Sd|].
  inversion E. split; [reflexivity|]. vm_compute. tauto.
Defined.
(** ** [temporal_analysis]: the mean interval between posts *)

Lemma time_diffs_length l : length (time_diffs l) = (length l - 1)%nat.
Proof.
  induction l as [|a [|b r] IH]; [reflexivity|reflexivity|].
  change (time_diffs (a :: b :: r)) with ((b - a) / 3600 :: time_diffs (b :: r)).
  cbn [length] in *. rewrite IH. lia.
Qed.

Lemma last_cons {A : Type} (l : list A) : forall x d : A,
  last (x :: l) d = last l x.
Proof.
  induction l as [|y l IH]; intros x d; [reflexivity|].
  change (last (x :: y :: l) d) with (last (y :: l) d).
  now rewrite !IH.
Qed.

(** The intervals add up to the distance between the ends. *)
Lemma time_diffs_sum l : forall a acc,
  fold_left Qplus (time_diffs (a :: l)) acc == acc + (last l a - a) / 3600.
Proof.
  induction l as [|b r IH]; intros a acc.
  - cbn. field.
  - change (time_diffs (a :: b :: r)) with ((b - a) / 3600 :: time_diffs (b :: r)).
    cbn [fold_left]. rewrite IH, last_cons. field.
Qed.

Lemma last_in {A : Type} (l : list A) : forall d : A, In (last l d) (d :: l).
Proof.
  induction l as [|x l IH]; intro d; [now left|].
  right. rewrite last_cons. apply IH.
Qed.

Lemma last_map {A B : Type} (f : A -> B) (l : list A) : forall d : A,
  last (map f l) (f d) = f (last l d).
Proof.
  induction l as [|x l IH]; intro d; [reflexivity|].
  cbn [map]. rewrite !last_cons. apply IH.
Qed.

Lemma sorted_last {A : Type} (R : A -> A -> Prop) (l : list A) (d : A) :
  StronglySorted R (d :: l) ->
  forall p, In p (d :: l) -> p = last l d \/ R p (last l d).
Proof.
  revert d. induction l as [|x l IH]; intros d H p Hp.
  - left. destruct Hp as [->|[]]. reflexivity.
  - inversion H as [|? ? Hs Hd]; subst.
    rewrite last_cons.
    destruct Hp as [->|Hp].
    + right. rewrite Forall_forall in Hd. apply Hd. apply last_in.
    + now apply IH.
Qed.

Lemma by_timestamp_perm posts : Permutation (by_timestamp posts) posts.
Proof. apply py_sorted_perm. Qed.

Lemma by_timestamp_sorted posts :
  StronglySorted (fun a b => Qltb (timestamp b) (timestamp a) = false)
    (by_timestamp posts).
Proof.
  apply py_sorted_sorted.
  - intros a b H. apply Qltb_lt in H. apply Qltb_ge. lra.
  - intros a b c H1 H2. apply Qltb_ge in H1, H2. apply Qltb_ge. lra.
Qed.

(** The mean interval of two posts or more, and the posts at its ends. *)
Lemma post_interval_mean_ends (posts : list PostMetadata) :
  (2 <= length posts)%nat ->
  exists avg first last,
    post_interval_mean posts = Some avg /\
    In first posts /\ In last posts /\
    (forall p, In p posts ->
       timestamp first <= timestamp p /\ timestamp p <= timestamp last) /\
    avg * inject_Z (Z.of_nat (length posts - 1)) * 3600 ==
      timestamp last - timestamp first.
Proof.
  intro Hn. unfold post_interval_mean.
  destruct (Nat.ltb_spec 1 (length posts)) as [_|C]; [|lia].
  pose proof (by_timestamp_perm posts) as P.
  pose proof (by_timestamp_sorted posts) as Hsorted.
  pose proof (Permutation_length P) as L.
  destruct (by_timestamp posts) as [|f rest] eqn:E; [cbn in L; lia|].
  eexists. exists f, (last rest f).
  split; [reflexivity|].
  split; [apply (Permutation_in _ P); now left|].
  split; [apply (Permutation_in _ P), last_in|].
  split.
  - intros p Hp. apply (Permutation_in _ (Permutation_sym P)) in Hp.
    split.
    + inversion Hsorted as [|? ? _ Hf]; subst. destruct Hp as [->|Hp]; [lra|].
      rewrite Forall_forall in Hf. specialize (Hf p Hp).
      now apply Qltb_ge in Hf.
    + destruct (sorted_last _ rest f Hsorted p Hp) as [->|H]; [lra|].
      now apply Qltb_ge in H.
  - rewrite time_diffs_length, length_map. cbn [map].
    unfold py_sum_Q. rewrite time_diffs_sum.
    rewrite (last_map timestamp rest f).
    rewrite L.
    set (k := inject_Z (Z.of_nat (length posts - 1))).
    assert (Hk : 0 < k).
    { unfold k. change 0 with (inject_Z 0). rewrite <- Zlt_Qlt. lia. }
    field. lra.
Qed.

(** X14.  For a single post [temporal_analysis] reports no mean interval.
    For two posts or more the mean interval, before it is rounded, is the
    time from the earliest post to the latest, in hours, divided by the
    number of posts less one; it is not negative; and the dict holds
    [None] instead of a number exactly when all posts have the same
    timestamp. *)
Theorem mean_interval_is_the_span_over_the_gaps (posts : list PostMetadata) :
  (length posts = 1%nat ->
   exists t, temporal_analysis posts = Some t /\
             avg_post_interval_hours t = None) /\
  ((2 <= length posts)%nat ->
   exists avg first last t,
     post_interval_mean posts = Some avg /\
     In first posts /\ In last posts /\
     (forall p, In p posts ->
        timestamp first <= timestamp p /\ timestamp p <= timestamp last) /\
     avg * inject_Z (Z.of_nat (length posts - 1)) * 3600 ==
       timestamp last - timestamp first /\
     0 <= avg /\
     temporal_analysis posts = Some t /\
     (avg_post_interval_hours t = None <->
      timestamp last == timestamp first) /\
     (~ timestamp last == timestamp first ->
      exists reported, avg_post_interval_hours t = Some reported /\
                       avg - (1 # 200) <= reported <= avg + (1 # 200))).
Proof.
  split.
  - intro H1. destruct posts as [|p [|q r]]; try discriminate.
    eexists. split; reflexivity.
  - intro Hn.
    destruct (post_interval_mean_ends posts Hn)
      as (avg & first & last & Em & Hf & Hl & Hb & Hs).
    set (k := inject_Z (Z.of_nat (length posts - 1))) in *.
    assert (Hk : 0 < k).
    { unfold k. change 0 with (inject_Z 0). rewrite <- Zlt_Qlt. lia. }
    assert (Hspan : 0 <= timestamp last - timestamp first).
    { destruct (Hb first Hf). lra. }
    assert (Havg : avg == (timestamp last - timestamp first) / (k * 3600)).
    { rewrite <- Hs. field. lra. }
    assert (Hpos : 0 <= avg).
    { rewrite Havg. apply Qle_shift_div_l; lra. }
    assert (Hzero : avg == 0 <-> timestamp last == timestamp first).
    { split; intro Z.
      - rewrite Z in Hs. lra.
      - rewrite Havg. assert (D : timestamp last - timestamp first == 0) by lra.
        rewrite D. field. lra. }
    destruct posts as [|p0 r]; [cbn in Hn; lia|].
    exists avg, first, last. eexists.
    split; [exact Em|]. split; [exact Hf|]. split; [exact Hl|].
    split; [exact Hb|]. split; [exact Hs|]. split; [exact Hpos|].
    split; [reflexivity|].
    cbn [avg_post_interval_hours]. cbn zeta. rewrite Em.
    destruct (Qeq_bool avg 0) eqn:Eq.
    + apply Qeq_bool_iff in Eq. split.
      * split; [intros _; now apply Hzero|reflexivity].
      * intro Hne. exfalso. apply Hne. now apply Hzero.
    + assert (Hnz : ~ avg == 0).
      { intro Z. apply Qeq_bool_iff in Z. congruence. }
      split.
      * split; [discriminate|]. intro Z. exfalso. apply Hnz. now apply Hzero.
      * intros _. eexists. split; [reflexivity|].
        destruct (py_round_close avg 2) as [Lo Hi].
        assert (E : (1 # 2) / 10 ^ 2 == 1 # 200) by reflexivity.
        rewrite E in Lo, Hi. split; assumption.
Qed.

Lemma mean_interval_is_the_span_over_the_gaps_witness :
  (2 <= length six_posts)%nat /\
  exists avg first last t,
    post_interval_mean six_posts = Some avg /\
    timestamp first == 3600 * 6 /\
    timestamp last == 3600 * 102 + 59 /\
    avg * inject_Z (Z.of_nat (length six_posts - 1)) * 3600 ==
      timestamp last - timestamp first /\
    0 <= avg /\
    temporal_analysis six_posts = Some t /\
    option_map Qred (avg_post_interval_hours t) = Some (96 # 5).
Proof.
  assert (Hn : (2 <= length six_posts)%nat) by (cbn; lia).
  split; [exact Hn|].
  destruct (proj2 (mean_interval_is_the_span_over_the_gaps six_posts) Hn)
    as (avg & first & last & t & Em & Hf & Hl & Hb & Hs & Hp & Et & _).
  exists avg, first, last, t.
  assert (Hmin : In (post_with 3 10 2 (3600 * 6)) six_posts)
    by (cbn; tauto).
  assert (Hmax : In (post_with 5 99 1 (3600 * 102 + 59)) six_posts)
    by (cbn; tauto).
  assert (Hall : forall p, In p six_posts ->
            3600 * 6 <= timestamp p /\ timestamp p <= 3600 * 102 + 59).
  { intros p Hp'. cbn in Hp'.
    repeat (destruct Hp' as [<-|Hp']; [split; apply Qle_bool_iff; reflexivity|]).
    destruct Hp'. }
  split; [exact Em|].
  split.
  { destruct (Hb _ Hmin) as [A _]. destruct (Hall _ Hf) as [B _].
    cbn [timestamp post_with] in A. lra. }
  split.
  { destruct (Hb _ Hmax) as [_ A]. destruct (Hall _ Hl) as [_ B].
    cbn [timestamp post_with] in A. lra. }
  split; [exact Hs|]. split; [exact Hp|]. split; [exact Et|].
  inversion Et. vm_compute. reflexivity.
Defined.

(** ** The hashtags of a caption *)

Section FindallFacts.

Variable is_word : N -> bool.

Let scan := scan_hashtags is_word.
Let findall := findall_hashtags is_word.
Let word_of := take_word is_word.

(** A tag as the pattern can capture it: one word character or more. *)
Let tag_ok (tag : py_str) : Prop := tag <> [] /\ forallb is_word tag = true.

Lemma take_word_spec s :
  let (w, rest) := word_of s in
  s = w ++ rest /\ forallb is_word w = true /\
  match rest with
  | [] => True
  | c :: _ => is_word c = false
  end.
Proof.
  unfold word_of. induction s as [|c r IH]; cbn [take_word].
  - repeat split.
  - destruct (is_word c) eqn:E.
    + destruct (take_word is_word r) as [w rest]. destruct IH as (-> & Hw & Hr).
      cbn [app forallb]. rewrite E, Hw. repeat split. exact Hr.
    + repeat split. exact E.
Qed.

(** After a [#] and the word characters [acc], the pass reads on to the end
    of the run, yields the run if it is not empty and starts afresh. *)
Lemma scan_pending s : forall acc,
  scan s (Some acc) =
    let (w, rest) := word_of s in
    emit (rev w ++ acc) ++ scan rest None.
Proof.
  unfold scan, word_of. induction s as [|c r IH]; intro acc.
  - cbn. now rewrite app_nil_r.
  - cbn [scan_hashtags take_word]. destruct (is_word c) eqn:E.
    + rewrite IH. destruct (take_word is_word r) as [w rest].
      cbn [rev]. now rewrite <- app_assoc.
    + cbn [rev app scan_hashtags]. reflexivity.
Qed.

Lemma emit_rev w : emit (rev w ++ []) = match w with [] => [] | _ => [w] end.
Proof.
  rewrite app_nil_r. destruct w as [|c w]; [reflexivity|].
  unfold emit. destruct (rev (c :: w)) eqn:E.
  - apply (f_equal (@length N)) in E. rewrite length_rev in E. discriminate.
  - now rewrite <- E, rev_involutive.
Qed.

Lemma scan_tags_ok s : forall pending,
  match pending with
  | Some acc => forallb is_word acc = true
  | None => True
  end ->
  Forall tag_ok (scan s pending).
Proof.
  assert (Hemit : forall acc, forallb is_word acc = true ->
                              Forall tag_ok (emit acc)).
  { intros [|c acc] H; [constructor|]. unfold emit.
    constructor; [|constructor]. split.
    - intro Z. apply (f_equal (@length N)) in Z.
      rewrite length_rev in Z. discriminate.
    - rewrite forallb_forall in H |- *. intros x Hx. apply H.
      now apply in_rev. }
  unfold scan. induction s as [|c r IH]; intros pending Hp.
  - cbn. destruct pending; [now apply Hemit|constructor].
  - cbn [scan_hashtags]. destruct pending as [acc|].
    + destruct (is_word c) eqn:E.
      * apply IH. cbn [forallb]. now rewrite E, Hp.
      * apply Forall_app. split; [now apply Hemit|].
        apply IH. destruct (is_hash c); exact I || reflexivity.
    + apply IH. destruct (is_hash c); exact I || reflexivity.
Qed.

Lemma emit_length acc : (length (emit acc) <= 1)%nat.
Proof. destruct acc; cbn; lia. Qed.

Lemma scan_count s : forall pending,
  (length (scan s pending) <=
   length (filter is_hash s) +
   match pending with Some _ => 1 | None => 0 end)%nat.
Proof.
  unfold scan. induction s as [|c r IH]; intro pending.
  - cbn [scan_hashtags filter length].
    destruct pending as [acc|]; [pose proof (emit_length acc)|cbn]; lia.
  - cbn [scan_hashtags filter]. destruct pending as [acc|].
    + destruct (is_word c) eqn:E.
      * specialize (IH (Some (c :: acc))). cbv beta iota in IH.
        destruct (is_hash c); cbn [length]; lia.
      * rewrite length_app. pose proof (emit_length acc).
        destruct (is_hash c).
        -- specialize (IH (Some [])). cbv beta iota in IH. cbn [length]. lia.
        -- specialize (IH None). cbv beta iota in IH. lia.
    + destruct (is_hash c).
      * specialize (IH (Some [])). cbv beta iota in IH. cbn [length]. lia.
      * specialize (IH None). cbv beta iota in IH. lia.
Qed.

(** X15.  The hashtags taken from a caption are what a scan from the left
    finds: at a [#] that is followed by one word character or more, the
    longest run of word characters after it, the scan going on behind that
    run; at any other character, nothing, the scan going on behind it.  So
    every tag is a run of one word character or more, a caption without
    [#] has no tags, and there are at most as many tags as the caption has
    [#]. *)
Theorem hashtags_are_runs_after_a_hash (caption : py_str) :
  findall [] = [] /\
  (forall c s,
     findall (c :: s) =
       if is_hash c then
         let (w, rest) := word_of s in
         match w with
         | [] => findall s
         | _ :: _ => w :: findall rest
         end
       else findall s) /\
  Forall (fun tag => tag <> [] /\ forallb is_word tag = true)
         (findall caption) /\
  (length (findall caption) <= length (filter is_hash caption))%nat /\
  (filter is_hash caption = [] -> findall caption = []).
Proof.
  split; [reflexivity|]. split.
  - intros c s. unfold findall, findall_hashtags. cbn [scan_hashtags].
    destruct (is_hash c); [|reflexivity].
    change (scan_hashtags is_word s (Some [])) with (scan s (Some [])).
    rewrite scan_pending.
    pose proof (take_word_spec s) as Hs.
    destruct (word_of s) as [w rest]. destruct Hs as (Es & Hw & Hr).
    rewrite emit_rev. destruct w as [|x w].
    + cbn [app] in Es |- *. now subst.
    + reflexivity.
  - assert (Hc : (length (findall caption) <=
                  length (filter is_hash caption))%nat).
    { pose proof (scan_count caption None) as H. unfold findall, findall_hashtags.
      unfold scan in H. lia. }
    split; [apply (scan_tags_ok caption None I)|]. split; [exact Hc|].
    intro H0. rewrite H0 in Hc. cbn in Hc.
    destruct (findall caption); [reflexivity|cbn in Hc; lia].
Qed.

End FindallFacts.

Lemma hashtags_are_runs_after_a_hash_witness :
  findall_hashtags ascii_word some_caption = [[98; 49]; [99]]%N /\
  Forall (fun tag => tag <> [] /\ forallb ascii_word tag = true)
         (findall_hashtags ascii_word some_caption) /\
  (length (findall_hashtags ascii_word some_caption) <=
   length (filter is_hash some_caption))%nat.
Proof.
  destruct (hashtags_are_runs_after_a_hash ascii_word some_caption)
    as (_ & _ & T & C & _).
  split; [reflexivity|]. split; [exact T|exact C].
Defined.

(** * The burst count between calls *)

Lemma burst_inv_kept_refl w : burst_inv_kept w w.
Proof. intro H. exact H. Qed.

Lemma burst_inv_kept_trans a b c :
  burst_inv_kept a b -> burst_inv_kept b c -> burst_inv_kept a c.
Proof. unfold burst_inv_kept. auto. Qed.

Lemma burst_inv_kept_sleep d w : 0 <= d -> burst_inv_kept w (after_sleep d w).
Proof. intros _ [A B C]. constructor; assumption. Qed.

Ltac burst_facts :=
  first [ exact burst_inv_kept_refl | exact burst_inv_kept_trans
        | exact burst_inv_kept_sleep ].

Lemma burst_inv_kept_cooldown_check now :
  steady burst_inv_kept (cooldown_check now).
Proof.
  intros w. unfold cooldown_check, bind, get_state.
  destruct (is_cooling_down (state w)); [|apply burst_inv_kept_refl].
  destruct (cooldown_until (state w)) as [until|]; [|apply burst_inv_kept_refl].
  destruct (Qltb now until).
  - apply steady_sleep_with_progress; burst_facts.
  - intros [A B C]. constructor; cbn; [exact A|lia|lia].
Qed.

Lemma burst_inv_kept_burst_detection now :
  steady burst_inv_kept (burst_detection now).
Proof.
  intros w [A B C].
  assert (Hreset : burst_inv
            (with_state (set_burst_count 1 (set_burst_start now (state w))) w)).
  { constructor; cbn; [exact A|lia|lia]. }
  destruct (burst_start (state w)) as [start|] eqn:Es.
  - destruct (Qltb_spec (now - start) 10) as [W|W].
    + destruct (Z.leb_spec (burst_limit (config w)) (burst_count (state w) + 1))
        as [L|L].
      * pose proof (burst_detection_triggers now w start Es W L A) as T.
        cbv zeta in T. rewrite T. cbn [snd].
        match goal with
        | |- context [after_progress ?d (with_state ?s w)] =>
            set (w0 := with_state s w);
            destruct (after_progress_fields d w0) as (_ & Hc & _)
        end.
        constructor; cbn [config state with_state burst_count set_burst_count];
          rewrite ?Hc; [exact A|lia|lia].
      * unfold burst_detection, bind, get_state, get_config. rewrite Es.
        destruct (Qltb_spec (now - start) 10); [|lra].
        cbn [modify_state put_state state with_state burst_count set_burst_count].
        apply Z.leb_gt in L. rewrite L. apply Z.leb_gt in L.
        cbn [snd ret]. constructor; cbn; [exact A|lia|lia].
    + unfold burst_detection, bind, get_state, get_config. rewrite Es.
      destruct (Qltb_spec (now - start) 10); [lra|exact Hreset].
  - unfold burst_detection, bind, get_state, get_config. rewrite Es.
    exact Hreset.
Qed.

Lemma burst_inv_kept_wait_if_needed j h :
  steady burst_inv_kept (wait_if_needed j h).
Proof.
  unfold wait_if_needed, steps_after_cooldown.
  apply steady_bind;
    [burst_facts|apply steady_datetime_now; burst_facts|intro now].
  apply steady_bind;
    [burst_facts|apply burst_inv_kept_cooldown_check|intros _].
  apply steady_bind; [burst_facts| |intros _].
  - apply steady_bind; [burst_facts| |intros _].
    + apply steady_rolling_window_check; burst_facts.
    + apply steady_bind; [burst_facts| |intros _].
      * apply steady_min_delay_check; burst_facts.
      * apply burst_inv_kept_burst_detection.
  - apply steady_human_randomization; burst_facts.
Qed.

Lemma burst_inv_step w w' : gov_step w w' -> burst_inv w -> burst_inv w'.
Proof.
  intros [w0 d Hd|w0 j h|w0|w0] H.
  - destruct H. constructor; assumption.
  - now apply burst_inv_kept_wait_if_needed.
  - destruct H. rewrite record_request_run. constructor; assumption.
  - exact H.
Qed.

Lemma config_step w w' : gov_step w w' -> config w' = config w.
Proof.
  intros [w0 d Hd|w0 j h|w0|w0]; try reflexivity.
  apply gov_frame_wait_if_needed.
Qed.

Lemma burst_inv_steps w w' :
  gov_steps w w' -> burst_inv w -> burst_inv w' /\ config w' = config w.
Proof.
  induction 1 as [|w1 w2 w3 _ IH Hs]; intro H; [now split|].
  destruct (IH H) as [I C]. split.
  - eapply burst_inv_step; eassumption.
  - rewrite <- C. now apply config_step.
Qed.

(** X16.  After any sequence of calls and lapses of time, begun with a new
    governor whose cooldown length is not negative, the configuration is
    the one it was created with and the burst count is at least 0 and below
    [burst_limit], or at most 1 when [burst_limit] is 2 or less: between
    calls the count never stands at the limit. *)
Theorem burst_count_stays_below_the_limit
    (cfg : rate_limit_config) (stealth : bool) (t0 : Q) (w : world)
    (Hcd : 0 <= cooldown_after_burst cfg)
    (Hrun : gov_steps (IntelligentRateLimiter_init cfg stealth t0) w) :
  config w = cfg /\
  (0 <= burst_count (state w))%Z /\
  (burst_count (state w) <= Z.max 1 (burst_limit cfg - 1))%Z.
Proof.
  destruct (burst_inv_steps _ _ Hrun) as [[A B C] E].
  - constructor; cbn; [exact Hcd|lia|lia].
  - cbn in E. rewrite E in C. repeat split; assumption.
Qed.

Lemma burst_count_stays_below_the_limit_witness :
  let w0 := IntelligentRateLimiter_init default_rate_limit true 0 in
  0 <= cooldown_after_burst default_rate_limit /\
  gov_steps w0 busy_hour_world /\
  config busy_hour_world = default_rate_limit /\
  (0 <= burst_count (state busy_hour_world))%Z /\
  (burst_count (state busy_hour_world) <=
   Z.max 1 (burst_limit default_rate_limit - 1))%Z.
Proof.
  intro w0.
  assert (Hc : 0 <= cooldown_after_burst default_rate_limit)
    by (apply Qle_bool_iff; reflexivity).
  split; [exact Hc|]. split; [exact busy_hour_world_arises|].
  exact (burst_count_stays_below_the_limit default_rate_limit true 0
           busy_hour_world Hc busy_hour_world_arises).
Defined.

(** * The cooldown between calls *)












Lemma late_in_window_world_arises :
  gov_steps (IntelligentRateLimiter_init default_rate_limit false 0)
            late_in_window_world.
Proof.
  unfold late_in_window_world.
  eapply steps_next; [|apply step_time; apply Qle_bool_iff; reflexivity].
  apply gov_steps_admit_and_record; [apply Qle_bool_iff; reflexivity|].
  apply gov_steps_admit_and_record; [apply Qle_bool_iff; reflexivity|].
  apply steps_refl.
Qed.




(** ** The time a call judges by *)

(** C2 as stated fails.  A new governor admits and records a request at
    once and another nine seconds later; the next call begins half a second
    after that, 9.5 seconds after the burst window opened, and its spacing
    step suspends it for a second and a half, to 11 seconds.  Burst
    detection then judges by the 9.5 read when the call began: it finds
    the window less than 10 seconds old and counts a third request in it.
    Steps that read the clock afresh would find the window over and open a
    new one at 11 with a count of 1. *)
Lemma later_steps_do_not_see_the_wait :
  let w := late_in_window_world in
  let r := wait_if_needed 0 1 w in
  let r' := admit_with_fresh_now 0 1 w in
  gov_steps (IntelligentRateLimiter_init default_rate_limit false 0) w /\
  clock w == 19 # 2 /\
  last_request (state w) = Some 9 /\
  burst_start (state w) = Some 0 /\
  fst r = Ok tt /\
  (exists d, slept (snd (min_delay_check (clock w) 0 w)) = [d] /\ d == 3 # 2) /\
  clock (snd r) == 11 /\
  burst_count (state (snd r)) = 3%Z /\
  burst_start (state (snd r)) = Some 0 /\
  burst_count (state (snd r')) = 1%Z /\
  (exists t, burst_start (state (snd r')) = Some t /\ t == 11) /\
  r <> r'.
Proof.
  intros w r r'.
  split; [exact late_in_window_world_arises|].
  split; [vm_compute; reflexivity|]. split; [vm_compute; reflexivity|].
  split; [vm_compute; reflexivity|]. split; [vm_compute; reflexivity|].
  split; [eexists; split; vm_compute; reflexivity|].
  split; [vm_compute; reflexivity|]. split; [vm_compute; reflexivity|].
  split; [vm_compute; reflexivity|]. split; [vm_compute; reflexivity|].
  split; [eexists; split; vm_compute; reflexivity|].
  intro H. vm_compute in H. discriminate H.
Qed.
